(** * Jalali calendar for ERPNext: conversion engine and preference resolver

    A shallow embedding of [jalali_calendar/api/converter.py] and
    [jalali_calendar/api/preferences.py].  Python integers are [Z] (they are
    unbounded, and [//], [%] with a positive divisor are [Z.div], [Z.modulo]);
    Python strings are [string]s read as sequences of code points below 256;
    raised exceptions are the [Raise] branch of [result].  The interpreter is
    CPython with its defaults: [datetime.date] is the C implementation, whose
    constructor reads its arguments as C [int]s of 32 bits, and conversions
    between [int] and decimal text are limited to 4300 digits. *)

From Stdlib Require Import ZArith Lia List Bool Ascii String.
From stdpp Require Import base option gmap strings.

Local Open Scope Z_scope.

(** ** Exceptions and the error monad *)

Inductive exn : Type :=
  | ValueError
  | TypeError
  | IndexError
  | RuntimeError
  | OverflowError
  | AttributeError.

Inductive result (A : Type) : Type :=
  | OK (a : A)
  | Raise (e : exn).

Arguments OK {A} a.
Arguments Raise {A} e.

Definition rbind {A B : Type} (r : result A) (k : A -> result B) : result B :=
  match r with
  | OK a => k a
  | Raise e => Raise e
  end.

Notation "'let!' x ':=' r 'in' k" := (rbind r (fun x => k))
  (at level 10, x pattern, r at level 100, k at level 200).

(** ** The host's [datetime.date]

    [date(y, m, d)] first reads its three arguments as C [int]s and raises
    [OverflowError] when one of them does not fit; it then checks the fields
    and raises [ValueError] outside [1..9999], [1..12] and
    [1..days_in_month]; dates compare field by field and subtract through
    their proleptic ordinals. *)

Module PyDate.

Record date : Type := mkdate { year : Z; month : Z; day : Z }.

Definition MINYEAR : Z := 1.
Definition MAXYEAR : Z := 9999.

Definition C_INT_MIN : Z := -2147483648.
Definition C_INT_MAX : Z := 2147483647.

Definition fits_c_int (n : Z) : bool := (C_INT_MIN <=? n) && (n <=? C_INT_MAX).

Definition _is_leap (y : Z) : bool :=
  (y mod 4 =? 0) && (negb (y mod 100 =? 0) || (y mod 400 =? 0)).

Definition _days_in_month (y m : Z) : Z :=
  if (m =? 2) then (if _is_leap y then 29 else 28)
  else if (m =? 4) || (m =? 6) || (m =? 9) || (m =? 11) then 30
  else 31.

Definition _days_before_year (y : Z) : Z :=
  let y' := y - 1 in
  y' * 365 + y' / 4 - y' / 100 + y' / 400.

(** [_DAYS_BEFORE_MONTH[m]] plus the leap day once February is over. *)
Definition _days_before_month (y m : Z) : Z :=
  match m with
  | 1 => 0 | 2 => 31 | 3 => 59 | 4 => 90 | 5 => 120 | 6 => 151
  | 7 => 181 | 8 => 212 | 9 => 243 | 10 => 273 | 11 => 304 | _ => 334
  end + (if (2 <? m) && _is_leap y then 1 else 0).

Definition new (y m d : Z) : result date :=
  if negb (fits_c_int y && fits_c_int m && fits_c_int d)
  then Raise OverflowError
  else if negb ((MINYEAR <=? y) && (y <=? MAXYEAR)) then Raise ValueError
  else if negb ((1 <=? m) && (m <=? 12)) then Raise ValueError
  else if negb ((1 <=? d) && (d <=? _days_in_month y m)) then Raise ValueError
  else OK (mkdate y m d).

Definition toordinal (a : date) : Z :=
  _days_before_year (year a) + _days_before_month (year a) (month a) + day a.

(** [a < b] *)
Definition lt (a b : date) : bool :=
  (year a <? year b)
  || ((year a =? year b)
      && ((month a <? month b)
          || ((month a =? month b) && (day a <? day b)))).

(** [(a - b).days] *)
Definition sub_days (a b : date) : Z := toordinal a - toordinal b.

Definition valid (a : date) : Prop := new (year a) (month a) (day a) = OK a.

End PyDate.

Abbreviation date := PyDate.date.

(** ** converter.py *)

Definition _GREGORIAN_MONTH_LENGTHS : list Z :=
  [31; 28; 31; 30; 31; 30; 31; 31; 30; 31; 30; 31].
Definition _JALALI_MONTH_LENGTHS : list Z :=
  [31; 31; 31; 31; 31; 31; 30; 30; 30; 30; 30; 29].

(** The fields of a [JalaliDate]; the checked constructor is
    [JalaliDate_init] below. *)
Record JalaliDate : Type := mkJalaliDate { jyear : Z; jmonth : Z; jday : Z }.

Definition _is_gregorian_leap (year : Z) : bool :=
  (year mod 4 =? 0) && (negb (year mod 100 =? 0) || (year mod 400 =? 0)).

(** The values the two [coerce_*] functions are handed. *)
Inductive value : Type :=
  | VDate (d : date)
  | VDatetime (d : date) (seconds : Z)
  | VJalali (j : JalaliDate)
  | VStr (s : string)
  | VInts (l : list Z)
  | VNone.

(** *** Strings: [str.replace], [str.split], [int] *)

(** [sys.get_int_max_str_digits()]: the most digits [int] reads from a string
    and writes to one; beyond it the conversion raises [ValueError]. *)
Definition MAX_STR_DIGITS : Z := 4300.

(** [s.replace("/", "-")] *)
Fixpoint replace_slash (s : string) : string :=
  match s with
  | EmptyString => EmptyString
  | String c s' =>
      String (if Ascii.eqb c "/" then "-"%char else c) (replace_slash s')
  end.

(** [s.split("-")]: never empty, one more token than there are dashes. *)
Fixpoint split_dash (s : string) : list string :=
  match s with
  | EmptyString => [EmptyString]
  | String c s' =>
      if Ascii.eqb c "-" then EmptyString :: split_dash s'
      else match split_dash s' with
           | tok :: rest => String c tok :: rest
           | [] => [String c EmptyString]
           end
  end.

(** White space [int] skips around the literal: tab to carriage return and
    the blank, and the two non-ASCII blanks below 256. *)
Definition int_space (c : ascii) : bool :=
  let n := Z.of_nat (nat_of_ascii c) in
  ((9 <=? n) && (n <=? 13)) || (n =? 32) || (n =? 133) || (n =? 160).

Definition digit_of (c : ascii) : option Z :=
  let n := Z.of_nat (nat_of_ascii c) in
  if (48 <=? n) && (n <=? 57) then Some (n - 48) else None.

Fixpoint lstrip_int (s : string) : string :=
  match s with
  | String c s' => if int_space c then lstrip_int s' else s
  | EmptyString => EmptyString
  end.

(** The digits of a literal after its sign, [acc] holding the value read so
    far and [prev_digit] telling whether the last character was a digit: an
    underscore needs a digit on both sides, and only blanks may follow. *)
Fixpoint int_digits (s : string) (acc : Z) (prev_digit : bool) : option Z :=
  match s with
  | EmptyString => if prev_digit then Some acc else None
  | String c s' =>
      match digit_of c with
      | Some d => int_digits s' (10 * acc + d) true
      | None =>
          if Ascii.eqb c "_" then
            (if prev_digit then
               match s' with
               | String c' _ =>
                   match digit_of c' with
                   | Some _ => int_digits s' acc false
                   | None => None
                   end
               | EmptyString => None
               end
             else None)
          else if prev_digit && int_space c
               && (match lstrip_int s' with
                   | EmptyString => true
                   | _ => false
                   end)
          then Some acc
          else None
      end
  end.

(** The number of digits of a literal, underscores and blanks not
    counted. *)
Fixpoint digit_count (s : string) : Z :=
  match s with
  | EmptyString => 0
  | String c s' =>
      match digit_of c with
      | Some _ => 1 + digit_count s'
      | None => digit_count s'
      end
  end.

(** [int(s)] for a string [s]: a literal of more than [MAX_STR_DIGITS]
    digits raises [ValueError], as a malformed one does. *)
Definition py_int (s : string) : result Z :=
  let body := lstrip_int s in
  let '(sign, rest) :=
    match body with
    | String c s' =>
        if Ascii.eqb c "-" then (-1, s')
        else if Ascii.eqb c "+" then (1, s')
        else (1, body)
    | EmptyString => (1, body)
    end in
  if MAX_STR_DIGITS <? digit_count rest then Raise ValueError
  else
    match int_digits rest 0 false with
    | Some n => OK (sign * n)
    | None => Raise ValueError
    end.

(** The string branch the two [coerce_*] functions share: three tokens or
    [ValueError], then [tuple(int(part) for part in tokens)]. *)
Definition coerce_string (s : string) : result (Z * Z * Z) :=
  let tokens := split_dash (replace_slash s) in
  match tokens with
  | [a; b; c] =>
      let! y := py_int a in
      let! m := py_int b in
      let! d := py_int c in
      OK (y, m, d)
  | _ => Raise ValueError
  end.

(** [year, month, day = value] for a sequence of integers *)
Definition unpack3 (l : list Z) : result (Z * Z * Z) :=
  match l with
  | [y; m; d] => OK (y, m, d)
  | _ => Raise TypeError
  end.

Definition coerce_gregorian (v : value) : result (Z * Z * Z) :=
  match v with
  | VDatetime d _ => OK (PyDate.year d, PyDate.month d, PyDate.day d)
  | VDate d => OK (PyDate.year d, PyDate.month d, PyDate.day d)
  | VStr s => coerce_string s
  | VInts l => unpack3 l
  | VJalali _ | VNone => Raise TypeError
  end.

Definition coerce_jalali (v : value) : result (Z * Z * Z) :=
  match v with
  | VJalali j => OK (jyear j, jmonth j, jday j)
  | VStr s => coerce_string s
  | VInts l => unpack3 l
  | VDate _ | VDatetime _ _ | VNone => Raise TypeError
  end.

(** *** Jalali to Gregorian *)

(** [for i in range(jm): j_day_no += _JALALI_MONTH_LENGTHS[i]], the loop
    counter running from [i] for [n] rounds; an index past the table raises
    [IndexError]. *)
Fixpoint add_jalali_months (n : nat) (i : nat) (j_day_no : Z) : result Z :=
  match n with
  | O => OK j_day_no
  | S n' =>
      match nth_error _JALALI_MONTH_LENGTHS i with
      | Some len => add_jalali_months n' (S i) (j_day_no + len)
      | None => Raise IndexError
      end
  end.

(** Lines 117-126: the day number of a Jalali triple, counted from the
    Gregorian epoch of the decomposition (1600-01-01 is day 0). *)
Definition g_day_no_of_jalali (jy jm jd : Z) : result Z :=
  let jy := jy - 979 in
  let jm := jm - 1 in
  let jd := jd - 1 in
  let j_day_no := 365 * jy + jy / 33 * 8 + ((jy mod 33) + 3) / 4 in
  let! j_day_no := add_jalali_months (Z.to_nat jm) 0 j_day_no in
  let j_day_no := j_day_no + jd in
  OK (j_day_no + 79).

(** Lines 128-148: the year, the day within it and the [leap] flag. *)
Definition gregorian_year_of_day (g_day_no : Z) : Z * Z * bool :=
  let gy := 1600 + 400 * (g_day_no / 146097) in
  let g_day_no := g_day_no mod 146097 in
  let leap := true in
  let '(gy, g_day_no, leap) :=
    if 36525 <=? g_day_no then
      let g_day_no := g_day_no - 1 in
      let gy := gy + 100 * (g_day_no / 36524) in
      let g_day_no := g_day_no mod 36524 in
      if 365 <=? g_day_no then (gy, g_day_no + 1, leap)
      else (gy, g_day_no, false)
    else (gy, g_day_no, leap) in
  let gy := gy + 4 * (g_day_no / 1461) in
  let g_day_no := g_day_no mod 1461 in
  if 366 <=? g_day_no then
    let leap := false in
    let g_day_no := g_day_no - 1 in
    let gy := gy + g_day_no / 365 in
    let g_day_no := g_day_no mod 365 in
    (gy, g_day_no, leap)
  else (gy, g_day_no, leap).

(** Lines 150-160: the walk over [enumerate(_GREGORIAN_MONTH_LENGTHS)] from
    index [i]; [None] is the loop's [else] branch. *)
Fixpoint month_loop (lengths : list Z) (i : Z) (leap : bool) (g_day_no : Z)
  : option (Z * Z) :=
  match lengths with
  | [] => None
  | month_len :: rest =>
      let month_length :=
        if (i =? 1) && leap then month_len + 1 else month_len in
      if g_day_no <? month_length then Some (i + 1, g_day_no + 1)
      else month_loop rest (i + 1) leap (g_day_no - month_length)
  end.

(** Lines 128-162: from the day number to the host's date. *)
Definition gregorian_of_day_no (g_day_no : Z) : result date :=
  let '(gy, g_day_no, leap) := gregorian_year_of_day g_day_no in
  match month_loop _GREGORIAN_MONTH_LENGTHS 0 leap g_day_no with
  | Some (gm, gd) => PyDate.new gy gm gd
  | None => Raise ValueError
  end.

Definition jalali_to_gregorian (v : value) : result date :=
  let! (jy, jm, jd) := coerce_jalali v in
  let! g_day_no := g_day_no_of_jalali jy jm jd in
  gregorian_of_day_no g_day_no.

Definition is_jalali_leap (year : Z) : result bool :=
  let! start := jalali_to_gregorian (VInts [year; 1; 1]) in
  let! next_start := jalali_to_gregorian (VInts [year + 1; 1; 1]) in
  OK (PyDate.sub_days next_start start =? 366).

Definition _jalali_month_length (year month : Z) : result Z :=
  if month <=? 6 then OK 31
  else if month <=? 11 then OK 30
  else
    let! leap := is_jalali_leap year in
    OK (if leap then 30 else 29).

(** [JalaliDate(year, month, day)]: the dataclass constructor followed by
    [__post_init__]. *)
Definition JalaliDate_init (year month day : Z) : result JalaliDate :=
  if negb ((1 <=? month) && (month <=? 12)) then Raise ValueError
  else
    let! max_day := _jalali_month_length year month in
    if negb ((1 <=? day) && (day <=? max_day)) then Raise ValueError
    else OK (mkJalaliDate year month day).

Definition to_gregorian (self : JalaliDate) : result date :=
  jalali_to_gregorian (VInts [jyear self; jmonth self; jday self]).

(** *** Gregorian to Jalali *)

(** Lines 97-103: the Jalali year after the conditional decrement, its first
    day and the offset [days] of the target from it. *)
Definition resolve_jalali_year (target : date)
  : result (Z * date * Z) :=
  let jy := PyDate.year target - 621 in
  let! start_of_year := jalali_to_gregorian (VInts [jy; 1; 1]) in
  let! (jy, start_of_year) :=
    if PyDate.lt target start_of_year then
      let jy := jy - 1 in
      let! start_of_year := jalali_to_gregorian (VInts [jy; 1; 1]) in
      OK (jy, start_of_year)
    else OK (jy, start_of_year) in
  OK (jy, start_of_year, PyDate.sub_days target start_of_year).

(** Lines 104-110 *)
Definition month_day_of_offset (days : Z) : Z * Z :=
  if days <? 186 then (1 + days / 31, 1 + days mod 31)
  else
    let days := days - 186 in
    (7 + days / 30, 1 + days mod 30).

Definition gregorian_to_jalali (v : value) : result JalaliDate :=
  let! (gy, gm, gd) := coerce_gregorian v in
  let! target := PyDate.new gy gm gd in
  let! (jy, _, days) := resolve_jalali_year target in
  let '(jm, jd) := month_day_of_offset days in
  JalaliDate_init jy jm jd.

(** *** [JalaliDate.isoformat] *)

Definition digit_char (d : Z) : ascii := ascii_of_nat (48 + Z.to_nat d).

(** The decimal digits of [n >= 0] in front of [acc], most significant
    first; [fuel] bounds the number of digits. *)
Fixpoint digits_onto (fuel : nat) (n : Z) (acc : string) : string :=
  match fuel with
  | O => acc
  | S fuel' =>
      let acc' := String (digit_char (n mod 10)) acc in
      if n <? 10 then acc' else digits_onto fuel' (n / 10) acc'
  end.

(** [str(n)] for [n >= 0] *)
Definition decimal (n : Z) : string :=
  digits_onto (S (Z.to_nat (Z.log2 n))) n EmptyString.

Fixpoint zeros (k : nat) (s : string) : string :=
  match k with
  | O => s
  | S k' => String "0" (zeros k' s)
  end.

(** The digits of [n] with zeros filling up to [width], after the sign:
    what [str(n).zfill(width)] writes. *)
Definition zfill (width : nat) (n : Z) : string :=
  if n <? 0 then
    let ds := decimal (- n) in
    String "-" (zeros (width - 1 - String.length ds) ds)
  else
    let ds := decimal n in
    zeros (width - String.length ds) ds.

(** [format(n, "0{width}d")]: the digits are written first, which raises
    [ValueError] when there are more than [MAX_STR_DIGITS] of them, and are
    then filled up to [width]. *)
Definition format_0d (width : nat) (n : Z) : result string :=
  if MAX_STR_DIGITS <? Z.of_nat (String.length (decimal (Z.abs n)))
  then Raise ValueError
  else OK (zfill width n).

(** [f"{year:0{wy}d}{sep}{month:0{wm}d}{sep}{day:0{wd}d}"], the fields
    formatted from left to right. *)
Definition format_fields (wy wm wd : nat) (year month day : Z) (sep : string)
  : result string :=
  let! y := format_0d wy year in
  let! m := format_0d wm month in
  let! d := format_0d wd day in
  OK (y ++ sep ++ m ++ sep ++ d)%string.

(** [f"{year:04d}{sep}{month:02d}{sep}{day:02d}"] *)
Definition isoformat_fields (year month day : Z) (sep : string)
  : result string :=
  format_fields 4 2 2 year month day sep.

Definition isoformat (self : JalaliDate) (sep : string) : result string :=
  isoformat_fields (jyear self) (jmonth self) (jday self) sep.

(** ** preferences.py

    The module is modelled as it runs without the host framework
    ([frappe = None]), on its fall-back store. *)

Module Preferences.

Definition DEFAULT_CALENDAR : string := "jalali".
Definition VALID_CALENDARS : list string := ["jalali"; "gregorian"].

Record CalendarSelection : Type :=
  mkCalendarSelection { value : string; source : string }.

(** [_FALLBACK_STORE]: the ["system"] dictionary only ever holds the key
    [None], the ["user"] dictionary maps user names to calendars. *)
Record store : Type :=
  mkstore { system_slot : option string; user_slots : gmap string string }.

Definition _FALLBACK_STORE : store := mkstore None ∅.

(** Code that reads and writes the store and may raise; a raise leaves the
    store as it was at that point. *)
Definition M (A : Type) : Type := store -> result A * store.

Definition ret {A : Type} (a : A) : M A := fun st => (OK a, st).
Definition raise {A : Type} (e : exn) : M A := fun st => (Raise e, st).
Definition bind {A B : Type} (m : M A) (k : A -> M B) : M B :=
  fun st =>
    match m st with
    | (OK a, st') => k a st'
    | (Raise e, st') => (Raise e, st')
    end.
Definition read {A : Type} (f : store -> A) : M A := fun st => (OK (f st), st).

Notation "x <- m ;; k" := (bind m (fun x => k))
  (at level 100, m at next level, k at level 200, right associativity).
Notation "m ;;; k" := (bind m (fun _ => k))
  (at level 100, k at level 200, right associativity).

(** *** [str.strip], [str.lower], truth values *)

Definition code (c : ascii) : Z := Z.of_nat (nat_of_ascii c).

(** [c.isspace()] for a code point below 256 *)
Definition is_space (c : ascii) : bool :=
  let n := code c in
  ((9 <=? n) && (n <=? 13)) || ((28 <=? n) && (n <=? 32))
  || (n =? 133) || (n =? 160).

Fixpoint lstrip (s : string) : string :=
  match s with
  | String c s' => if is_space c then lstrip s' else s
  | EmptyString => EmptyString
  end.

(** Drops the white space at the end: a space stays only if something
    other than white space follows it. *)
Fixpoint rstrip (s : string) : string :=
  match s with
  | String c s' =>
      match rstrip s' with
      | EmptyString => if is_space c then EmptyString else String c EmptyString
      | t => String c t
      end
  | EmptyString => EmptyString
  end.

Definition strip (s : string) : string := rstrip (lstrip s).

Definition lower_char (c : ascii) : ascii :=
  let n := code c in
  if ((65 <=? n) && (n <=? 90))
     || ((192 <=? n) && (n <=? 222) && negb (n =? 215))
  then ascii_of_nat (nat_of_ascii c + 32) else c.

Fixpoint lower (s : string) : string :=
  match s with
  | String c s' => String (lower_char c) (lower s')
  | EmptyString => EmptyString
  end.

(** [bool(s)] for a string, [bool(v)] for an optional string *)
Definition truthy (s : string) : bool :=
  match s with EmptyString => false | _ => true end.
(** [v or d]; with [d] the empty string it is [v] where [v] counts as
    true and an empty string where it does not. *)
Definition or_else (v : option string) (d : string) : string :=
  match v with
  | Some s => if truthy s then s else d
  | None => d
  end.

Definition in_valid (s : string) : bool :=
  existsb (String.eqb s) VALID_CALENDARS.

(** *** The functions *)

Definition _normalize_calendar (value : option string) : option string :=
  match value with
  | None => None
  | Some v =>
      let normalized := lower (strip v) in
      if in_valid normalized then Some normalized else None
  end.

Definition _require_calendar (value : option string) : M string :=
  match _normalize_calendar value with
  | Some normalized =>
      if truthy normalized then ret normalized else raise ValueError
  | None => raise ValueError
  end.

Definition _read_system_value : M (option string) := read system_slot.

Definition _write_system_value (calendar : string) : M unit :=
  fun st => (OK tt, mkstore (Some calendar) (user_slots st)).

Definition _read_user_value (user : option string) : M (option string) :=
  match user with
  | None => ret None
  | Some u => read (fun st => user_slots st !! u)
  end.

Definition _write_user_value (calendar : string) (user : option string)
  : M unit :=
  match user with
  | None => raise RuntimeError
  | Some u =>
      fun st =>
        (OK tt, mkstore (system_slot st) (<[u := calendar]> (user_slots st)))
  end.

Definition get_system_calendar (raw : bool) : M string :=
  stored <- _read_system_value ;;
  if raw then ret (or_else stored "")
  else ret (or_else stored DEFAULT_CALENDAR).

Definition get_user_calendar (user : option string) : M (option string) :=
  _read_user_value user.

Definition resolve_calendar (user : option string) : M CalendarSelection :=
  user_value <- get_user_calendar user ;;
  let user_value := or_else user_value "" in
  if truthy user_value then ret (mkCalendarSelection user_value "user")
  else
    system_raw <- get_system_calendar true ;;
    if truthy system_raw
    then ret (mkCalendarSelection system_raw "system")
    else ret (mkCalendarSelection DEFAULT_CALENDAR "default").

Definition set_system_calendar (calendar : option string)
  : M CalendarSelection :=
  selected <- _require_calendar calendar ;;
  _write_system_value selected ;;;
  resolve_calendar None.

Definition set_user_calendar (calendar : option string) (user : option string)
  : M CalendarSelection :=
  selected <- _require_calendar calendar ;;
  _write_user_value selected user ;;;
  resolve_calendar user.

Definition is_jalali_enabled (user : option string) : M bool :=
  resolved <- resolve_calendar user ;;
  ret (String.eqb (value resolved) "jalali").

(** The values of the context dictionary *)
Inductive ctxval : Type :=
  | CStr (s : string)
  | CBool (b : bool).

Definition get_preference_context (user : option string)
  : M (gmap string ctxval) :=
  resolved <- resolve_calendar user ;;
  let context : gmap string ctxval :=
    <["is_jalali_enabled" := CBool (String.eqb (value resolved) "jalali")]>
      (<["source" := CStr (source resolved)]>
         (<["active_calendar" := CStr (value resolved)]> ∅)) in
  system_raw <- get_system_calendar true ;;
  let context :=
    if truthy system_raw
    then <["system_calendar" := CStr system_raw]> context else context in
  user_raw <- get_user_calendar user ;;
  let user_raw := or_else user_raw "" in
  let context :=
    if truthy user_raw
    then <["user_calendar" := CStr user_raw]> context else context in
  ret context.

Definition set_calendar_preference
  (scope : option string) (calendar : option string) (user : option string)
  : M (gmap string ctxval) :=
  let normalized_scope :=
    lower (strip (or_else scope "user")) in
  if String.eqb normalized_scope "system" then
    set_system_calendar calendar ;;;
    get_preference_context None
  else if String.eqb normalized_scope "user" then
    set_user_calendar calendar user ;;;
    get_preference_context user
  else raise ValueError.

Definition get_calendar_preference (user : option string)
  : M (gmap string ctxval) :=
  get_preference_context user.

(** *** What the statements about the setters speak about *)

(** A calendar argument the setters take: a string whose trimmed,
    lowercased form is one of the two names. *)
Definition valid_calendar_name (c : option string) : Prop :=
  exists s, c = Some s
            /\ (lower (strip s) = "jalali" \/ lower (strip s) = "gregorian").

(** No override is stored for the user a call resolves for. *)
Definition user_unset (st : store) (user : option string) : Prop :=
  match user with
  | None => True
  | Some name => user_slots st !! name = None
  end.

(** A store as the setters leave it: every slot that is set holds one of
    the two calendar names. *)
Definition calendar_name (s : string) : Prop :=
  s = "jalali" \/ s = "gregorian".

Definition store_wf (st : store) : Prop :=
  (forall v, system_slot st = Some v -> calendar_name v)
  /\ (forall u v, user_slots st !! u = Some v -> calendar_name v).

(** What resolution amounts to on such a store. *)
Definition resolved (st : store) (user : option string) : CalendarSelection :=
  match user ≫= (fun name => user_slots st !! name) with
  | Some v => mkCalendarSelection v "user"
  | None =>
      match system_slot st with
      | Some v => mkCalendarSelection v "system"
      | None => mkCalendarSelection DEFAULT_CALENDAR "default"
      end
  end.

End Preferences.

(** ** boot.py

    The payload of [boot_session] is a dictionary (an instance of [dict] or
    of a subclass), an object with an instance dictionary, which takes any
    attribute, or an object without one ([None], an [int], an [object()]),
    on which [setattr] raises [AttributeError]; [V] stands for whatever else
    the payload holds. *)

Module Boot.

Inductive payload_value (V : Type) : Type :=
  | PContext (context : gmap string Preferences.ctxval)
  | POther (v : V).

Arguments PContext {V} context.
Arguments POther {V} v.

Inductive bootinfo (V : Type) : Type :=
  | BDict (items : gmap string (payload_value V))
  | BObject (attrs : gmap string (payload_value V))
  | BSealed (v : V).

Arguments BDict {V} items.
Arguments BObject {V} attrs.
Arguments BSealed {V} v.

(** [d.setdefault(key, value)], for the dictionary it leaves behind *)
Definition setdefault {A : Type} (key : string) (v : A) (d : gmap string A)
  : gmap string A :=
  match d !! key with
  | Some _ => d
  | None => <[key := v]> d
  end.

(** Lines 11-14: the payload as the hook leaves it, given the context. *)
Definition inject_context {V : Type}
  (context : gmap string Preferences.ctxval) (info : bootinfo V)
  : result (bootinfo V) :=
  match info with
  | BDict items =>
      OK (BDict (setdefault "jalali_calendar" (PContext context) items))
  | BObject attrs =>
      OK (BObject (<["jalali_calendar" := PContext context]> attrs))
  | BSealed _ => Raise AttributeError
  end.

Definition boot_session {V : Type} (info : bootinfo V)
  : Preferences.M (bootinfo V) :=
  Preferences.bind (Preferences.get_preference_context None)
    (fun context st => (inject_context context info, st)).

End Boot.

(** ** Quantities the statements below speak about *)

(** [date(1600, 1, 1).toordinal() - 1]: what separates the day numbers of
    [jalali_to_gregorian] from the host's ordinals. *)
Definition EPOCH_1600 : Z := 584022.

Definition gregorian_year_length (y : Z) : Z :=
  if _is_gregorian_leap y then 366 else 365.

(** Day number of the first day of a Jalali year: lines 117-126 at
    [(jy, 1, 1)]. *)
Definition jalali_year_start (jy : Z) : Z :=
  let jy := jy - 979 in
  365 * jy + jy / 33 * 8 + ((jy mod 33) + 3) / 4 + 79.

(** Days before the Jalali month [jm], for [1 <= jm <= 13]. *)
Definition jalali_days_before_month (jm : Z) : Z :=
  if jm <=? 7 then 31 * (jm - 1)
  else if jm <=? 12 then 186 + 30 * (jm - 7)
  else 365.

(** What [__post_init__] accepts, with the month length read off the day
    numbers of the two year starts. *)
Definition jalali_year_days (jy : Z) : Z :=
  jalali_year_start (jy + 1) - jalali_year_start jy.

Definition valid_jalali_fields (jy jm jd : Z) : Prop :=
  1 <= jm <= 12 /\ 1 <= jd
  /\ jalali_days_before_month jm + jd <= jalali_year_days jy
  /\ (jm <= 6 -> jd <= 31) /\ (7 <= jm -> jd <= 30).

(** The Gregorian years of the supported range, and the Jalali years that
    have a day in them: 1178 begins in March 1799, 1579 in March 2200. *)
Definition supported_gregorian_year (y : Z) : Prop := 1800 <= y <= 2200.
Definition supported_jalali_year (jy : Z) : Prop := 1178 <= jy <= 1579.

(** Strings of decimal digits, and strings without a slash or a dash. *)
Fixpoint all_digits (s : string) : bool :=
  match s with
  | EmptyString => true
  | String c s' =>
      match digit_of c with Some _ => all_digits s' | None => false end
  end.

Fixpoint no_separator (s : string) : bool :=
  match s with
  | EmptyString => true
  | String c s' =>
      negb (Ascii.eqb c "/") && negb (Ascii.eqb c "-") && no_separator s'
  end.

(** *** Quantities of the further properties *)

(** The place of a Jalali year in its cycle of 33 years at which the year
    starts of line 121 are 366 days apart: a multiple of 4 below 32. *)
Definition leap_position (jy : Z) : bool :=
  let r := (jy - 979) mod 33 in
  (r mod 4 =? 0) && negb (r =? 32).

(** Nowruz of Jalali year -620, the first Gregorian date
    [gregorian_to_jalali] converts. *)
Definition FIRST_CONVERTIBLE : date := PyDate.mkdate 1 3 21.

(** Jalali dates compared as the tuples of their fields. *)
Definition jalali_lt (a b : JalaliDate) : bool :=
  (jyear a <? jyear b)
  || ((jyear a =? jyear b)
      && ((jmonth a <? jmonth b)
          || ((jmonth a =? jmonth b) && (jday a <? jday b)))).

(** The values neither date type, string nor sequence of three covers. *)
Definition unsupported_by_coerce_gregorian (v : value) : Prop :=
  match v with
  | VJalali _ | VNone => True
  | VInts l => List.length l <> 3%nat
  | VDate _ | VDatetime _ _ | VStr _ => False
  end.

Definition unsupported_by_coerce_jalali (v : value) : Prop :=
  match v with
  | VDate _ | VDatetime _ _ | VNone => True
  | VInts l => List.length l <> 3%nat
  | VJalali _ | VStr _ => False
  end.

(** The Gregorian year lines 128-148 find for a day number. *)
Definition year_of_day (g_day_no : Z) : Z :=
  fst (fst (gregorian_year_of_day g_day_no)).

(** The Jalali years whose first day lies in a Gregorian year that fits a C
    [int]: from the year that starts in Gregorian year -2147483648 to the
    year that starts in Gregorian year 2147483647. *)
Definition year_start_fits_c_int (jy : Z) : Prop :=
  -2147484714 <= jy <= 2147483472.

(** The text of a triple: its three fields filled with zeros and joined by
    the separator. *)
Definition rendering (wy wm wd : nat) (y m d : Z) (sep : string) : string :=
  (zfill wy y ++ sep ++ zfill wm m ++ sep ++ zfill wd d)%string.

(** ** Arithmetic of the Gregorian day numbers *)

Ltac dlia := Z.div_mod_to_equations; lia.

Lemma gregorian_leap_is_host_leap y : _is_gregorian_leap y = PyDate._is_leap y.
Proof. reflexivity. Qed.

Lemma is_leap_cases y :
  (_is_gregorian_leap y = true
   /\ y mod 4 = 0 /\ (y mod 100 <> 0 \/ y mod 400 = 0))
  \/ (_is_gregorian_leap y = false
      /\ (y mod 4 <> 0 \/ (y mod 100 = 0 /\ y mod 400 <> 0))).
Proof.
  unfold _is_gregorian_leap.
  destruct (Z.eqb_spec (y mod 4) 0); destruct (Z.eqb_spec (y mod 100) 0);
    destruct (Z.eqb_spec (y mod 400) 0); cbn [andb orb negb]; lia.
Qed.

Lemma gregorian_year_length_bounds y : 365 <= gregorian_year_length y <= 366.
Proof. unfold gregorian_year_length. destruct (_is_gregorian_leap y); lia. Qed.

Lemma days_before_year_succ y :
  PyDate._days_before_year (y + 1)
  = PyDate._days_before_year y + gregorian_year_length y.
Proof.
  unfold gregorian_year_length.
  destruct (is_leap_cases y) as [(-> & ? & ?) | (-> & ?)];
    unfold PyDate._days_before_year; dlia.
Qed.

Lemma days_before_year_mono a b :
  a <= b -> PyDate._days_before_year a <= PyDate._days_before_year b.
Proof. unfold PyDate._days_before_year. intros. dlia. Qed.

(** A day number lies in one year only. *)
Lemma year_of_day_unique a b ra rb :
  0 <= ra < gregorian_year_length a ->
  0 <= rb < gregorian_year_length b ->
  PyDate._days_before_year a + ra = PyDate._days_before_year b + rb ->
  a = b /\ ra = rb.
Proof.
  intros Ha Hb E.
  assert (a = b) as ->.
  { destruct (Z.lt_trichotomy a b) as [L | [-> | L]]; [| reflexivity |].
    - pose proof (days_before_year_mono (a + 1) b ltac:(lia)).
      rewrite days_before_year_succ in *. lia.
    - pose proof (days_before_year_mono (b + 1) a ltac:(lia)).
      rewrite days_before_year_succ in *. lia. }
  split; [reflexivity | lia].
Qed.

(** The year decomposition of lines 128-148 is that of the host's ordinal:
    the year's first day plus the residual is the day number, the residual
    stays inside the year, and [leap] tells whether that year is leap. *)
Lemma gregorian_year_of_day_spec (g : Z) :
  let '(gy, r, leap) := gregorian_year_of_day g in
  PyDate._days_before_year gy + r = g + EPOCH_1600
  /\ 0 <= r < gregorian_year_length gy
  /\ leap = _is_gregorian_leap gy.
Proof.
  unfold gregorian_year_of_day, gregorian_year_length.
  repeat match goal with
         | |- context [Z.leb ?a ?b] => destruct (Z.leb_spec a b)
         end;
    match goal with
    | |- PyDate._days_before_year ?y + _ = _ /\ _ =>
        destruct (is_leap_cases y) as [(-> & ? & ?) | (-> & ?)];
        unfold PyDate._days_before_year, EPOCH_1600;
        (split; [| split]); try reflexivity; dlia
    end.
Qed.

(** Conversely the decomposition finds the year and residual it is given. *)
Lemma gregorian_year_of_day_inv (y r : Z) :
  0 <= r < gregorian_year_length y ->
  gregorian_year_of_day (PyDate._days_before_year y + r - EPOCH_1600)
  = (y, r, _is_gregorian_leap y).
Proof.
  intros Hr.
  pose proof (gregorian_year_of_day_spec
                (PyDate._days_before_year y + r - EPOCH_1600)) as S.
  destruct (gregorian_year_of_day _) as [[gy r'] leap].
  destruct S as (E & B & ->).
  destruct (year_of_day_unique gy y r' r B Hr ltac:(lia)) as [-> ->].
  reflexivity.
Qed.

(** The year of a day number grows with the day number. *)
Lemma year_of_day_mono (g g' : Z) :
  g <= g' -> year_of_day g <= year_of_day g'.
Proof.
  intros L. unfold year_of_day.
  pose proof (gregorian_year_of_day_spec g) as S.
  pose proof (gregorian_year_of_day_spec g') as S'.
  destruct (gregorian_year_of_day g) as [[y r] lp].
  destruct (gregorian_year_of_day g') as [[y' r'] lp'].
  cbn [fst]. destruct S as (E & B & _), S' as (E' & B' & _).
  destruct (Z_le_gt_dec y y') as [H | H]; [exact H | exfalso].
  pose proof (days_before_year_mono (y' + 1) y ltac:(lia)) as M.
  rewrite days_before_year_succ in M. lia.
Qed.

(** ** The month walk *)

Lemma month_in_1_12 m :
  1 <= m <= 12 ->
  m = 1 \/ m = 2 \/ m = 3 \/ m = 4 \/ m = 5 \/ m = 6
  \/ m = 7 \/ m = 8 \/ m = 9 \/ m = 10 \/ m = 11 \/ m = 12.
Proof. lia. Qed.

Ltac each_month m :=
  let H := fresh "Hm" in
  match goal with
  | B : 1 <= m <= 12 |- _ => pose proof (month_in_1_12 m B) as H
  end;
  repeat (destruct H as [H | H]); subst m.

(** Sums and comparisons of numerals, as the loop index leaves them behind. *)
Ltac fold_index :=
  repeat match goal with
         | |- context [Z.add Z0 (Zpos ?q)] =>
             change (Z.add Z0 (Zpos q)) with (Zpos q)
         | |- context [Z.add (Zpos ?p) (Zpos ?q)] =>
             let v := eval vm_compute in (Z.add (Zpos p) (Zpos q)) in
             change (Z.add (Zpos p) (Zpos q)) with v
         | |- context [Z.eqb Z0 (Zpos ?q)] =>
             change (Z.eqb Z0 (Zpos q)) with false
         | |- context [Z.eqb (Zpos ?p) (Zpos ?q)] =>
             let v := eval vm_compute in (Z.eqb (Zpos p) (Zpos q)) in
             change (Z.eqb (Zpos p) (Zpos q)) with v
         | |- context [Z.ltb (Zpos ?p) (Zpos ?q)] =>
             let v := eval vm_compute in (Z.ltb (Zpos p) (Zpos q)) in
             change (Z.ltb (Zpos p) (Zpos q)) with v
         end;
  cbn [andb orb negb].

Ltac split_eqb :=
  repeat match goal with
         | |- context [Z.eqb ?a ?b] => destruct (Z.eqb_spec a b); try lia
         end;
  cbn [andb orb negb].

Ltac split_ltb :=
  repeat match goal with
         | |- context [Z.ltb ?a ?b] => destruct (Z.ltb_spec a b); try lia
         end.

Ltac split_leb :=
  repeat match goal with
         | |- context [Z.leb ?a ?b] => destruct (Z.leb_spec a b); try lia
         end.

Ltac norm := fold_index; split_eqb; cbv beta iota.

Ltac crunch := norm; split_ltb; cbn [andb orb negb]; cbv beta iota.

(** The walk always stops inside the table when the residual is inside the
    year, at the month and day whose position in the year is the residual. *)
Lemma month_loop_spec (y r : Z) :
  0 <= r < gregorian_year_length y ->
  exists m d,
    month_loop _GREGORIAN_MONTH_LENGTHS 0 (_is_gregorian_leap y) r = Some (m, d)
    /\ 1 <= m <= 12
    /\ 1 <= d <= PyDate._days_in_month y m
    /\ PyDate._days_before_month y m + d = r + 1.
Proof.
  unfold gregorian_year_length, PyDate._days_in_month, PyDate._days_before_month.
  change (PyDate._is_leap y) with (_is_gregorian_leap y).
  destruct (_is_gregorian_leap y); intros Hr;
    cbn [month_loop _GREGORIAN_MONTH_LENGTHS]; crunch;
    eexists _, _; (split; [reflexivity |]); crunch; lia.
Qed.

(** And it finds a month and day from their position in the year. *)
Lemma month_loop_inv (y m d : Z) :
  1 <= m <= 12 ->
  1 <= d <= PyDate._days_in_month y m ->
  month_loop _GREGORIAN_MONTH_LENGTHS 0 (_is_gregorian_leap y)
    (PyDate._days_before_month y m + d - 1) = Some (m, d).
Proof.
  intros Hm. unfold PyDate._days_in_month, PyDate._days_before_month.
  change (PyDate._is_leap y) with (_is_gregorian_leap y).
  each_month m; destruct (_is_gregorian_leap y);
    cbn [month_loop _GREGORIAN_MONTH_LENGTHS]; norm;
    intros Hd; crunch; f_equal; f_equal; lia.
Qed.

Lemma days_in_year_position (y m d : Z) :
  1 <= m <= 12 ->
  1 <= d <= PyDate._days_in_month y m ->
  1 <= PyDate._days_before_month y m + d <= gregorian_year_length y.
Proof.
  intros Hm. unfold PyDate._days_in_month, PyDate._days_before_month,
    gregorian_year_length.
  change (PyDate._is_leap y) with (_is_gregorian_leap y).
  each_month m; destruct (_is_gregorian_leap y); crunch; lia.
Qed.

(** ** Host dates: construction, ordinals and order *)

Lemma fits_c_int_iff (n : Z) :
  PyDate.fits_c_int n = true <-> -2147483648 <= n <= 2147483647.
Proof.
  unfold PyDate.fits_c_int, PyDate.C_INT_MIN, PyDate.C_INT_MAX.
  destruct (Z.leb_spec (-2147483648) n), (Z.leb_spec n 2147483647);
    cbn [andb]; split; intros E; try discriminate E; try reflexivity; lia.
Qed.

Lemma fits_c_int_small (n : Z) :
  -2147483648 <= n <= 2147483647 -> PyDate.fits_c_int n = true.
Proof. apply fits_c_int_iff. Qed.

Lemma fits_c_int_large (n : Z) :
  ~ -2147483648 <= n <= 2147483647 -> PyDate.fits_c_int n = false.
Proof.
  intros H. destruct (PyDate.fits_c_int n) eqn:E; [| reflexivity].
  apply fits_c_int_iff in E. contradiction.
Qed.

Lemma days_in_month_bounds (y m : Z) : 28 <= PyDate._days_in_month y m <= 31.
Proof.
  unfold PyDate._days_in_month.
  destruct (m =? 2); [destruct (PyDate._is_leap y); lia |].
  destruct ((m =? 4) || (m =? 6) || (m =? 9) || (m =? 11)); lia.
Qed.

(** Once the three arguments fit, the constructor is the range check. *)
Lemma date_new_fits (y m d : Z) :
  -2147483648 <= y <= 2147483647 -> 1 <= m <= 12 -> 1 <= d <= 31 ->
  PyDate.new y m d
  = if negb ((1 <=? y) && (y <=? 9999)) then Raise ValueError
    else if negb ((1 <=? d) && (d <=? PyDate._days_in_month y m))
         then Raise ValueError
         else OK (PyDate.mkdate y m d).
Proof.
  intros Hy Hm Hd. unfold PyDate.new, PyDate.MINYEAR, PyDate.MAXYEAR.
  rewrite !fits_c_int_small by lia. cbn [andb negb].
  destruct (Z.leb_spec 1 m), (Z.leb_spec m 12); try lia. reflexivity.
Qed.

Lemma date_new_ok (y m d : Z) :
  1 <= y <= 9999 -> 1 <= m <= 12 -> 1 <= d <= PyDate._days_in_month y m ->
  PyDate.new y m d = OK (PyDate.mkdate y m d).
Proof.
  intros Hy Hm Hd. pose proof (days_in_month_bounds y m).
  rewrite date_new_fits by lia.
  destruct (Z.leb_spec 1 y), (Z.leb_spec y 9999), (Z.leb_spec 1 d),
    (Z.leb_spec d (PyDate._days_in_month y m)); try lia.
  reflexivity.
Qed.

Lemma date_new_inv (y m d : Z) (a : date) :
  PyDate.new y m d = OK a ->
  a = PyDate.mkdate y m d
  /\ 1 <= y <= 9999 /\ 1 <= m <= 12 /\ 1 <= d <= PyDate._days_in_month y m.
Proof.
  unfold PyDate.new, PyDate.MINYEAR, PyDate.MAXYEAR.
  destruct (negb _); [discriminate |].
  repeat match goal with
         | |- context [Z.leb ?a ?b] => destruct (Z.leb_spec a b)
         end; cbn [andb negb]; intros E; try discriminate E.
  injection E as <-. repeat split; lia.
Qed.

Lemma date_new_year_out (y m d : Z) :
  ~ 1 <= y <= 9999 ->
  -2147483648 <= y <= 2147483647 -> 1 <= m <= 12 -> 1 <= d <= 31 ->
  PyDate.new y m d = Raise ValueError.
Proof.
  intros Hy Fy Hm Hd. rewrite date_new_fits by lia.
  destruct (Z.leb_spec 1 y); destruct (Z.leb_spec y 9999);
    cbn [andb negb]; try reflexivity; lia.
Qed.

Lemma date_new_overflow (y m d : Z) :
  ~ (-2147483648 <= y <= 2147483647 /\ -2147483648 <= m <= 2147483647
     /\ -2147483648 <= d <= 2147483647) ->
  PyDate.new y m d = Raise OverflowError.
Proof.
  intros H. unfold PyDate.new.
  destruct (PyDate.fits_c_int y) eqn:Fy; [| reflexivity].
  destruct (PyDate.fits_c_int m) eqn:Fm; [| reflexivity].
  destruct (PyDate.fits_c_int d) eqn:Fd; [| reflexivity].
  apply fits_c_int_iff in Fy, Fm, Fd. lia.
Qed.

(** [date(...)] raises [OverflowError] exactly when an argument does not
    fit a C [int], and nothing but [ValueError] otherwise. *)
Lemma date_new_raises (y m d : Z) (e : exn) :
  PyDate.new y m d = Raise e ->
  (e = OverflowError
   /\ ~ (-2147483648 <= y <= 2147483647 /\ -2147483648 <= m <= 2147483647
         /\ -2147483648 <= d <= 2147483647))
  \/ (e = ValueError
      /\ -2147483648 <= y <= 2147483647 /\ -2147483648 <= m <= 2147483647
      /\ -2147483648 <= d <= 2147483647).
Proof.
  unfold PyDate.new.
  destruct (PyDate.fits_c_int y) eqn:Fy; cbn [andb negb];
    [| intros E; injection E as <-; left; split; [reflexivity |];
       intros (H & _); apply fits_c_int_small in H; congruence].
  destruct (PyDate.fits_c_int m) eqn:Fm; cbn [andb negb];
    [| intros E; injection E as <-; left; split; [reflexivity |];
       intros (_ & H & _); apply fits_c_int_small in H; congruence].
  destruct (PyDate.fits_c_int d) eqn:Fd; cbn [andb negb];
    [| intros E; injection E as <-; left; split; [reflexivity |];
       intros (_ & _ & H); apply fits_c_int_small in H; congruence].
  apply fits_c_int_iff in Fy, Fm, Fd.
  repeat match goal with
         | |- context [if ?c then _ else _] => destruct c
         end; intros E; try discriminate E; injection E as <-; right; tauto.
Qed.

Lemma month_start_mono (y m m' : Z) :
  1 <= m <= 12 -> 1 <= m' <= 12 -> m < m' ->
  PyDate._days_before_month y m + PyDate._days_in_month y m
  <= PyDate._days_before_month y m'.
Proof.
  intros Hm Hm' L.
  unfold PyDate._days_in_month, PyDate._days_before_month.
  destruct (PyDate._is_leap y);
    each_month m; each_month m'; try lia; fold_index; cbv beta iota; lia.
Qed.

(** Valid dates are ordered as their ordinals are. *)
Lemma date_lt_ordinal (a b : date) :
  PyDate.valid a -> PyDate.valid b ->
  PyDate.lt a b = (PyDate.toordinal a <? PyDate.toordinal b).
Proof.
  unfold PyDate.valid. intros Va Vb.
  apply date_new_inv in Va as (_ & Hy & Hm & Hd).
  apply date_new_inv in Vb as (_ & Hy' & Hm' & Hd').
  destruct a as [y m d], b as [y' m' d']; cbn [PyDate.year PyDate.month PyDate.day] in *.
  unfold PyDate.lt, PyDate.toordinal; cbn [PyDate.year PyDate.month PyDate.day].
  pose proof (days_in_year_position y m d Hm Hd) as P.
  pose proof (days_in_year_position y' m' d' Hm' Hd') as P'.
  destruct (Z.ltb_spec (PyDate._days_before_year y + PyDate._days_before_month y m + d)
              (PyDate._days_before_year y' + PyDate._days_before_month y' m' + d'))
    as [L | L].
  - destruct (Z.ltb_spec y y') as [Ly | Ly]; [reflexivity |].
    destruct (Z.eqb_spec y y') as [-> | Ny]; cbn [orb andb].
    + destruct (Z.ltb_spec m m') as [Lm | Lm]; [reflexivity |].
      destruct (Z.eqb_spec m m') as [-> | Nm]; cbn [orb andb].
      * destruct (Z.ltb_spec d d'); [reflexivity | lia].
      * pose proof (month_start_mono y' m' m Hm' Hm ltac:(lia)). lia.
    + pose proof (days_before_year_mono (y' + 1) y ltac:(lia)) as M.
      rewrite days_before_year_succ in M. lia.
  - destruct (Z.ltb_spec y y') as [Ly | Ly].
    + pose proof (days_before_year_mono (y + 1) y' ltac:(lia)) as M.
      rewrite days_before_year_succ in M. lia.
    + destruct (Z.eqb_spec y y') as [-> | Ny]; cbn [orb andb]; [| reflexivity].
      destruct (Z.ltb_spec m m') as [Lm | Lm].
      * pose proof (month_start_mono y' m m' Hm Hm' Lm). lia.
      * destruct (Z.eqb_spec m m') as [-> | Nm]; cbn [orb andb]; [| reflexivity].
        destruct (Z.ltb_spec d d'); [lia | reflexivity].
Qed.

(** ** The Gregorian date of a day number *)

(** Every day number has a date, unless its year is outside the host's
    range: the month walk never runs off the table. *)
Lemma gregorian_of_day_no_year (g : Z) :
  exists m d,
    gregorian_of_day_no g = PyDate.new (year_of_day g) m d
    /\ 1 <= m <= 12 /\ 1 <= d <= PyDate._days_in_month (year_of_day g) m
    /\ PyDate._days_before_year (year_of_day g)
       + PyDate._days_before_month (year_of_day g) m + d
       = g + EPOCH_1600 + 1.
Proof.
  unfold gregorian_of_day_no, year_of_day.
  pose proof (gregorian_year_of_day_spec g) as S.
  destruct (gregorian_year_of_day g) as [[gy r] leap]. cbn [fst].
  destruct S as (E & B & ->).
  destruct (month_loop_spec gy r B) as (m & d & -> & Hm & Hd & P).
  exists m, d. repeat split; try lia.
Qed.

Lemma gregorian_of_day_no_spec (g : Z) :
  exists y m d,
    gregorian_of_day_no g = PyDate.new y m d
    /\ 1 <= m <= 12 /\ 1 <= d <= PyDate._days_in_month y m
    /\ PyDate._days_before_year y + PyDate._days_before_month y m + d
       = g + EPOCH_1600 + 1.
Proof.
  destruct (gregorian_of_day_no_year g) as (m & d & H).
  exists (year_of_day g), m, d. exact H.
Qed.

(** The conversion of a day number raises [OverflowError] when its year
    does not fit a C [int], [ValueError] when the year fits and is outside
    the host's range, and returns otherwise. *)
Lemma gregorian_of_day_no_cases (g : Z) :
  (~ -2147483648 <= year_of_day g <= 2147483647 ->
   gregorian_of_day_no g = Raise OverflowError)
  /\ (-2147483648 <= year_of_day g <= 2147483647 ->
      ~ 1 <= year_of_day g <= 9999 ->
      gregorian_of_day_no g = Raise ValueError)
  /\ (1 <= year_of_day g <= 9999 ->
      exists a, gregorian_of_day_no g = OK a /\ PyDate.year a = year_of_day g).
Proof.
  destruct (gregorian_of_day_no_year g) as (m & d & -> & Hm & Hd & _).
  pose proof (days_in_month_bounds (year_of_day g) m) as B.
  split; [| split].
  - intros H. apply date_new_overflow. lia.
  - intros F H. apply date_new_year_out; lia.
  - intros H. eexists. split; [apply date_new_ok; lia | reflexivity].
Qed.

(** The date of the day number of a valid date is that date. *)
Lemma gregorian_of_day_no_ordinal (a : date) :
  PyDate.valid a ->
  gregorian_of_day_no (PyDate.toordinal a - 1 - EPOCH_1600) = OK a.
Proof.
  unfold PyDate.valid. intros Va.
  pose proof Va as Va'.
  apply date_new_inv in Va' as (_ & Hy & Hm & Hd).
  destruct a as [y m d]; cbn [PyDate.year PyDate.month PyDate.day] in *.
  pose proof (days_in_year_position y m d Hm Hd) as P.
  unfold gregorian_of_day_no, PyDate.toordinal;
    cbn [PyDate.year PyDate.month PyDate.day].
  replace (PyDate._days_before_year y + PyDate._days_before_month y m + d - 1
           - EPOCH_1600)
    with (PyDate._days_before_year y + (PyDate._days_before_month y m + d - 1)
          - EPOCH_1600) by lia.
  rewrite gregorian_year_of_day_inv by lia.
  rewrite month_loop_inv by assumption.
  exact Va.
Qed.

(** ** Jalali day numbers *)

Lemma add_jalali_months_spec (k a : Z) :
  0 <= k <= 12 ->
  add_jalali_months (Z.to_nat k) 0 a = OK (a + jalali_days_before_month (k + 1)).
Proof.
  intros Hk.
  assert (k = 0 \/ k = 1 \/ k = 2 \/ k = 3 \/ k = 4 \/ k = 5 \/ k = 6
          \/ k = 7 \/ k = 8 \/ k = 9 \/ k = 10 \/ k = 11 \/ k = 12) as C by lia.
  unfold jalali_days_before_month.
  repeat (destruct C as [C | C]); subst k;
    cbv [Z.to_nat Pos.to_nat Pos.iter_op Nat.add add_jalali_months nth_error
         _JALALI_MONTH_LENGTHS];
    f_equal; fold_index; split_leb; lia.
Qed.

Lemma add_jalali_months_past_table (k a : Z) :
  13 <= k -> add_jalali_months (Z.to_nat k) 0 a = Raise IndexError.
Proof.
  intros Hk.
  replace (Z.to_nat k) with (13 + Z.to_nat (k - 13))%nat by lia.
  reflexivity.
Qed.

Lemma g_day_no_of_jalali_spec (jy jm jd : Z) :
  1 <= jm <= 13 ->
  g_day_no_of_jalali jy jm jd
  = OK (jalali_year_start jy + jalali_days_before_month jm + jd - 1).
Proof.
  intros Hm. unfold g_day_no_of_jalali, jalali_year_start.
  rewrite add_jalali_months_spec by lia. cbn [rbind].
  replace (jm - 1 + 1) with jm by lia. f_equal. lia.
Qed.

Lemma jalali_year_days_bounds (jy : Z) : 365 <= jalali_year_days jy <= 366.
Proof. unfold jalali_year_days, jalali_year_start. dlia. Qed.

Lemma jalali_year_start_mono (a b : Z) :
  a <= b -> jalali_year_start a <= jalali_year_start b.
Proof. unfold jalali_year_start. intros. dlia. Qed.

(** A day number lies in one Jalali year only. *)
Lemma jalali_year_unique (a b g : Z) :
  jalali_year_start a <= g < jalali_year_start (a + 1) ->
  jalali_year_start b <= g < jalali_year_start (b + 1) ->
  a = b.
Proof.
  intros Ha Hb.
  destruct (Z.lt_trichotomy a b) as [L | [-> | L]]; [| reflexivity |].
  - pose proof (jalali_year_start_mono (a + 1) b ltac:(lia)). lia.
  - pose proof (jalali_year_start_mono (b + 1) a ltac:(lia)). lia.
Qed.

(** Nowruz of Jalali year [J] falls in Gregorian year [J + 621], as far as
    the host's dates reach. *)
Lemma nowruz_in_year (J : Z) :
  -1000 <= J <= 10000 ->
  PyDate._days_before_year (J + 621)
  <= jalali_year_start J + EPOCH_1600
  < PyDate._days_before_year (J + 622).
Proof.
  unfold PyDate._days_before_year, jalali_year_start, EPOCH_1600. intros. dlia.
Qed.

Lemma jalali_to_gregorian_ints (jy jm jd : Z) :
  1 <= jm <= 13 ->
  jalali_to_gregorian (VInts [jy; jm; jd])
  = gregorian_of_day_no
      (jalali_year_start jy + jalali_days_before_month jm + jd - 1).
Proof.
  intros Hm. unfold jalali_to_gregorian. cbn [coerce_jalali unpack3 rbind].
  rewrite g_day_no_of_jalali_spec by assumption. reflexivity.
Qed.

Lemma jalali_to_gregorian_jalali (j : JalaliDate) :
  jalali_to_gregorian (VJalali j)
  = jalali_to_gregorian (VInts [jyear j; jmonth j; jday j]).
Proof. reflexivity. Qed.

Lemma jalali_year_start_date (J : Z) :
  -620 <= J <= 9378 ->
  exists a,
    jalali_to_gregorian (VInts [J; 1; 1]) = OK a
    /\ PyDate.valid a
    /\ PyDate.year a = J + 621
    /\ PyDate.toordinal a = jalali_year_start J + EPOCH_1600 + 1.
Proof.
  intros HJ. rewrite jalali_to_gregorian_ints by lia.
  change (jalali_days_before_month 1) with 0.
  replace (jalali_year_start J + 0 + 1 - 1) with (jalali_year_start J) by lia.
  destruct (gregorian_of_day_no_spec (jalali_year_start J))
    as (y & m & d & E & Hm & Hd & P).
  pose proof (nowruz_in_year J ltac:(lia)) as N.
  pose proof (days_in_year_position y m d Hm Hd) as Q.
  assert (y = J + 621) as ->.
  { replace (J + 622) with (J + 621 + 1) in N by lia.
    rewrite days_before_year_succ in N.
    apply (year_of_day_unique y (J + 621)
             (PyDate._days_before_month y m + d - 1)
             (jalali_year_start J + EPOCH_1600
              - PyDate._days_before_year (J + 621)));
      lia. }
  exists (PyDate.mkdate (J + 621) m d).
  rewrite E.
  assert (PyDate.new (J + 621) m d = OK (PyDate.mkdate (J + 621) m d)) as V
      by (apply date_new_ok; lia).
  repeat split; try assumption;
    unfold PyDate.toordinal; cbn [PyDate.year PyDate.month PyDate.day]; lia.
Qed.

Lemma jalali_to_gregorian_year_start (J : Z) :
  jalali_to_gregorian (VInts [J; 1; 1])
  = gregorian_of_day_no (jalali_year_start J).
Proof.
  rewrite jalali_to_gregorian_ints by lia.
  change (jalali_days_before_month 1) with 0. f_equal. lia.
Qed.

(** The Gregorian year in which a Jalali year starts, at the ends of the
    host's range and of the C [int]s. *)
Lemma year_of_year_start_marks :
  year_of_day (jalali_year_start (-621)) = 0
  /\ year_of_day (jalali_year_start (-620)) = 1
  /\ year_of_day (jalali_year_start 9378) = 9999
  /\ year_of_day (jalali_year_start 9379) = 10000
  /\ year_of_day (jalali_year_start (-2147484715)) = -2147483649
  /\ year_of_day (jalali_year_start (-2147484714)) = -2147483648
  /\ year_of_day (jalali_year_start 2147483472) = 2147483647
  /\ year_of_day (jalali_year_start 2147483473) = 2147483648.
Proof. repeat split; vm_compute; reflexivity. Qed.

Lemma year_of_year_start_mono (a b : Z) :
  a <= b ->
  year_of_day (jalali_year_start a) <= year_of_day (jalali_year_start b).
Proof. intros H. apply year_of_day_mono, jalali_year_start_mono, H. Qed.

(** A Jalali year starts in a Gregorian year of the host exactly from -620
    to 9378, and in one that fits a C [int] exactly from -2147484714 to
    2147483472. *)
Lemma year_of_year_start_ranges (J : Z) :
  (-620 <= J <= 9378 <-> 1 <= year_of_day (jalali_year_start J) <= 9999)
  /\ (-2147484714 <= J <= 2147483472
      <-> -2147483648 <= year_of_day (jalali_year_start J) <= 2147483647).
Proof.
  destruct year_of_year_start_marks
    as (M1 & M2 & M3 & M4 & M5 & M6 & M7 & M8).
  split; split; intros H.
  - pose proof (year_of_year_start_mono (-620) J ltac:(lia)).
    pose proof (year_of_year_start_mono J 9378 ltac:(lia)). lia.
  - destruct (Z_le_gt_dec (-620) J) as [L1 | L1];
      [destruct (Z_le_gt_dec J 9378) as [L2 | L2] |]; [lia | |]; exfalso.
    + pose proof (year_of_year_start_mono 9379 J ltac:(lia)). lia.
    + pose proof (year_of_year_start_mono J (-621) ltac:(lia)). lia.
  - pose proof (year_of_year_start_mono (-2147484714) J ltac:(lia)).
    pose proof (year_of_year_start_mono J 2147483472 ltac:(lia)). lia.
  - destruct (Z_le_gt_dec (-2147484714) J) as [L1 | L1];
      [destruct (Z_le_gt_dec J 2147483472) as [L2 | L2] |]; [lia | |];
      exfalso.
    + pose proof (year_of_year_start_mono 2147483473 J ltac:(lia)). lia.
    + pose proof (year_of_year_start_mono J (-2147484715) ltac:(lia)). lia.
Qed.

Lemma jalali_year_start_raises (J : Z) :
  ~ -620 <= J <= 9378 ->
  -2147484714 <= J <= 2147483472 ->
  jalali_to_gregorian (VInts [J; 1; 1]) = Raise ValueError.
Proof.
  intros HJ FJ. rewrite jalali_to_gregorian_year_start.
  destruct (year_of_year_start_ranges J) as (R1 & R2).
  apply (proj1 (proj2 (gregorian_of_day_no_cases _))); tauto.
Qed.

Lemma jalali_year_start_overflows (J : Z) :
  ~ -2147484714 <= J <= 2147483472 ->
  jalali_to_gregorian (VInts [J; 1; 1]) = Raise OverflowError.
Proof.
  intros FJ. rewrite jalali_to_gregorian_year_start.
  destruct (year_of_year_start_ranges J) as (R1 & R2).
  apply (proj1 (gregorian_of_day_no_cases _)); tauto.
Qed.

Lemma jalali_year_start_out (J : Z) :
  ~ -620 <= J <= 9378 ->
  exists e, jalali_to_gregorian (VInts [J; 1; 1]) = Raise e.
Proof.
  intros HJ.
  destruct (Z_le_gt_dec (-2147484714) J) as [L1 | L1];
    [destruct (Z_le_gt_dec J 2147483472) as [L2 | L2] |].
  - exists ValueError. apply jalali_year_start_raises; lia.
  - exists OverflowError. apply jalali_year_start_overflows; lia.
  - exists OverflowError. apply jalali_year_start_overflows; lia.
Qed.

(** [is_jalali_leap] compares the two year starts, and does so wherever
    both have a date. *)
Lemma is_jalali_leap_spec (J : Z) :
  -620 <= J <= 9377 ->
  is_jalali_leap J = OK (jalali_year_days J =? 366).
Proof.
  intros HJ. unfold is_jalali_leap.
  destruct (jalali_year_start_date J ltac:(lia)) as (a & -> & _ & _ & Oa).
  destruct (jalali_year_start_date (J + 1) ltac:(lia)) as (b & -> & _ & _ & Ob).
  cbn [rbind]. unfold PyDate.sub_days, jalali_year_days. rewrite Oa, Ob.
  f_equal. f_equal. lia.
Qed.

Lemma is_jalali_leap_raises (J : Z) :
  ~ -620 <= J <= 9377 ->
  -2147484714 <= J <= 2147483472 ->
  is_jalali_leap J = Raise ValueError.
Proof.
  intros HJ FJ. unfold is_jalali_leap.
  destruct (Z.eq_dec J 9378) as [-> | N].
  - destruct (jalali_year_start_date 9378 ltac:(lia)) as (a & -> & _).
    cbn [rbind]. rewrite jalali_year_start_raises by lia. reflexivity.
  - rewrite jalali_year_start_raises by lia. reflexivity.
Qed.

Lemma is_jalali_leap_overflows (J : Z) :
  ~ -2147484714 <= J <= 2147483472 ->
  is_jalali_leap J = Raise OverflowError.
Proof.
  intros FJ. unfold is_jalali_leap.
  rewrite jalali_year_start_overflows by assumption. reflexivity.
Qed.

Lemma is_jalali_leap_out (J : Z) :
  ~ -620 <= J <= 9377 -> exists e, is_jalali_leap J = Raise e.
Proof.
  intros HJ.
  destruct (Z_le_gt_dec (-2147484714) J) as [L1 | L1];
    [destruct (Z_le_gt_dec J 2147483472) as [L2 | L2] |].
  - exists ValueError. apply is_jalali_leap_raises; lia.
  - exists OverflowError. apply is_jalali_leap_overflows; lia.
  - exists OverflowError. apply is_jalali_leap_overflows; lia.
Qed.

(** ** Month and day inside a Jalali year *)

Lemma month_day_of_offset_spec (days : Z) :
  0 <= days <= 365 ->
  exists jm jd,
    month_day_of_offset days = (jm, jd)
    /\ 1 <= jm <= 12 /\ 1 <= jd
    /\ (jm <= 6 -> jd <= 31) /\ (7 <= jm -> jd <= 30)
    /\ jalali_days_before_month jm + jd - 1 = days.
Proof.
  intros Hd. unfold month_day_of_offset.
  destruct (Z.ltb_spec days 186); eexists _, _; (split; [reflexivity |]);
    unfold jalali_days_before_month; split_leb;
    repeat split; try dlia.
Qed.

Lemma month_day_of_offset_inv (jm jd : Z) :
  1 <= jm <= 12 -> 1 <= jd ->
  (jm <= 6 -> jd <= 31) -> (7 <= jm -> jd <= 30) ->
  month_day_of_offset (jalali_days_before_month jm + jd - 1) = (jm, jd).
Proof.
  intros Hm Hd H6 H7. unfold month_day_of_offset, jalali_days_before_month.
  split_leb; split_ltb; f_equal; dlia.
Qed.

Lemma valid_jalali_offset (jy jm jd : Z) :
  valid_jalali_fields jy jm jd ->
  0 <= jalali_days_before_month jm + jd - 1 < jalali_year_days jy.
Proof.
  unfold valid_jalali_fields, jalali_days_before_month.
  intros (Hm & Hd & Hl & _). split_leb; lia.
Qed.

(** ** The checked constructor *)

Lemma jalali_month_length_spec (jy jm : Z) :
  jm <= 11 \/ -620 <= jy <= 9377 ->
  _jalali_month_length jy jm
  = OK (if jm <=? 6 then 31
        else if jm <=? 11 then 30
        else jalali_year_days jy - 336).
Proof.
  intros H. unfold _jalali_month_length.
  destruct (Z.leb_spec jm 6); [reflexivity |].
  destruct (Z.leb_spec jm 11); [reflexivity |].
  rewrite is_jalali_leap_spec by lia. cbn [rbind].
  pose proof (jalali_year_days_bounds jy).
  destruct (Z.eqb_spec (jalali_year_days jy) 366); f_equal; lia.
Qed.

Lemma JalaliDate_init_with_length (jy jm jd L : Z) :
  1 <= jm <= 12 ->
  _jalali_month_length jy jm = OK L ->
  JalaliDate_init jy jm jd
  = if (1 <=? jd) && (jd <=? L) then OK (mkJalaliDate jy jm jd)
    else Raise ValueError.
Proof.
  intros Hm E. unfold JalaliDate_init. rewrite E. cbn [rbind].
  destruct (Z.leb_spec 1 jm), (Z.leb_spec jm 12); try lia. cbn [andb negb].
  destruct ((1 <=? jd) && (jd <=? L)); reflexivity.
Qed.

Lemma JalaliDate_init_ok (jy jm jd : Z) :
  jm <= 11 \/ -620 <= jy <= 9377 ->
  valid_jalali_fields jy jm jd ->
  JalaliDate_init jy jm jd = OK (mkJalaliDate jy jm jd).
Proof.
  intros R (Hm & Hd & Hl & H6 & H7).
  rewrite (JalaliDate_init_with_length jy jm jd _ Hm
             (jalali_month_length_spec jy jm R)).
  pose proof (jalali_year_days_bounds jy).
  unfold jalali_days_before_month in Hl. revert Hl.
  destruct (Z.leb_spec jm 6), (Z.leb_spec jm 7), (Z.leb_spec jm 11),
    (Z.leb_spec jm 12); try lia; split_leb; intros; reflexivity.
Qed.

Lemma JalaliDate_init_inv (jy jm jd : Z) (j : JalaliDate) :
  JalaliDate_init jy jm jd = OK j ->
  j = mkJalaliDate jy jm jd
  /\ valid_jalali_fields jy jm jd
  /\ (jm = 12 -> -620 <= jy <= 9377).
Proof.
  intros E.
  assert (1 <= jm <= 12) as Hm.
  { revert E. unfold JalaliDate_init.
    destruct (Z.leb_spec 1 jm), (Z.leb_spec jm 12); cbn [andb negb];
      try discriminate. lia. }
  assert (jm <= 11 \/ -620 <= jy <= 9377) as R.
  { destruct (Z_le_gt_dec jm 11) as [L | L]; [left; exact L | right].
    destruct (Z_le_gt_dec (-620) jy) as [L1 | L1];
      [destruct (Z_le_gt_dec jy 9377) as [L2 | L2] |]; [lia | |];
      exfalso; revert E; unfold JalaliDate_init, _jalali_month_length;
      destruct (Z.leb_spec 1 jm), (Z.leb_spec jm 12), (Z.leb_spec jm 6),
        (Z.leb_spec jm 11); try lia; cbn [andb negb];
      destruct (is_jalali_leap_out jy ltac:(lia)) as (e & ->); discriminate. }
  rewrite (JalaliDate_init_with_length jy jm jd _ Hm
             (jalali_month_length_spec jy jm R)) in E.
  pose proof (jalali_year_days_bounds jy).
  unfold valid_jalali_fields, jalali_days_before_month.
  revert E.
  destruct (Z.leb_spec jm 6), (Z.leb_spec jm 7), (Z.leb_spec jm 11),
    (Z.leb_spec jm 12); try lia;
    destruct (Z.leb_spec 1 jd); cbn [andb]; try discriminate;
    match goal with
    | |- context [Z.leb jd ?b] => destruct (Z.leb_spec jd b)
    end; try discriminate;
    intros E; injection E as <-; repeat split; lia.
Qed.

(** ** Resolving the Jalali year of a Gregorian date *)

Lemma date_position (t : date) :
  PyDate.valid t ->
  PyDate._days_before_year (PyDate.year t) + 1
  <= PyDate.toordinal t
  <= PyDate._days_before_year (PyDate.year t + 1).
Proof.
  unfold PyDate.valid. intros V.
  apply date_new_inv in V as (_ & Hy & Hm & Hd).
  pose proof (days_in_year_position _ _ _ Hm Hd).
  rewrite days_before_year_succ. unfold PyDate.toordinal. lia.
Qed.

(** One look at the candidate year [gy - 621] and at most one step back
    find the Jalali year the target lies in. *)
Lemma resolve_jalali_year_spec (t : date) :
  PyDate.valid t ->
  2 <= PyDate.year t <= 9999 ->
  exists J s,
    resolve_jalali_year t = OK (J, s, PyDate.toordinal t - PyDate.toordinal s)
    /\ (J = PyDate.year t - 621 \/ J = PyDate.year t - 622)
    /\ jalali_to_gregorian (VInts [J; 1; 1]) = OK s
    /\ PyDate.toordinal s = jalali_year_start J + EPOCH_1600 + 1
    /\ PyDate.lt t s = false
    /\ 0 <= PyDate.toordinal t - PyDate.toordinal s < jalali_year_days J.
Proof.
  intros V Hy. pose proof (date_position t V) as P.
  unfold resolve_jalali_year, jalali_year_days.
  destruct (jalali_year_start_date (PyDate.year t - 621) ltac:(lia))
    as (a & Ea & Va & Ya & Oa).
  rewrite Ea. cbn [rbind].
  rewrite (date_lt_ordinal t a V Va).
  destruct (Z.ltb_spec (PyDate.toordinal t) (PyDate.toordinal a)) as [L | L].
  - destruct (jalali_year_start_date (PyDate.year t - 621 - 1) ltac:(lia))
      as (b & Eb & Vb & Yb & Ob).
    rewrite Eb. cbn [rbind].
    pose proof (nowruz_in_year (PyDate.year t - 621 - 1) ltac:(lia)) as N.
    replace (PyDate.year t - 621 - 1 + 622) with (PyDate.year t) in N by lia.
    exists (PyDate.year t - 621 - 1), b.
    replace (PyDate.year t - 621 - 1 + 1) with (PyDate.year t - 621) by lia.
    repeat split; try assumption; try lia.
    rewrite (date_lt_ordinal t b V Vb). apply Z.ltb_ge. lia.
  - pose proof (nowruz_in_year (PyDate.year t - 621 + 1) ltac:(lia)) as N.
    replace (PyDate.year t - 621 + 1 + 621) with (PyDate.year t + 1) in N by lia.
    exists (PyDate.year t - 621), a.
    repeat split; try assumption; try lia.
    rewrite (date_lt_ordinal t a V Va). apply Z.ltb_ge. lia.
Qed.

(** [gregorian_to_jalali] returns the fields whose Jalali day number is the
    target's ordinal. *)
Lemma gregorian_to_jalali_spec (t : date) :
  PyDate.valid t ->
  2 <= PyDate.year t <= 9998 ->
  exists J jm jd,
    gregorian_to_jalali (VDate t) = OK (mkJalaliDate J jm jd)
    /\ valid_jalali_fields J jm jd
    /\ (J = PyDate.year t - 621 \/ J = PyDate.year t - 622)
    /\ jalali_year_start J + jalali_days_before_month jm + jd - 1
       = PyDate.toordinal t - 1 - EPOCH_1600.
Proof.
  intros V Hy.
  destruct (resolve_jalali_year_spec t V ltac:(lia))
    as (J & s & R & HJ & _ & Os & _ & B).
  unfold gregorian_to_jalali. cbn [coerce_gregorian rbind].
  rewrite V. cbn [rbind]. rewrite R. cbn [rbind].
  pose proof (jalali_year_days_bounds J) as YB.
  destruct (month_day_of_offset_spec
              (PyDate.toordinal t - PyDate.toordinal s) ltac:(lia))
    as (jm & jd & -> & Hm & Hd & H6 & H7 & Off).
  assert (valid_jalali_fields J jm jd) as VF
      by (unfold valid_jalali_fields; repeat split; lia).
  exists J, jm, jd. rewrite JalaliDate_init_ok by (assumption || lia).
  repeat split; try assumption; try lia; apply VF.
Qed.

(** ** The conversions are mutually inverse *)

Lemma gregorian_roundtrip (t : date) :
  PyDate.valid t ->
  2 <= PyDate.year t <= 9998 ->
  exists j,
    gregorian_to_jalali (VDate t) = OK j
    /\ jalali_to_gregorian (VJalali j) = OK t.
Proof.
  intros V Hy.
  destruct (gregorian_to_jalali_spec t V Hy)
    as (J & jm & jd & E & (Hm & _) & _ & O).
  exists (mkJalaliDate J jm jd). split; [exact E |].
  rewrite jalali_to_gregorian_jalali. cbn [jyear jmonth jday].
  rewrite jalali_to_gregorian_ints by lia. rewrite O.
  apply gregorian_of_day_no_ordinal, V.
Qed.

Lemma jalali_roundtrip (jy jm jd : Z) (j : JalaliDate) (g : date) :
  JalaliDate_init jy jm jd = OK j ->
  jalali_to_gregorian (VJalali j) = OK g ->
  2 <= PyDate.year g <= 9998 ->
  gregorian_to_jalali (VDate g) = OK j.
Proof.
  intros Ej Eg Hy.
  apply JalaliDate_init_inv in Ej as (-> & VF & _).
  pose proof VF as (Hm & _).
  rewrite jalali_to_gregorian_jalali in Eg. cbn [jyear jmonth jday] in Eg.
  rewrite jalali_to_gregorian_ints in Eg by lia.
  destruct (gregorian_of_day_no_spec
              (jalali_year_start jy + jalali_days_before_month jm + jd - 1))
    as (y & m & d & E & Hgm & Hgd & P).
  rewrite Eg in E. symmetry in E.
  pose proof E as V. apply date_new_inv in E as (-> & _).
  change (PyDate.valid (PyDate.mkdate y m d)) in V.
  destruct (gregorian_to_jalali_spec _ V Hy)
    as (J' & jm' & jd' & E' & VF' & _ & O').
  rewrite E'.
  unfold PyDate.toordinal in O'; cbn [PyDate.year PyDate.month PyDate.day] in O'.
  pose proof (valid_jalali_offset _ _ _ VF) as B.
  pose proof (valid_jalali_offset _ _ _ VF') as B'.
  unfold jalali_year_days in B, B'.
  assert (J' = jy) as ->
      by (apply (jalali_year_unique J' jy
                   (jalali_year_start jy + jalali_days_before_month jm + jd - 1));
          lia).
  destruct VF as (? & ? & _ & ? & ?), VF' as (? & ? & _ & ? & ?).
  assert (month_day_of_offset (jalali_days_before_month jm' + jd' - 1)
          = month_day_of_offset (jalali_days_before_month jm + jd - 1)) as M
      by (f_equal; lia).
  rewrite !month_day_of_offset_inv in M by assumption.
  injection M as -> ->. reflexivity.
Qed.

(** C1. On Gregorian years 1800 to 2200 the two conversions are mutually
    inverse: a valid Gregorian date converts to a Jalali date that converts
    back to it, and a valid Jalali date whose Gregorian image lies in those
    years is what its image converts to. *)
Theorem conversions_mutually_inverse :
  (forall (y m d : Z) (t : date),
      PyDate.new y m d = OK t ->
      supported_gregorian_year y ->
      exists j,
        gregorian_to_jalali (VDate t) = OK j
        /\ jalali_to_gregorian (VJalali j) = OK t)
  /\ (forall (jy jm jd : Z) (j : JalaliDate) (g : date),
         JalaliDate_init jy jm jd = OK j ->
         jalali_to_gregorian (VJalali j) = OK g ->
         supported_gregorian_year (PyDate.year g) ->
         gregorian_to_jalali (VDate g) = OK j).
Proof.
  unfold supported_gregorian_year. split.
  - intros y m d t E Hy.
    pose proof E as E'. apply date_new_inv in E' as (-> & _).
    apply gregorian_roundtrip; [exact E | cbn; lia].
  - intros jy jm jd j g Ej Eg Hy.
    apply (jalali_roundtrip jy jm jd); [assumption | assumption | lia].
Qed.

Lemma conversions_mutually_inverse_witness :
  (exists j,
      gregorian_to_jalali (VDate (PyDate.mkdate 2000 2 29)) = OK j
      /\ jalali_to_gregorian (VJalali j) = OK (PyDate.mkdate 2000 2 29))
  /\ gregorian_to_jalali (VDate (PyDate.mkdate 2021 3 20))
     = OK (mkJalaliDate 1399 12 30).
Proof.
  split.
  - apply (proj1 conversions_mutually_inverse 2000 2 29);
      [reflexivity | unfold supported_gregorian_year; lia].
  - apply (proj2 conversions_mutually_inverse 1399 12 30);
      [vm_compute; reflexivity | vm_compute; reflexivity
       | unfold supported_gregorian_year; cbn; lia].
Defined.

(** ** Leap years *)

(** C2. For a Jalali year of the supported range the two year starts have
    dates, [is_jalali_leap] returns, and the three statements agree: the
    year is leap, its twelfth month has 30 days rather than 29, and the
    next year starts 366 days rather than 365 after it. *)
Theorem leap_consistency (y : Z) :
  supported_jalali_year y ->
  exists (start next_start : date) (leap : bool),
    jalali_to_gregorian (VInts [y; 1; 1]) = OK start
    /\ jalali_to_gregorian (VInts [y + 1; 1; 1]) = OK next_start
    /\ is_jalali_leap y = OK leap
    /\ (leap = true <-> _jalali_month_length y 12 = OK 30)
    /\ (leap = true <-> PyDate.sub_days next_start start = 366)
    /\ (leap = false <-> _jalali_month_length y 12 = OK 29)
    /\ (leap = false <-> PyDate.sub_days next_start start = 365).
Proof.
  unfold supported_jalali_year. intros Hy.
  destruct (jalali_year_start_date y ltac:(lia)) as (a & Ea & _ & _ & Oa).
  destruct (jalali_year_start_date (y + 1) ltac:(lia)) as (b & Eb & _ & _ & Ob).
  exists a, b, (jalali_year_days y =? 366).
  pose proof (jalali_year_days_bounds y) as B.
  assert (PyDate.sub_days b a = jalali_year_days y) as G
      by (unfold PyDate.sub_days, jalali_year_days; lia).
  rewrite G, jalali_month_length_spec by lia.
  rewrite is_jalali_leap_spec by lia.
  change (12 <=? 6) with false. change (12 <=? 11) with false. cbv iota.
  repeat split; try assumption;
    destruct (Z.eqb_spec (jalali_year_days y) 366); intros;
    try congruence; try lia;
    match goal with
    | E : OK _ = OK _ |- _ => injection E; lia
    | _ => f_equal; lia
    end.
Qed.

Lemma leap_consistency_witness :
  exists (start next_start : date) (leap : bool),
    jalali_to_gregorian (VInts [1403; 1; 1]) = OK start
    /\ jalali_to_gregorian (VInts [1403 + 1; 1; 1]) = OK next_start
    /\ is_jalali_leap 1403 = OK leap
    /\ (leap = true <-> _jalali_month_length 1403 12 = OK 30)
    /\ (leap = true <-> PyDate.sub_days next_start start = 366)
    /\ (leap = false <-> _jalali_month_length 1403 12 = OK 29)
    /\ (leap = false <-> PyDate.sub_days next_start start = 365).
Proof.
  apply (leap_consistency 1403). unfold supported_jalali_year. lia.
Defined.

(** C3. The known values: three Gregorian dates and their Jalali dates, in
    both directions, and the leap years 1399 and 1403 around the common
    year 1400. *)
Theorem known_values :
  gregorian_to_jalali (VDate (PyDate.mkdate 2024 3 20))
  = OK (mkJalaliDate 1403 1 1)
  /\ gregorian_to_jalali (VDate (PyDate.mkdate 2023 3 21))
     = OK (mkJalaliDate 1402 1 1)
  /\ gregorian_to_jalali (VDate (PyDate.mkdate 2017 1 1))
     = OK (mkJalaliDate 1395 10 12)
  /\ jalali_to_gregorian (VInts [1403; 1; 1]) = OK (PyDate.mkdate 2024 3 20)
  /\ jalali_to_gregorian (VInts [1402; 1; 1]) = OK (PyDate.mkdate 2023 3 21)
  /\ jalali_to_gregorian (VInts [1395; 10; 12]) = OK (PyDate.mkdate 2017 1 1)
  /\ is_jalali_leap 1399 = OK true
  /\ is_jalali_leap 1403 = OK true
  /\ is_jalali_leap 1400 = OK false.
Proof. repeat split; vm_compute; reflexivity. Qed.

(** The same values through the other input shapes of the tests. *)
Lemma known_values_other_shapes :
  gregorian_to_jalali (VStr "2023-03-21") = OK (mkJalaliDate 1402 1 1)
  /\ gregorian_to_jalali (VInts [2017; 1; 1]) = OK (mkJalaliDate 1395 10 12)
  /\ jalali_to_gregorian (VJalali (mkJalaliDate 1403 1 1))
     = OK (PyDate.mkdate 2024 3 20)
  /\ jalali_to_gregorian (VStr "1402-01-01") = OK (PyDate.mkdate 2023 3 21).
Proof. repeat split; vm_compute; reflexivity. Qed.

(** ** The month walk of [jalali_to_gregorian] *)

(** C8. For every Jalali triple with a month from 1 to 12, and so for every
    valid one, the day number is computed, the residual that enters the
    month walk is less than the length of the Gregorian year it belongs to,
    [leap] says whether that year is leap, and the walk stops at one of the
    twelve months: the [else] branch of the loop is never taken, and the
    conversion is what [date(gy, gm, gd)] returns. *)
Theorem month_walk_never_falls_through (jy jm jd : Z) :
  1 <= jm <= 12 ->
  exists g gy r leap gm gd,
    g_day_no_of_jalali jy jm jd = OK g
    /\ gregorian_year_of_day g = (gy, r, leap)
    /\ 0 <= r < gregorian_year_length gy
    /\ leap = _is_gregorian_leap gy
    /\ month_loop _GREGORIAN_MONTH_LENGTHS 0 leap r = Some (gm, gd)
    /\ 1 <= gm <= 12
    /\ jalali_to_gregorian (VInts [jy; jm; jd]) = PyDate.new gy gm gd.
Proof.
  intros Hm.
  pose proof (g_day_no_of_jalali_spec jy jm jd ltac:(lia)) as G.
  set (g := jalali_year_start jy + jalali_days_before_month jm + jd - 1) in *.
  pose proof (gregorian_year_of_day_spec g) as S.
  destruct (gregorian_year_of_day g) as [[gy r] leap] eqn:D.
  destruct S as (_ & B & ->).
  destruct (month_loop_spec gy r B) as (gm & gd & W & Hgm & _).
  assert (jalali_to_gregorian (VInts [jy; jm; jd]) = PyDate.new gy gm gd) as C.
  { unfold jalali_to_gregorian. cbn [coerce_jalali unpack3 rbind].
    rewrite G. cbn [rbind]. unfold gregorian_of_day_no.
    rewrite D, W. reflexivity. }
  exists g, gy, r, (_is_gregorian_leap gy), gm, gd.
  repeat split; try assumption; try lia.
Qed.

Lemma month_walk_never_falls_through_witness :
  exists g gy r leap gm gd,
    g_day_no_of_jalali 1399 12 30 = OK g
    /\ gregorian_year_of_day g = (gy, r, leap)
    /\ 0 <= r < gregorian_year_length gy
    /\ leap = _is_gregorian_leap gy
    /\ month_loop _GREGORIAN_MONTH_LENGTHS 0 leap r = Some (gm, gd)
    /\ 1 <= gm <= 12
    /\ jalali_to_gregorian (VInts [1399; 12; 30]) = PyDate.new gy gm gd.
Proof. apply (month_walk_never_falls_through 1399 12 30). lia. Defined.

(** ** The year resolution of [gregorian_to_jalali] *)

(** C9. For a valid Gregorian date of the supported range the Jalali year is
    [gy - 621] or, after the one decrement, [gy - 622]; the target is then
    not before the start of that year, the offset [days] is between 0 and
    365, the month and day formulas give fields in range, and the final
    construction returns the Jalali date. *)
Theorem single_decrement_suffices (t : date) :
  PyDate.valid t ->
  supported_gregorian_year (PyDate.year t) ->
  exists jy start days jm jd,
    resolve_jalali_year t = OK (jy, start, days)
    /\ (jy = PyDate.year t - 621 \/ jy = PyDate.year t - 622)
    /\ jalali_to_gregorian (VInts [jy; 1; 1]) = OK start
    /\ PyDate.lt t start = false
    /\ days = PyDate.sub_days t start
    /\ 0 <= days <= 365
    /\ month_day_of_offset days = (jm, jd)
    /\ 1 <= jm <= 12
    /\ 1 <= jd <= 31
    /\ JalaliDate_init jy jm jd = OK (mkJalaliDate jy jm jd)
    /\ gregorian_to_jalali (VDate t) = OK (mkJalaliDate jy jm jd).
Proof.
  unfold supported_gregorian_year. intros V Hy.
  destruct (resolve_jalali_year_spec t V ltac:(lia))
    as (J & s & R & HJ & Es & Os & Lt & B).
  pose proof (jalali_year_days_bounds J) as YB.
  destruct (month_day_of_offset_spec
              (PyDate.toordinal t - PyDate.toordinal s) ltac:(lia))
    as (jm & jd & M & Hm & Hd & H6 & H7 & Off).
  assert (valid_jalali_fields J jm jd) as VF
      by (unfold valid_jalali_fields; repeat split; lia).
  assert (JalaliDate_init J jm jd = OK (mkJalaliDate J jm jd)) as I
      by (apply JalaliDate_init_ok; [lia | exact VF]).
  exists J, s, (PyDate.toordinal t - PyDate.toordinal s), jm, jd.
  repeat split; try assumption; try lia.
  unfold gregorian_to_jalali. cbn [coerce_gregorian rbind].
  rewrite V. cbn [rbind]. rewrite R. cbn [rbind]. rewrite M. exact I.
Qed.

Lemma single_decrement_suffices_witness :
  exists jy start days jm jd,
    resolve_jalali_year (PyDate.mkdate 2021 3 20) = OK (jy, start, days)
    /\ (jy = 2021 - 621 \/ jy = 2021 - 622)
    /\ jalali_to_gregorian (VInts [jy; 1; 1]) = OK start
    /\ PyDate.lt (PyDate.mkdate 2021 3 20) start = false
    /\ days = PyDate.sub_days (PyDate.mkdate 2021 3 20) start
    /\ 0 <= days <= 365
    /\ month_day_of_offset days = (jm, jd)
    /\ 1 <= jm <= 12
    /\ 1 <= jd <= 31
    /\ JalaliDate_init jy jm jd = OK (mkJalaliDate jy jm jd)
    /\ gregorian_to_jalali (VDate (PyDate.mkdate 2021 3 20))
       = OK (mkJalaliDate jy jm jd).
Proof.
  apply (single_decrement_suffices (PyDate.mkdate 2021 3 20));
    [reflexivity | unfold supported_gregorian_year; cbn; lia].
Defined.

(** ** Validation in the constructor *)

Lemma JalaliDate_init_bad_month (y m d : Z) :
  ~ 1 <= m <= 12 -> JalaliDate_init y m d = Raise ValueError.
Proof.
  intros H. unfold JalaliDate_init.
  destruct (Z.leb_spec 1 m), (Z.leb_spec m 12); cbn [andb negb];
    try reflexivity; lia.
Qed.

Lemma JalaliDate_init_month_12 (y d : Z) (e : exn) :
  is_jalali_leap y = Raise e -> JalaliDate_init y 12 d = Raise e.
Proof.
  intros E. unfold JalaliDate_init, _jalali_month_length.
  change (negb ((1 <=? 12) && (12 <=? 12))) with false.
  change (12 <=? 6) with false. change (12 <=? 11) with false. cbv iota.
  rewrite E. reflexivity.
Qed.

Lemma JalaliDate_init_year_out (y d : Z) :
  ~ -620 <= y <= 9377 ->
  year_start_fits_c_int y ->
  JalaliDate_init y 12 d = Raise ValueError.
Proof.
  unfold year_start_fits_c_int. intros H F.
  apply JalaliDate_init_month_12, is_jalali_leap_raises; assumption.
Qed.

Lemma JalaliDate_init_year_overflows (y d : Z) :
  ~ year_start_fits_c_int y ->
  JalaliDate_init y 12 d = Raise OverflowError.
Proof.
  unfold year_start_fits_c_int. intros F.
  apply JalaliDate_init_month_12, is_jalali_leap_overflows; assumption.
Qed.

Lemma JalaliDate_12_30_iff_leap (y : Z) :
  (exists j, JalaliDate_init y 12 30 = OK j) <-> is_jalali_leap y = OK true.
Proof.
  split.
  - intros (j & E). apply JalaliDate_init_inv in E as (_ & VF & R).
    specialize (R eq_refl). rewrite is_jalali_leap_spec by assumption.
    destruct VF as (_ & _ & Hl & _).
    change (jalali_days_before_month 12) with 336 in Hl.
    pose proof (jalali_year_days_bounds y).
    destruct (Z.eqb_spec (jalali_year_days y) 366); [reflexivity | lia].
  - intros E.
    assert (-620 <= y <= 9377) as R.
    { destruct (Z_le_gt_dec (-620) y) as [L1 | L1];
        [destruct (Z_le_gt_dec y 9377) as [L2 | L2] |]; [lia | |];
        destruct (is_jalali_leap_out y ltac:(lia)) as (e & E');
        rewrite E' in E; discriminate E. }
    rewrite is_jalali_leap_spec in E by assumption.
    injection E as E. apply Z.eqb_eq in E.
    exists (mkJalaliDate y 12 30). apply JalaliDate_init_ok; [right; exact R |].
    unfold valid_jalali_fields.
    change (jalali_days_before_month 12) with 336. lia.
Qed.

(** C4, as the code has it. A month outside 1..12 raises [ValueError], and
    so does a day outside [1..L] where [L] is what [_jalali_month_length]
    returns; a triple in range is constructed with exactly its fields, a
    record that nothing of the embedding changes afterwards;
    [JalaliDate(y, 12, 30)] is constructed if and only if [is_jalali_leap(y)]
    is true.  The month length is computed for every month up to 11 and, for
    month 12, for the years from -620 to 9377, whose year start and next
    year start are dates of the host.  For month 12 of any other year the
    constructor raises whatever the day: the host's [ValueError] while the
    Gregorian year of the year start fits a C [int], its [OverflowError]
    beyond. *)
Theorem JalaliDate_validation (y m d : Z) :
  (~ 1 <= m <= 12 -> JalaliDate_init y m d = Raise ValueError)
  /\ (1 <= m <= 12 -> m <= 11 \/ -620 <= y <= 9377 ->
      exists L,
        _jalali_month_length y m = OK L
        /\ 29 <= L <= 31
        /\ (1 <= d <= L ->
            JalaliDate_init y m d = OK (mkJalaliDate y m d))
        /\ (~ 1 <= d <= L -> JalaliDate_init y m d = Raise ValueError))
  /\ ((exists j, JalaliDate_init y 12 30 = OK j)
      <-> is_jalali_leap y = OK true)
  /\ (m = 12 -> ~ -620 <= y <= 9377 -> year_start_fits_c_int y ->
      JalaliDate_init y m d = Raise ValueError)
  /\ (m = 12 -> ~ year_start_fits_c_int y ->
      JalaliDate_init y m d = Raise OverflowError).
Proof.
  split; [apply JalaliDate_init_bad_month |].
  split; [| split; [apply JalaliDate_12_30_iff_leap |
                    split; intros ->;
                    [apply JalaliDate_init_year_out
                    | apply JalaliDate_init_year_overflows]]].
  intros Hm R.
  pose proof (jalali_month_length_spec y m R) as E.
  pose proof (jalali_year_days_bounds y) as B.
  eexists. split; [exact E |].
  rewrite (JalaliDate_init_with_length y m d _ Hm E).
  destruct (Z.leb_spec m 6), (Z.leb_spec m 11); try lia;
    (split; [lia |]); split; intros Hd;
    destruct (Z.leb_spec 1 d); cbn [andb]; try reflexivity; try lia;
    match goal with
    | |- context [Z.leb d ?b] => destruct (Z.leb_spec d b)
    end; try reflexivity; lia.
Qed.

Lemma JalaliDate_validation_witness :
  JalaliDate_init 1403 13 1 = Raise ValueError
  /\ JalaliDate_init 1403 12 30 = OK (mkJalaliDate 1403 12 30)
  /\ JalaliDate_init 1400 12 30 = Raise ValueError
  /\ JalaliDate_init 9400 12 1 = Raise ValueError
  /\ JalaliDate_init 10000000000 12 1 = Raise OverflowError.
Proof.
  split; [| split; [| split; [| split]]].
  - apply (proj1 (JalaliDate_validation 1403 13 1)). lia.
  - destruct (proj1 (proj2 (JalaliDate_validation 1403 12 30))
                ltac:(lia) ltac:(lia)) as (L & E & _ & A & _).
    apply A. vm_compute in E. injection E as <-. lia.
  - destruct (proj1 (proj2 (JalaliDate_validation 1400 12 30))
                ltac:(lia) ltac:(lia)) as (L & E & _ & _ & A).
    apply A. vm_compute in E. injection E as <-. lia.
  - apply (proj1 (proj2 (proj2 (proj2 (JalaliDate_validation 9400 12 1)))));
      [reflexivity | lia | unfold year_start_fits_c_int; lia].
  - apply (proj2 (proj2 (proj2 (proj2
                                  (JalaliDate_validation 10000000000 12 1)))));
      [reflexivity | unfold year_start_fits_c_int; lia].
Defined.

(** C4 as it is worded asks every triple in range to be constructed; the
    first day of month 12 is in range whatever the year, and in Jalali year
    9400 the constructor raises. *)
Lemma JalaliDate_in_range_may_raise :
  ~ (forall y m d : Z,
        1 <= m <= 12 -> 1 <= d <= 29 ->
        exists j, JalaliDate_init y m d = OK j).
Proof.
  intros H. destruct (H 9400 12 1 ltac:(lia) ltac:(lia)) as (j & E).
  vm_compute in E. discriminate E.
Qed.

(** ** Normalizing strings *)

Lemma digit_of_char (c : ascii) (d : Z) :
  digit_of c = Some d ->
  int_space c = false /\ Ascii.eqb c "-" = false /\ Ascii.eqb c "+" = false
  /\ Ascii.eqb c "/" = false /\ 0 <= d <= 9.
Proof.
  destruct c as [[] [] [] [] [] [] [] []]; vm_compute;
    intros E; try discriminate E; injection E as <-;
    repeat split; discriminate.
Qed.

Lemma digit_of_digit_char (d : Z) :
  0 <= d <= 9 -> digit_of (digit_char d) = Some d.
Proof.
  intros H.
  assert (d = 0 \/ d = 1 \/ d = 2 \/ d = 3 \/ d = 4 \/ d = 5 \/ d = 6
          \/ d = 7 \/ d = 8 \/ d = 9) as C by lia.
  repeat (destruct C as [C | C]); subst d; reflexivity.
Qed.

Lemma all_digits_no_separator (s : string) :
  all_digits s = true -> no_separator s = true.
Proof.
  induction s as [| c s IH]; [reflexivity |]. cbn [all_digits no_separator].
  destruct (digit_of c) as [d |] eqn:E; [| discriminate].
  destruct (digit_of_char c d E) as (_ & -> & _ & -> & _). exact IH.
Qed.

Lemma all_digits_digits_onto (fuel : nat) (n : Z) (acc : string) :
  all_digits acc = true -> all_digits (digits_onto fuel n acc) = true.
Proof.
  revert n acc. induction fuel as [| fuel IH]; intros n acc H; [exact H |].
  cbn [digits_onto].
  assert (all_digits (String (digit_char (n mod 10)) acc) = true) as H'.
  { cbn [all_digits]. rewrite digit_of_digit_char by dlia. exact H. }
  destruct (n <? 10); [exact H' | apply IH, H'].
Qed.

Lemma all_digits_zeros (k : nat) (s : string) :
  all_digits s = true -> all_digits (zeros k s) = true.
Proof. induction k as [| k IH]; intros H; [exact H | apply IH, H]. Qed.

Lemma all_digits_decimal (n : Z) : all_digits (decimal n) = true.
Proof. apply all_digits_digits_onto. reflexivity. Qed.

(** Reading the digits written by [digits_onto] adds the number to what was
    read before, shifted by as many places as there are digits. *)
Lemma int_digits_digits_onto (fuel : nat) :
  forall (n : Z) (rest : string),
    0 <= n < 2 ^ Z.of_nat (S fuel) ->
    exists k, 0 <= k /\ forall (a : Z) (p : bool),
        int_digits (digits_onto (S fuel) n rest) a p
        = int_digits rest (a * 10 ^ k + n) true.
Proof.
  induction fuel as [| fuel IH]; intros n rest Hn; cbn [digits_onto].
  - change (2 ^ Z.of_nat 1) with 2 in Hn.
    destruct (Z.ltb_spec n 10); [| lia].
    exists 1. split; [lia |]. intros a p. cbn [int_digits].
    rewrite digit_of_digit_char by dlia. f_equal. dlia.
  - destruct (Z.ltb_spec n 10).
    + exists 1. split; [lia |]. intros a p. cbn [int_digits].
      rewrite digit_of_digit_char by dlia. f_equal. dlia.
    + assert (0 <= n / 10 < 2 ^ Z.of_nat (S fuel)) as Hq.
      { rewrite (Nat2Z.inj_succ (S fuel)), Z.pow_succ_r in Hn by lia.
        split; [dlia |].
        apply Z.div_lt_upper_bound; lia. }
      destruct (IH (n / 10) (String (digit_char (n mod 10)) rest) Hq)
        as (k & Hk0 & Hk).
      exists (k + 1). split; [lia |]. intros a p.
      fold (digits_onto (S fuel)). rewrite Hk. cbn [int_digits].
      rewrite digit_of_digit_char by dlia. f_equal.
      rewrite Z.pow_add_r by lia. change (10 ^ 1) with 10. dlia.
Qed.

Lemma int_digits_decimal (n : Z) (p : bool) :
  0 <= n -> int_digits (decimal n) 0 p = Some n.
Proof.
  intros Hn. unfold decimal.
  destruct (int_digits_digits_onto (Z.to_nat (Z.log2 n)) n EmptyString)
    as (k & _ & Hk).
  - rewrite Nat2Z.inj_succ, Z2Nat.id by apply Z.log2_nonneg.
    destruct (Z.eq_dec n 0) as [-> | N]; [cbn; lia |].
    split; [lia |]. apply Z.log2_spec; lia.
  - rewrite Hk. cbn [int_digits]. f_equal; lia.
Qed.

Lemma int_digits_zeros (k : nat) (s : string) :
  int_digits (zeros (S k) s) 0 false = int_digits s 0 true.
Proof.
  induction k as [| k IH]; [reflexivity |].
  rewrite <- IH. reflexivity.
Qed.

Lemma length_append (s t : string) :
  String.length (s ++ t) = (String.length s + String.length t)%nat.
Proof.
  induction s as [| c s IH]; [reflexivity |].
  change (String c s ++ t)%string with (String c (s ++ t)).
  cbn [String.length]. rewrite IH. reflexivity.
Qed.

Lemma length_zeros (k : nat) (s : string) :
  String.length (zeros k s) = (k + String.length s)%nat.
Proof.
  induction k as [| k IH]; [reflexivity |].
  cbn [zeros String.length]. rewrite IH. reflexivity.
Qed.

Lemma length_digits_onto (fuel : nat) :
  forall (n : Z) (k : nat) (acc : string),
    0 <= n < 10 ^ Z.of_nat (S k) ->
    (String.length (digits_onto fuel n acc) <= S k + String.length acc)%nat.
Proof.
  induction fuel as [| fuel IH]; intros n k acc Hn; cbn [digits_onto]; [lia |].
  destruct (Z.ltb_spec n 10); [cbn [String.length]; lia |].
  destruct k as [| k]; [change (10 ^ Z.of_nat 1) with 10 in Hn; lia |].
  assert (0 <= n / 10 < 10 ^ Z.of_nat (S k)) as Hq.
  { rewrite (Nat2Z.inj_succ (S k)), Z.pow_succ_r in Hn by lia.
    split; [dlia |]. apply Z.div_lt_upper_bound; lia. }
  specialize (IH (n / 10) k (String (digit_char (n mod 10)) acc) Hq).
  cbn [String.length] in IH. lia.
Qed.

Lemma length_decimal (n : Z) (k : nat) :
  0 <= n < 10 ^ Z.of_nat (S k) ->
  (1 <= String.length (decimal n) <= S k)%nat.
Proof.
  intros Hn. split.
  - unfold decimal. cbn [digits_onto].
    destruct (n <? 10); [cbn [String.length]; lia |].
    assert (forall f m acc,
               (String.length acc
                <= String.length (digits_onto f m acc))%nat) as Mono.
    { induction f as [| f IHf]; intros m acc; cbn [digits_onto]; [lia |].
      destruct (m <? 10); [cbn [String.length]; lia |].
      specialize (IHf (m / 10) (String (digit_char (m mod 10)) acc)).
      cbn [String.length] in IHf. lia. }
    specialize (Mono (Z.to_nat (Z.log2 n)) (n / 10)
                  (String (digit_char (n mod 10)) EmptyString)).
    cbn [String.length] in Mono. lia.
  - pose proof (length_digits_onto (S (Z.to_nat (Z.log2 n))) n k EmptyString Hn)
      as L.
    cbn [String.length] in L. unfold decimal. lia.
Qed.

Lemma length_decimal_Z (n k : Z) :
  0 <= n < 10 ^ k -> 1 <= k ->
  1 <= Z.of_nat (String.length (decimal n)) <= k.
Proof.
  intros Hn Hk.
  pose proof (length_decimal n (Z.to_nat (k - 1))) as L.
  rewrite Nat2Z.inj_succ, Z2Nat.id in L by lia.
  replace (Z.succ (k - 1)) with k in L by lia.
  specialize (L Hn). lia.
Qed.

(** A number of more than [k] digits is written with more than [k]
    characters. *)
Lemma length_digits_onto_lower (fuel : nat) :
  forall (n k : Z) (acc : string),
    0 <= k -> 10 ^ k <= n < 2 ^ Z.of_nat fuel ->
    k + 1 + Z.of_nat (String.length acc)
    <= Z.of_nat (String.length (digits_onto fuel n acc)).
Proof.
  induction fuel as [| fuel IH]; intros n k acc Hk Hn.
  - change (2 ^ Z.of_nat 0) with 1 in Hn.
    pose proof (Z.pow_pos_nonneg 10 k ltac:(lia) Hk). lia.
  - cbn [digits_onto].
    rewrite Nat2Z.inj_succ, Z.pow_succ_r in Hn by lia.
    destruct (Z.ltb_spec n 10) as [L | L].
    + assert (k = 0) as ->.
      { destruct (Z.eq_dec k 0) as [E | N]; [exact E | exfalso].
        pose proof (Z.pow_le_mono_r 10 1 k ltac:(lia) ltac:(lia)) as P.
        change (10 ^ 1) with 10 in P. lia. }
      cbn [String.length]. lia.
    + set (acc' := String (digit_char (n mod 10)) acc).
      destruct (Z.eq_dec k 0) as [-> | N].
      * specialize (IH (n / 10) 0 acc' ltac:(lia)).
        change (10 ^ 0) with 1 in IH.
        assert (1 <= n / 10 < 2 ^ Z.of_nat fuel) as Hq by dlia.
        specialize (IH Hq). unfold acc' in IH at 1.
        cbn [String.length] in IH. lia.
      * specialize (IH (n / 10) (k - 1) acc' ltac:(lia)).
        assert (10 ^ k = 10 * 10 ^ (k - 1)) as P.
        { rewrite <- Z.pow_succ_r by lia. f_equal. lia. }
        assert (10 ^ (k - 1) <= n / 10 < 2 ^ Z.of_nat fuel) as Hq by dlia.
        specialize (IH Hq). unfold acc' in IH at 1.
        cbn [String.length] in IH. lia.
Qed.

Lemma length_decimal_lower (n k : Z) :
  0 <= k -> 10 ^ k <= n -> k < Z.of_nat (String.length (decimal n)).
Proof.
  intros Hk Hn. unfold decimal.
  pose proof (Z.pow_pos_nonneg 10 k ltac:(lia) Hk) as P.
  pose proof (length_digits_onto_lower (S (Z.to_nat (Z.log2 n))) n k
                EmptyString Hk) as L.
  cbn [String.length] in L.
  assert (10 ^ k <= n < 2 ^ Z.of_nat (S (Z.to_nat (Z.log2 n)))) as H.
  { split; [exact Hn |].
    rewrite Nat2Z.inj_succ, Z2Nat.id by apply Z.log2_nonneg.
    apply Z.log2_spec; lia. }
  specialize (L H). lia.
Qed.

(** *** [format] within and beyond the limit *)

Lemma format_0d_ok (width : nat) (n : Z) :
  Z.abs n < 10 ^ MAX_STR_DIGITS -> format_0d width n = OK (zfill width n).
Proof.
  intros H. unfold format_0d.
  pose proof (length_decimal_Z (Z.abs n) MAX_STR_DIGITS
                ltac:(lia) ltac:(unfold MAX_STR_DIGITS; lia)) as L.
  destruct (Z.ltb_spec MAX_STR_DIGITS
              (Z.of_nat (String.length (decimal (Z.abs n))))); [lia |].
  reflexivity.
Qed.

Lemma format_0d_too_long (width : nat) (n : Z) :
  10 ^ MAX_STR_DIGITS <= Z.abs n -> format_0d width n = Raise ValueError.
Proof.
  intros H. unfold format_0d.
  pose proof (length_decimal_lower (Z.abs n) MAX_STR_DIGITS
                ltac:(unfold MAX_STR_DIGITS; lia) H) as L.
  destruct (Z.ltb_spec MAX_STR_DIGITS
              (Z.of_nat (String.length (decimal (Z.abs n))))); [| lia].
  reflexivity.
Qed.

Lemma format_0d_inv (width : nat) (n : Z) (s : string) :
  format_0d width n = OK s -> s = zfill width n.
Proof.
  unfold format_0d. destruct (_ <? _); [discriminate |].
  intros E. injection E as <-. reflexivity.
Qed.

Lemma format_0d_raises (width : nat) (n : Z) (e : exn) :
  format_0d width n = Raise e -> e = ValueError.
Proof.
  unfold format_0d. destruct (_ <? _); [| discriminate].
  intros E. injection E as <-. reflexivity.
Qed.

Lemma format_fields_ok (wy wm wd : nat) (y m d : Z) (sep : string) :
  Z.abs y < 10 ^ MAX_STR_DIGITS -> Z.abs m < 10 ^ MAX_STR_DIGITS ->
  Z.abs d < 10 ^ MAX_STR_DIGITS ->
  format_fields wy wm wd y m d sep = OK (rendering wy wm wd y m d sep).
Proof.
  intros Hy Hm Hd. unfold format_fields.
  rewrite !format_0d_ok by assumption. reflexivity.
Qed.

Lemma format_fields_inv (wy wm wd : nat) (y m d : Z) (sep s : string) :
  format_fields wy wm wd y m d sep = OK s -> s = rendering wy wm wd y m d sep.
Proof.
  unfold format_fields, rendering.
  destruct (format_0d wy y) as [a |] eqn:Ea; [| discriminate].
  destruct (format_0d wm m) as [b |] eqn:Eb; [| discriminate].
  destruct (format_0d wd d) as [c |] eqn:Ec; [| discriminate].
  cbn [rbind]. intros E. injection E as <-.
  apply format_0d_inv in Ea, Eb, Ec. subst. reflexivity.
Qed.

Lemma small_within_limit (n : Z) :
  0 <= n < 10000 -> 0 <= n < 10 ^ MAX_STR_DIGITS.
Proof.
  intros H.
  pose proof (Z.pow_le_mono_r 10 4 MAX_STR_DIGITS ltac:(lia)
                ltac:(unfold MAX_STR_DIGITS; lia)) as P.
  change (10 ^ 4) with 10000 in P. lia.
Qed.

(** *** [int] on formatted fields *)

Lemma digit_count_all_digits (s : string) :
  all_digits s = true -> digit_count s = Z.of_nat (String.length s).
Proof.
  induction s as [| c s IH]; [reflexivity |].
  cbn [all_digits digit_count String.length].
  destruct (digit_of c); [| discriminate]. intros H. rewrite (IH H). lia.
Qed.

Lemma length_zfill (width : nat) (n : Z) :
  0 <= n ->
  String.length (zfill width n)
  = Nat.max width (String.length (decimal n)).
Proof.
  intros Hn. unfold zfill. destruct (Z.ltb_spec n 0); [lia |].
  rewrite length_zeros. lia.
Qed.

Lemma all_digits_zfill (width : nat) (n : Z) :
  0 <= n -> all_digits (zfill width n) = true.
Proof.
  intros Hn. unfold zfill. destruct (Z.ltb_spec n 0); [lia |].
  apply all_digits_zeros, all_digits_decimal.
Qed.

Lemma zfill_within_limit (width : nat) (n : Z) :
  0 <= n < 10 ^ MAX_STR_DIGITS -> Z.of_nat width <= MAX_STR_DIGITS ->
  Z.of_nat (String.length (zfill width n)) <= MAX_STR_DIGITS.
Proof.
  intros Hn Hw. rewrite length_zfill by lia.
  pose proof (length_decimal_Z n MAX_STR_DIGITS Hn
                ltac:(unfold MAX_STR_DIGITS; lia)).
  lia.
Qed.

Lemma py_int_raises (s : string) (e : exn) :
  py_int s = Raise e -> e = ValueError.
Proof.
  unfold py_int.
  destruct (lstrip_int s) as [| c s']; cbv zeta.
  - destruct (_ <? _); [congruence |].
    destruct (int_digits _ _ _); congruence.
  - destruct (Ascii.eqb c "-"), (Ascii.eqb c "+");
      (destruct (_ <? _); [congruence |]);
      destruct (int_digits _ _ _); congruence.
Qed.

Lemma coerce_string_raises (s : string) (e : exn) :
  coerce_string s = Raise e -> e = ValueError.
Proof.
  unfold coerce_string.
  destruct (split_dash (replace_slash s)) as [| a [| b [| c [| x l]]]];
    try congruence.
  destruct (py_int a) eqn:Ea; cbn [rbind];
    [| intros E; injection E as <-; eapply py_int_raises, Ea].
  destruct (py_int b) eqn:Eb; cbn [rbind];
    [| intros E; injection E as <-; eapply py_int_raises, Eb].
  destruct (py_int c) eqn:Ec; cbn [rbind];
    [discriminate | intros E; injection E as <-; eapply py_int_raises, Ec].
Qed.

(** [int] applied to a string of digits only. *)
Lemma py_int_all_digits (s : string) :
  all_digits s = true ->
  py_int s
  = if MAX_STR_DIGITS <? Z.of_nat (String.length s) then Raise ValueError
    else match int_digits s 0 false with
         | Some n => OK n
         | None => Raise ValueError
         end.
Proof.
  intros D. unfold py_int.
  destruct s as [| c s]; [reflexivity |].
  pose proof (digit_count_all_digits _ D) as C.
  cbn [all_digits] in D.
  destruct (digit_of c) as [d |] eqn:Ed; [| discriminate D].
  destruct (digit_of_char c d Ed) as (Sp & Dash & Plus & _).
  cbn [lstrip_int]. rewrite Sp, Dash, Plus, C.
  destruct (_ <? _); [reflexivity |].
  destruct (int_digits _ _ _) as [n |]; [f_equal; lia | reflexivity].
Qed.

(** [int] reads back what [format] writes for a number that is not
    negative, as long as there are no more than [MAX_STR_DIGITS] digits. *)
Lemma py_int_zfill (width : nat) (n : Z) :
  0 <= n < 10 ^ MAX_STR_DIGITS -> Z.of_nat width <= MAX_STR_DIGITS ->
  py_int (zfill width n) = OK n.
Proof.
  intros Hn Hw.
  rewrite py_int_all_digits by (apply all_digits_zfill; lia).
  pose proof (zfill_within_limit width n Hn Hw) as L.
  destruct (Z.ltb_spec MAX_STR_DIGITS
              (Z.of_nat (String.length (zfill width n)))); [lia |].
  unfold zfill. destruct (Z.ltb_spec n 0); [lia |].
  destruct (width - String.length (decimal n))%nat as [| k].
  - cbn [zeros]. rewrite int_digits_decimal by lia. reflexivity.
  - rewrite int_digits_zeros, int_digits_decimal by lia. reflexivity.
Qed.

(** Filled with zeros beyond the limit, the text is not read back. *)
Lemma py_int_zfill_too_wide (width : nat) (n : Z) :
  0 <= n -> MAX_STR_DIGITS < Z.of_nat width ->
  py_int (zfill width n) = Raise ValueError.
Proof.
  intros Hn Hw.
  rewrite py_int_all_digits by (apply all_digits_zfill; lia).
  pose proof (length_zfill width n Hn) as L.
  destruct (Z.ltb_spec MAX_STR_DIGITS
              (Z.of_nat (String.length (zfill width n)))); [reflexivity | lia].
Qed.

Lemma no_separator_zfill (width : nat) (n : Z) :
  0 <= n -> no_separator (zfill width n) = true.
Proof. intros Hn. apply all_digits_no_separator, all_digits_zfill, Hn. Qed.

(** *** [replace] and [split] on formatted fields *)

Lemma replace_slash_app (s t : string) :
  replace_slash (s ++ t) = (replace_slash s ++ replace_slash t)%string.
Proof.
  induction s as [| c s IH]; [reflexivity |].
  change (String c s ++ t)%string with (String c (s ++ t)).
  cbn [replace_slash]. rewrite IH. reflexivity.
Qed.

Lemma replace_slash_zfill (width : nat) (n : Z) :
  replace_slash (zfill width n) = zfill width n.
Proof.
  assert (forall s, all_digits s = true -> replace_slash s = s) as R.
  { induction s as [| c s IH]; [reflexivity |]. cbn [all_digits replace_slash].
    destruct (digit_of c) as [d |] eqn:E; [| discriminate].
    destruct (digit_of_char c d E) as (_ & _ & _ & -> & _).
    intros H. rewrite (IH H). reflexivity. }
  unfold zfill. destruct (n <? 0).
  - cbn [replace_slash]. change (Ascii.eqb "-" "/") with false. cbv iota.
    f_equal. apply R, all_digits_zeros, all_digits_decimal.
  - apply R, all_digits_zeros, all_digits_decimal.
Qed.

(** The two renderings of a triple are the same string once the slashes
    are replaced. *)
Lemma replace_slash_rendering (wy wm wd : nat) (y m d : Z) :
  replace_slash (rendering wy wm wd y m d "/") = rendering wy wm wd y m d "-"
  /\ replace_slash (rendering wy wm wd y m d "-")
     = rendering wy wm wd y m d "-".
Proof.
  unfold rendering.
  rewrite !replace_slash_app, !replace_slash_zfill. split; reflexivity.
Qed.

Lemma split_dash_no_separator (s : string) :
  no_separator s = true -> split_dash s = [s].
Proof.
  induction s as [| c s IH]; [reflexivity |]. cbn [no_separator split_dash].
  destruct (Ascii.eqb c "/"), (Ascii.eqb c "-"); cbn [negb andb];
    try discriminate; intros H; rewrite (IH H); reflexivity.
Qed.

Lemma split_dash_app (s t : string) :
  no_separator s = true ->
  split_dash (s ++ String "-" t) = s :: split_dash t.
Proof.
  induction s as [| c s IH]; [reflexivity |].
  change (String c s ++ String "-" t)%string
    with (String c (s ++ String "-" t)).
  cbn [no_separator split_dash].
  destruct (Ascii.eqb c "/"), (Ascii.eqb c "-"); cbn [negb andb];
    try discriminate; intros H; rewrite (IH H); reflexivity.
Qed.

(** The tokens of the rendering of three numbers that are not negative
    are the three fields. *)
Lemma tokens_of_rendering (wy wm wd : nat) (y m d : Z) :
  0 <= y -> 0 <= m -> 0 <= d ->
  split_dash (replace_slash (rendering wy wm wd y m d "-"))
  = [zfill wy y; zfill wm m; zfill wd d].
Proof.
  intros Hy Hm Hd.
  rewrite (proj2 (replace_slash_rendering wy wm wd y m d)).
  unfold rendering.
  change ("-" ++ zfill wm m ++ "-" ++ zfill wd d)%string
    with (String "-" (zfill wm m ++ String "-" (zfill wd d))).
  rewrite split_dash_app by (apply no_separator_zfill, Hy).
  rewrite split_dash_app by (apply no_separator_zfill, Hm).
  rewrite split_dash_no_separator by (apply no_separator_zfill, Hd).
  reflexivity.
Qed.

Lemma coerce_string_rendering (wy wm wd : nat) (y m d : Z) :
  0 <= y < 10 ^ MAX_STR_DIGITS -> 0 <= m < 10 ^ MAX_STR_DIGITS ->
  0 <= d < 10 ^ MAX_STR_DIGITS ->
  Z.of_nat wy <= MAX_STR_DIGITS -> Z.of_nat wm <= MAX_STR_DIGITS ->
  Z.of_nat wd <= MAX_STR_DIGITS ->
  coerce_string (rendering wy wm wd y m d "-") = OK (y, m, d).
Proof.
  intros Hy Hm Hd Wy Wm Wd. unfold coerce_string.
  rewrite tokens_of_rendering by lia.
  rewrite !py_int_zfill by assumption. reflexivity.
Qed.

Lemma coerce_string_too_wide (wy wm wd : nat) (y m d : Z) :
  0 <= y -> 0 <= m -> 0 <= d ->
  MAX_STR_DIGITS < Z.of_nat wy \/ MAX_STR_DIGITS < Z.of_nat wm
  \/ MAX_STR_DIGITS < Z.of_nat wd ->
  coerce_string (rendering wy wm wd y m d "-") = Raise ValueError.
Proof.
  intros Hy Hm Hd W. unfold coerce_string.
  rewrite tokens_of_rendering by lia.
  destruct (py_int (zfill wy y)) as [a | e] eqn:Ea; cbn [rbind];
    [| apply py_int_raises in Ea; subst; reflexivity].
  destruct (py_int (zfill wm m)) as [b | e] eqn:Eb; cbn [rbind];
    [| apply py_int_raises in Eb; subst; reflexivity].
  destruct (py_int (zfill wd d)) as [c | e] eqn:Ec; cbn [rbind];
    [| apply py_int_raises in Ec; subst; reflexivity].
  destruct W as [W | [W | W]];
    [rewrite py_int_zfill_too_wide in Ea by assumption
    | rewrite py_int_zfill_too_wide in Eb by assumption
    | rewrite py_int_zfill_too_wide in Ec by assumption]; discriminate.
Qed.

Lemma coerce_string_slash_dash (wy wm wd : nat) (y m d : Z) :
  coerce_string (rendering wy wm wd y m d "/")
  = coerce_string (rendering wy wm wd y m d "-").
Proof.
  unfold coerce_string.
  destruct (replace_slash_rendering wy wm wd y m d) as [-> ->].
  reflexivity.
Qed.

(** A sign in front of the year is read as one more separator: the
    rendering then has four tokens. *)
Lemma coerce_string_negative_year (wy wm wd : nat) (y m d : Z) :
  y < 0 -> 0 <= m -> 0 <= d ->
  coerce_string (rendering wy wm wd y m d "-") = Raise ValueError.
Proof.
  intros Hy Hm Hd. unfold coerce_string.
  rewrite (proj2 (replace_slash_rendering wy wm wd y m d)).
  unfold rendering, zfill at 1.
  destruct (Z.ltb_spec y 0); [| lia].
  set (ds := zeros (wy - 1 - String.length (decimal (- y))) (decimal (- y))).
  change (String "-" ds ++ "-" ++ zfill wm m ++ "-" ++ zfill wd d)%string
    with (String "-"
            (ds ++ String "-" (zfill wm m ++ String "-" (zfill wd d)))).
  cbn [split_dash]. change (Ascii.eqb "-" "-") with true. cbv iota.
  rewrite split_dash_app
    by apply all_digits_no_separator, all_digits_zeros, all_digits_decimal.
  rewrite split_dash_app by (apply no_separator_zfill, Hm).
  rewrite split_dash_no_separator by (apply no_separator_zfill, Hd).
  reflexivity.
Qed.

Lemma coerce_string_token_count (s : string) :
  List.length (split_dash (replace_slash s)) <> 3%nat ->
  coerce_string s = Raise ValueError.
Proof.
  unfold coerce_string.
  destruct (split_dash (replace_slash s)) as [| a [| b [| c [| e l]]]];
    cbn [List.length]; intros H; try reflexivity. congruence.
Qed.

(** C5, as the code has it. For a year, month and day that are not negative
    and are written with at most [MAX_STR_DIGITS] digits each, the zero
    filling included, the slash and the dash rendering exist and normalize
    to the triple itself, with both normalizers; the two renderings of any
    three integers normalize to the same result; a negative year, whose
    sign is read as a separator, and a field filled to more than
    [MAX_STR_DIGITS] digits raise [ValueError]; and so does every string that
    does not split into exactly three tokens. *)
Theorem string_normalization :
  (forall (wy wm wd : nat) (y m d : Z),
      0 <= y < 10 ^ MAX_STR_DIGITS -> 0 <= m < 10 ^ MAX_STR_DIGITS ->
      0 <= d < 10 ^ MAX_STR_DIGITS ->
      Z.of_nat wy <= MAX_STR_DIGITS -> Z.of_nat wm <= MAX_STR_DIGITS ->
      Z.of_nat wd <= MAX_STR_DIGITS ->
      exists slashed dashed : string,
        format_fields wy wm wd y m d "/" = OK slashed
        /\ format_fields wy wm wd y m d "-" = OK dashed
        /\ coerce_gregorian (VStr slashed) = OK (y, m, d)
        /\ coerce_gregorian (VStr dashed) = OK (y, m, d)
        /\ coerce_jalali (VStr slashed) = OK (y, m, d)
        /\ coerce_jalali (VStr dashed) = OK (y, m, d))
  /\ (forall (wy wm wd : nat) (y m d : Z) (slashed dashed : string),
         format_fields wy wm wd y m d "/" = OK slashed ->
         format_fields wy wm wd y m d "-" = OK dashed ->
         coerce_gregorian (VStr slashed) = coerce_gregorian (VStr dashed)
         /\ coerce_jalali (VStr slashed) = coerce_jalali (VStr dashed))
  /\ (forall (wy wm wd : nat) (y m d : Z) (slashed dashed : string),
         (y < 0 \/ MAX_STR_DIGITS < Z.of_nat wy
          \/ MAX_STR_DIGITS < Z.of_nat wm \/ MAX_STR_DIGITS < Z.of_nat wd) ->
         0 <= m -> 0 <= d ->
         format_fields wy wm wd y m d "/" = OK slashed ->
         format_fields wy wm wd y m d "-" = OK dashed ->
         coerce_gregorian (VStr slashed) = Raise ValueError
         /\ coerce_gregorian (VStr dashed) = Raise ValueError
         /\ coerce_jalali (VStr slashed) = Raise ValueError
         /\ coerce_jalali (VStr dashed) = Raise ValueError)
  /\ (forall s : string,
         List.length (split_dash (replace_slash s)) <> 3%nat ->
         coerce_gregorian (VStr s) = Raise ValueError
         /\ coerce_jalali (VStr s) = Raise ValueError).
Proof.
  cbn [coerce_gregorian coerce_jalali]. split; [| split; [| split]].
  - intros wy wm wd y m d Hy Hm Hd Wy Wm Wd.
    exists (rendering wy wm wd y m d "/"), (rendering wy wm wd y m d "-").
    rewrite !format_fields_ok by lia.
    rewrite coerce_string_slash_dash.
    rewrite coerce_string_rendering by assumption. repeat split.
  - intros wy wm wd y m d slashed dashed Es Ed.
    apply format_fields_inv in Es, Ed. subst.
    split; apply coerce_string_slash_dash.
  - intros wy wm wd y m d slashed dashed H Hm Hd Es Ed.
    apply format_fields_inv in Es, Ed. subst.
    rewrite coerce_string_slash_dash.
    assert (coerce_string (rendering wy wm wd y m d "-") = Raise ValueError)
      as ->; [| repeat split].
    destruct (Z_lt_ge_dec y 0) as [Ly | Ly].
    + apply coerce_string_negative_year; assumption.
    + destruct H as [H | H]; [lia |].
      apply coerce_string_too_wide; (assumption || lia).
  - intros s H. split; apply coerce_string_token_count, H.
Qed.

Lemma string_normalization_witness :
  (exists slashed dashed : string,
      format_fields 4 2 2 2024 3 20 "/" = OK slashed
      /\ format_fields 4 2 2 2024 3 20 "-" = OK dashed
      /\ coerce_gregorian (VStr slashed) = OK (2024, 3, 20)
      /\ coerce_gregorian (VStr dashed) = OK (2024, 3, 20)
      /\ coerce_jalali (VStr slashed) = OK (2024, 3, 20)
      /\ coerce_jalali (VStr dashed) = OK (2024, 3, 20))
  /\ (coerce_gregorian (VStr "2024/03/20") = coerce_gregorian (VStr "2024-03-20")
      /\ coerce_jalali (VStr "2024/03/20") = coerce_jalali (VStr "2024-03-20"))
  /\ (coerce_gregorian (VStr "-022/10/11") = Raise ValueError
      /\ coerce_gregorian (VStr "-022-10-11") = Raise ValueError
      /\ coerce_jalali (VStr "-022/10/11") = Raise ValueError
      /\ coerce_jalali (VStr "-022-10-11") = Raise ValueError)
  /\ (coerce_gregorian (VStr "2024-03") = Raise ValueError
      /\ coerce_jalali (VStr "2024-03") = Raise ValueError).
Proof.
  split; [| split; [| split]].
  - apply (proj1 string_normalization 4%nat 2%nat 2%nat 2024 3 20);
      first [ apply small_within_limit; lia | unfold MAX_STR_DIGITS; lia ].
  - apply (proj1 (proj2 string_normalization) 4%nat 2%nat 2%nat 2024 3 20);
      vm_compute; reflexivity.
  - apply (proj1 (proj2 (proj2 string_normalization))
             4%nat 2%nat 2%nat (-22) 10 11);
      first [ left; lia | lia | vm_compute; reflexivity ].
  - apply (proj2 (proj2 (proj2 string_normalization)) "2024-03"%string).
    vm_compute. discriminate.
Defined.

(** The year of a date [gregorian_to_jalali] returns can be negative:
    the first day of Gregorian year 600 is in Jalali year -22, and neither
    rendering of that date is read back. *)
Lemma negative_year_rendering :
  gregorian_to_jalali (VDate (PyDate.mkdate 600 1 1))
  = OK (mkJalaliDate (-22) 10 11)
  /\ isoformat (mkJalaliDate (-22) 10 11) "-" = OK "-022-10-11"%string
  /\ isoformat (mkJalaliDate (-22) 10 11) "/" = OK "-022/10/11"%string
  /\ coerce_jalali (VStr "-022-10-11") = Raise ValueError
  /\ coerce_jalali (VStr "-022/10/11") = Raise ValueError
  /\ coerce_gregorian (VStr "-022-10-11") = Raise ValueError
  /\ coerce_gregorian (VStr "-022/10/11") = Raise ValueError.
Proof. repeat split; vm_compute; reflexivity. Qed.

(** C5 as it is worded asks the renderings of every year, month and day to
    normalize to the triple; the rendering of year -22, month 10, day 11
    has four tokens and raises. *)
Lemma negative_year_does_not_normalize :
  ~ (forall (y m d : Z) (dashed : string),
        isoformat (mkJalaliDate y m d) "-" = OK dashed ->
        coerce_jalali (VStr dashed) = OK (y, m, d)).
Proof.
  intros H. specialize (H (-22) 10 11 "-022-10-11"%string).
  vm_compute in H. specialize (H eq_refl). discriminate H.
Qed.

(** ** The preference resolver *)

Section PreferenceFacts.
Import Preferences.

Lemma in_valid_iff (s : string) :
  in_valid s = true <-> s = "jalali" \/ s = "gregorian".
Proof.
  unfold in_valid, VALID_CALENDARS. cbn [existsb].
  destruct (String.eqb_spec s "jalali") as [-> | N1]; [intuition |].
  destruct (String.eqb_spec s "gregorian") as [-> | N2]; [intuition |].
  cbn [orb]. intuition discriminate.
Qed.

Lemma normalize_valid (c : option string) :
  valid_calendar_name c ->
  exists n, _normalize_calendar c = Some n
            /\ (n = "jalali" \/ n = "gregorian").
Proof.
  intros (s & -> & H). cbn [_normalize_calendar].
  rewrite (proj2 (in_valid_iff _) H). eauto.
Qed.

Lemma normalize_invalid (c : option string) :
  ~ valid_calendar_name c -> _normalize_calendar c = None.
Proof.
  intros H. destruct c as [s |]; [| reflexivity]. cbn [_normalize_calendar].
  destruct (in_valid (lower (strip s))) eqn:E; [| reflexivity].
  exfalso. apply H. exists s. split; [reflexivity |].
  apply in_valid_iff, E.
Qed.

Lemma require_valid (c : option string) (st : store) :
  valid_calendar_name c ->
  exists n, _require_calendar c st = (OK n, st)
            /\ (n = "jalali" \/ n = "gregorian").
Proof.
  intros H. destruct (normalize_valid c H) as (n & E & Hn).
  exists n. unfold _require_calendar. rewrite E.
  destruct Hn as [-> | ->]; split; auto.
Qed.

Lemma require_invalid (c : option string) (st : store) :
  ~ valid_calendar_name c ->
  _require_calendar c st = (Raise ValueError, st).
Proof.
  intros H. unfold _require_calendar. rewrite (normalize_invalid c H).
  reflexivity.
Qed.

(** Resolution reads the store, leaves it alone and always returns. *)
Lemma resolve_calendar_reads (user : option string) (st : store) :
  exists sel, resolve_calendar user st = (OK sel, st).
Proof.
  unfold resolve_calendar, get_user_calendar, _read_user_value,
    get_system_calendar, _read_system_value, bind, read, ret.
  destruct user as [name |];
    [destruct (user_slots st !! name) as [v |]; cbn [or_else];
     [destruct (truthy v); cbn [truthy] |] |];
    cbn [or_else truthy];
    repeat match goal with
           | |- context [truthy ?x] => destruct (truthy x)
           end; eauto.
Qed.

Lemma resolve_default (user : option string) (st : store) :
  system_slot st = None -> user_unset st user ->
  resolve_calendar user st = (OK (mkCalendarSelection "jalali" "default"), st).
Proof.
  intros Hs Hu.
  unfold resolve_calendar, get_user_calendar, _read_user_value,
    get_system_calendar, _read_system_value, bind, read, ret.
  destruct user as [name |]; cbn [user_unset] in Hu; cbv beta;
    rewrite ?Hu; cbn [or_else truthy]; rewrite Hs; reflexivity.
Qed.

Lemma resolve_system (user : option string) (st : store) (cal : string) :
  system_slot st = Some cal -> truthy cal = true -> user_unset st user ->
  resolve_calendar user st = (OK (mkCalendarSelection cal "system"), st).
Proof.
  intros Hs Ht Hu.
  unfold resolve_calendar, get_user_calendar, _read_user_value,
    get_system_calendar, _read_system_value, bind, read, ret.
  destruct user as [name |]; cbn [user_unset] in Hu; cbv beta;
    rewrite ?Hu; cbn [or_else truthy]; rewrite Hs; cbn [or_else];
    rewrite !Ht; reflexivity.
Qed.

Lemma resolve_user (name : string) (st : store) (cal : string) :
  user_slots st !! name = Some cal -> truthy cal = true ->
  resolve_calendar (Some name) st
  = (OK (mkCalendarSelection cal "user"), st).
Proof.
  intros Hu Ht.
  unfold resolve_calendar, get_user_calendar, _read_user_value, bind, read, ret.
  cbv beta. rewrite Hu. cbn [or_else]. rewrite !Ht. reflexivity.
Qed.

Lemma set_system_calendar_valid (c : option string) (st : store) :
  valid_calendar_name c ->
  exists n sel,
    (n = "jalali" \/ n = "gregorian")
    /\ _normalize_calendar c = Some n
    /\ set_system_calendar c st
       = (OK sel, mkstore (Some n) (user_slots st)).
Proof.
  intros H. destruct (normalize_valid c H) as (n & E & Hn).
  destruct (resolve_calendar_reads None (mkstore (Some n) (user_slots st)))
    as (sel & R).
  exists n, sel. split; [exact Hn |]. split; [exact E |].
  unfold set_system_calendar, bind, _require_calendar. rewrite E.
  assert (truthy n = true) as -> by (destruct Hn as [-> | ->]; reflexivity).
  cbn [ret _write_system_value]. exact R.
Qed.

Lemma set_user_calendar_valid (c : option string) (name : string)
  (st : store) :
  valid_calendar_name c ->
  exists n,
    (n = "jalali" \/ n = "gregorian")
    /\ _normalize_calendar c = Some n
    /\ set_user_calendar c (Some name) st
       = (OK (mkCalendarSelection n "user"),
          mkstore (system_slot st) (<[name := n]> (user_slots st))).
Proof.
  intros H. destruct (normalize_valid c H) as (n & E & Hn).
  exists n. split; [exact Hn |]. split; [exact E |].
  unfold set_user_calendar, bind, _require_calendar. rewrite E.
  assert (truthy n = true) as T by (destruct Hn as [-> | ->]; reflexivity).
  rewrite T. cbn [ret _write_user_value].
  apply resolve_user; [| exact T]. cbn [user_slots].
  apply lookup_insert_eq.
Qed.

Lemma set_user_calendar_no_user (c : option string) (st : store) :
  valid_calendar_name c ->
  set_user_calendar c None st = (Raise RuntimeError, st).
Proof.
  intros H. destruct (require_valid c st H) as (n & E & _).
  unfold set_user_calendar, bind. rewrite E. reflexivity.
Qed.

Lemma set_system_calendar_invalid (c : option string) (st : store) :
  ~ valid_calendar_name c ->
  set_system_calendar c st = (Raise ValueError, st).
Proof.
  intros H. unfold set_system_calendar, bind.
  rewrite (require_invalid c st H). reflexivity.
Qed.

Lemma set_user_calendar_invalid (c user : option string) (st : store) :
  ~ valid_calendar_name c ->
  set_user_calendar c user st = (Raise ValueError, st).
Proof.
  intros H. unfold set_user_calendar, bind.
  rewrite (require_invalid c st H). reflexivity.
Qed.

Lemma valid_calendar_name_dec (c : option string) :
  valid_calendar_name c \/ ~ valid_calendar_name c.
Proof.
  destruct (_normalize_calendar c) as [n |] eqn:E.
  - left. destruct c as [s |]; [| discriminate E].
    cbn [_normalize_calendar] in E. exists s. split; [reflexivity |].
    destruct (in_valid (lower (strip s))) eqn:V; [| discriminate E].
    apply in_valid_iff, V.
  - right. intros H. destruct (normalize_valid c H) as (n & E' & _).
    congruence.
Qed.

Lemma get_preference_context_reads (user : option string) (st : store) :
  exists ctx, get_preference_context user st = (OK ctx, st).
Proof.
  unfold get_preference_context, bind.
  destruct (resolve_calendar_reads user st) as (sel & ->).
  unfold get_system_calendar, get_user_calendar, _read_system_value,
    _read_user_value, bind, read, ret.
  destruct user as [name |]; cbv beta; eauto.
Qed.



(** *** The scope of [set_calendar_preference] *)

Lemma set_calendar_preference_other_scope
  (s : string) (c user : option string) (st : store) :
  s <> "" -> lower (strip s) <> "system" -> lower (strip s) <> "user" ->
  set_calendar_preference (Some s) c user st = (Raise ValueError, st).
Proof.
  intros Hs H1 H2. unfold set_calendar_preference. cbn [or_else].
  assert (truthy s = true) as -> by (destruct s; [congruence | reflexivity]).
  destruct (String.eqb_spec (lower (strip s)) "system"); [contradiction |].
  destruct (String.eqb_spec (lower (strip s)) "user"); [contradiction |].
  reflexivity.
Qed.

Lemma set_calendar_preference_default_scope
  (c user : option string) (st : store) :
  set_calendar_preference None c user st
  = set_calendar_preference (Some "user") c user st
  /\ set_calendar_preference (Some "") c user st
     = set_calendar_preference (Some "user") c user st.
Proof. split; reflexivity. Qed.

Lemma set_calendar_preference_user_ok
  (scope c : option string) (name : string) (st : store) :
  scope = None \/ scope = Some "" ->
  valid_calendar_name c ->
  exists ctx,
    fst (set_calendar_preference scope c (Some name) st) = OK ctx.
Proof.
  intros Hs Hc.
  assert (set_calendar_preference scope c (Some name) st
          = set_calendar_preference (Some "user") c (Some name) st) as ->
      by (destruct Hs as [-> | ->]; reflexivity).
  unfold set_calendar_preference. cbn [or_else truthy].
  change (lower (strip "user") =? "system")%string with false.
  change (lower (strip "user") =? "user")%string with true.
  cbv iota. unfold bind.
  destruct (set_user_calendar_valid c name st Hc) as (n & _ & _ & ->).
  destruct (get_preference_context_reads (Some name)
              (mkstore (system_slot st) (<[name := n]> (user_slots st))))
    as (ctx & ->).
  exists ctx. reflexivity.
Qed.

(** C7, as the code has it. The two setters take exactly the calendar
    arguments whose trimmed, lowercased form is ["jalali"] or
    ["gregorian"]: with such an argument they return (the user setter when
    it is given a user), with any other, [None] and the empty string
    among them, they raise [ValueError].  [set_calendar_preference] raises
    [ValueError] for every scope that is not empty and whose trimmed,
    lowercased form is neither ["system"] nor ["user"]; a missing or empty
    scope is the scope ["user"]. *)
Theorem setters_validate_names :
  (forall (c : option string) (st : store),
      valid_calendar_name c ->
      (exists sel, fst (set_system_calendar c st) = OK sel)
      /\ (forall name : string,
             exists sel, fst (set_user_calendar c (Some name) st) = OK sel))
  /\ (forall (c user : option string) (st : store),
         ~ valid_calendar_name c ->
         fst (set_system_calendar c st) = Raise ValueError
         /\ fst (set_user_calendar c user st) = Raise ValueError)
  /\ (~ valid_calendar_name None /\ ~ valid_calendar_name (Some ""))
  /\ (forall (s : string) (c user : option string) (st : store),
         s <> "" ->
         lower (strip s) <> "system" -> lower (strip s) <> "user" ->
         fst (set_calendar_preference (Some s) c user st) = Raise ValueError)
  /\ (forall (c user : option string) (st : store),
         set_calendar_preference None c user st
         = set_calendar_preference (Some "user") c user st
         /\ set_calendar_preference (Some "") c user st
            = set_calendar_preference (Some "user") c user st).
Proof.
  split; [| split; [| split; [| split]]].
  - intros c st H. split.
    + destruct (set_system_calendar_valid c st H) as (n & sel & _ & _ & ->).
      exists sel. reflexivity.
    + intros name.
      destruct (set_user_calendar_valid c name st H) as (n & _ & _ & ->).
      eexists. reflexivity.
  - intros c user st H.
    rewrite set_system_calendar_invalid, set_user_calendar_invalid
      by assumption.
    split; reflexivity.
  - split; intros (s & E & H); [discriminate E |].
    injection E as <-. destruct H as [H | H]; discriminate H.
  - intros s c user st Hs H1 H2.
    rewrite set_calendar_preference_other_scope by assumption. reflexivity.
  - apply set_calendar_preference_default_scope.
Qed.

Lemma setters_validate_names_witness :
  ((exists sel,
       fst (set_system_calendar (Some " Gregorian ") _FALLBACK_STORE) = OK sel)
   /\ (forall name : string,
          exists sel,
            fst (set_user_calendar (Some " Gregorian ") (Some name)
                   _FALLBACK_STORE) = OK sel))
  /\ fst (set_system_calendar (Some "lunar") _FALLBACK_STORE)
     = Raise ValueError
  /\ fst (set_calendar_preference (Some "global") (Some "jalali")
            (Some "demo@example.com") _FALLBACK_STORE) = Raise ValueError.
Proof.
  split; [| split].
  - apply (proj1 setters_validate_names).
    exists " Gregorian "%string. split; [reflexivity | right; reflexivity].
  - apply (proj1 (proj2 setters_validate_names) (Some "lunar") None).
    intros (s & E & H). injection E as <-.
    destruct H as [H | H]; vm_compute in H; discriminate H.
  - apply (proj1 (proj2 (proj2 (proj2 setters_validate_names)))).
    + discriminate.
    + vm_compute. discriminate.
    + vm_compute. discriminate.
Defined.

(** C7 as it is worded has [set_calendar_preference] raise for the empty
    scope, whose trimmed, lowercased form is neither name; the code takes
    the empty scope for ["user"] and returns. *)
Lemma empty_scope_is_user_scope :
  ~ (forall (s : string) (c user : option string) (st : store),
        lower (strip s) <> "system" -> lower (strip s) <> "user" ->
        fst (set_calendar_preference (Some s) c user st) = Raise ValueError).
Proof.
  intros H.
  specialize (H "" (Some "jalali") (Some "demo@example.com") _FALLBACK_STORE
                ltac:(discriminate) ltac:(discriminate)).
  destruct (set_calendar_preference_user_ok (Some "") (Some "jalali")
              "demo@example.com" _FALLBACK_STORE)
    as (ctx & E).
  - right. reflexivity.
  - exists "jalali". split; [reflexivity | left; reflexivity].
  - rewrite E in H. discriminate H.
Qed.

(** C10. The setters validate before they write: when the calendar argument
    is not valid, or when [set_user_calendar] has a valid one and no user,
    the call raises and the store is the one it was given; and whenever one
    of the two raises, the store is unchanged. *)
Theorem setters_validate_before_writing :
  (forall (c : option string) (st : store),
      ~ valid_calendar_name c ->
      set_system_calendar c st = (Raise ValueError, st))
  /\ (forall (c user : option string) (st : store),
         ~ valid_calendar_name c ->
         set_user_calendar c user st = (Raise ValueError, st))
  /\ (forall (c : option string) (st : store),
         valid_calendar_name c ->
         set_user_calendar c None st = (Raise RuntimeError, st))
  /\ (forall (c : option string) (st : store) (e : exn),
         fst (set_system_calendar c st) = Raise e ->
         snd (set_system_calendar c st) = st)
  /\ (forall (c user : option string) (st : store) (e : exn),
         fst (set_user_calendar c user st) = Raise e ->
         snd (set_user_calendar c user st) = st).
Proof.
  split; [| split; [| split; [| split]]].
  - apply set_system_calendar_invalid.
  - apply set_user_calendar_invalid.
  - apply set_user_calendar_no_user.
  - intros c st e.
    destruct (valid_calendar_name_dec c) as [V | V].
    + destruct (set_system_calendar_valid c st V) as (n & sel & _ & _ & ->).
      discriminate.
    + rewrite set_system_calendar_invalid by assumption. reflexivity.
  - intros c user st e.
    destruct (valid_calendar_name_dec c) as [V | V].
    + destruct user as [name |].
      * destruct (set_user_calendar_valid c name st V) as (n & _ & _ & ->).
        discriminate.
      * rewrite set_user_calendar_no_user by assumption. reflexivity.
    + rewrite set_user_calendar_invalid by assumption. reflexivity.
Qed.

Lemma setters_validate_before_writing_witness :
  set_system_calendar (Some "lunar")
    (mkstore (Some "gregorian") (<["demo@example.com" := "jalali"]> ∅))
  = (Raise ValueError,
     mkstore (Some "gregorian") (<["demo@example.com" := "jalali"]> ∅))
  /\ set_user_calendar (Some "jalali") None
       (mkstore (Some "gregorian") (<["demo@example.com" := "jalali"]> ∅))
     = (Raise RuntimeError,
        mkstore (Some "gregorian") (<["demo@example.com" := "jalali"]> ∅)).
Proof.
  split.
  - apply (proj1 setters_validate_before_writing).
    intros (s & E & H). injection E as <-.
    destruct H as [H | H]; vm_compute in H; discriminate H.
  - apply (proj1 (proj2 (proj2 setters_validate_before_writing))).
    exists "jalali". split; [reflexivity | left; reflexivity].
Defined.

End PreferenceFacts.

(** * Further properties of the conversion engine *)

(** ** Where Nowruz falls *)

Lemma nowruz_position (J : Z) :
  -1000 <= J <= 10000 ->
  let r := jalali_year_start J + EPOCH_1600
           - PyDate._days_before_year (J + 621) in
  77 + (if _is_gregorian_leap (J + 621) then 1 else 0)
  <= r <= 80 + (if _is_gregorian_leap (J + 621) then 1 else 0).
Proof.
  intros HJ. cbv zeta.
  destruct (is_leap_cases (J + 621)) as [(-> & ? & ?) | (-> & ?)];
    unfold PyDate._days_before_year, jalali_year_start, EPOCH_1600; dlia.
Qed.

(** The first day of every Jalali year whose Gregorian year the host has is
    a day of March, from the 19th to the 22nd, of Gregorian year [y + 621].
    Outside those years the conversion raises: the host's [ValueError] as
    long as the Gregorian year of the day fits a C [int], which it does for
    the Jalali years from -2147484714 to 2147483472, and its [OverflowError]
    beyond them. *)
Theorem nowruz_in_march (y : Z) :
  (-620 <= y <= 9378 ->
   exists day,
     jalali_to_gregorian (VInts [y; 1; 1]) = OK (PyDate.mkdate (y + 621) 3 day)
     /\ 19 <= day <= 22)
  /\ (~ -620 <= y <= 9378 -> year_start_fits_c_int y ->
      jalali_to_gregorian (VInts [y; 1; 1]) = Raise ValueError)
  /\ (~ year_start_fits_c_int y ->
      jalali_to_gregorian (VInts [y; 1; 1]) = Raise OverflowError)
  /\ (year_start_fits_c_int y
      <-> PyDate.fits_c_int (year_of_day (jalali_year_start y)) = true).
Proof.
  split; [| split; [apply jalali_year_start_raises |
                    split; [apply jalali_year_start_overflows |]]].
  2: { rewrite fits_c_int_iff. apply year_of_year_start_ranges. }
  intros Hy. rewrite jalali_to_gregorian_ints by lia.
  change (jalali_days_before_month 1) with 0.
  pose proof (nowruz_position y ltac:(lia)) as P. cbv zeta in P.
  pose proof (gregorian_year_length_bounds (y + 621)) as B.
  set (r := jalali_year_start y + EPOCH_1600
            - PyDate._days_before_year (y + 621)) in *.
  set (leap := if _is_gregorian_leap (y + 621) then 1 else 0) in *.
  assert (0 <= leap <= 1) as Hl
      by (unfold leap; destruct (_is_gregorian_leap (y + 621)); lia).
  assert (PyDate._days_before_month (y + 621) 3 = 59 + leap) as D3.
  { unfold PyDate._days_before_month, leap.
    change (PyDate._is_leap (y + 621)) with (_is_gregorian_leap (y + 621)).
    change (2 <? 3) with true. cbn [andb].
    destruct (_is_gregorian_leap (y + 621)); reflexivity. }
  exists (r - 58 - leap). split; [| lia].
  unfold gregorian_of_day_no.
  replace (jalali_year_start y + 0 + 1 - 1)
    with (PyDate._days_before_year (y + 621) + r - EPOCH_1600)
    by (unfold r; lia).
  rewrite gregorian_year_of_day_inv by lia.
  replace r with (PyDate._days_before_month (y + 621) 3 + (r - 58 - leap) - 1)
    at 1 by lia.
  rewrite month_loop_inv by (try lia; change (PyDate._days_in_month (y + 621) 3)
                                        with 31; lia).
  apply date_new_ok; [lia | lia |].
  change (PyDate._days_in_month (y + 621) 3) with 31. lia.
Qed.

Lemma nowruz_in_march_witness :
  (exists day,
      jalali_to_gregorian (VInts [1403; 1; 1])
      = OK (PyDate.mkdate (1403 + 621) 3 day)
      /\ 19 <= day <= 22)
  /\ jalali_to_gregorian (VInts [9379; 1; 1]) = Raise ValueError
  /\ jalali_to_gregorian (VInts [2147483473; 1; 1]) = Raise OverflowError.
Proof.
  split; [| split].
  - apply (proj1 (nowruz_in_march 1403)). lia.
  - apply (proj1 (proj2 (nowruz_in_march 9379)));
      [lia | unfold year_start_fits_c_int; lia].
  - apply (proj1 (proj2 (proj2 (nowruz_in_march 2147483473)))).
    unfold year_start_fits_c_int. lia.
Defined.

(** ** Which Jalali years are leap *)

Lemma jalali_year_days_leap_position (y : Z) :
  jalali_year_days y = if leap_position y then 366 else 365.
Proof.
  unfold jalali_year_days, jalali_year_start, leap_position.
  replace (y + 1 - 979) with (y - 979 + 1) by lia.
  set (a := y - 979).
  destruct (Z.eqb_spec ((a mod 33) mod 4) 0) as [E4 | E4];
    destruct (Z.eqb_spec (a mod 33) 32) as [E32 | E32];
    cbn [andb negb]; dlia.
Qed.

(** [is_jalali_leap] returns for the Jalali years -620 to 9377 and raises
    for every other year: the host's [ValueError] as long as the Gregorian
    year in which the Jalali year starts fits a C [int], its [OverflowError]
    beyond.  Where it returns, the leap years are those at a multiple of 4
    below 32 in the cycle of 33 years that year 979 begins, so they repeat
    every 33 years, and no two leap years are adjacent. *)
Theorem jalali_leap_years (y : Z) :
  (-620 <= y <= 9377 ->
   is_jalali_leap y = OK (leap_position y)
   /\ (y + 33 <= 9377 -> is_jalali_leap (y + 33) = is_jalali_leap y)
   /\ (is_jalali_leap y = OK true -> y + 1 <= 9377 ->
       is_jalali_leap (y + 1) = OK false))
  /\ (~ -620 <= y <= 9377 -> year_start_fits_c_int y ->
      is_jalali_leap y = Raise ValueError)
  /\ (~ year_start_fits_c_int y -> is_jalali_leap y = Raise OverflowError).
Proof.
  split; [| split; [apply is_jalali_leap_raises
                   | apply is_jalali_leap_overflows]].
  intros Hy.
  assert (forall z, -620 <= z <= 9377 -> is_jalali_leap z = OK (leap_position z))
    as L.
  { intros z Hz. rewrite is_jalali_leap_spec by assumption.
    rewrite jalali_year_days_leap_position.
    destruct (leap_position z); reflexivity. }
  split; [apply L, Hy |]. split.
  - intros H33. rewrite !L by lia. f_equal. unfold leap_position.
    replace ((y + 33 - 979) mod 33) with ((y - 979) mod 33) by dlia.
    reflexivity.
  - intros E H1. rewrite L in E by lia. rewrite L by lia.
    injection E as E. f_equal. revert E. unfold leap_position.
    replace (y + 1 - 979) with (y - 979 + 1) by lia.
    set (a := y - 979).
    destruct (Z.eqb_spec ((a mod 33) mod 4) 0);
      destruct (Z.eqb_spec (a mod 33) 32); cbn [andb negb];
      try discriminate; intros _.
    destruct (Z.eqb_spec (((a + 1) mod 33) mod 4) 0);
      destruct (Z.eqb_spec ((a + 1) mod 33) 32); cbn [andb negb];
      try reflexivity; dlia.
Qed.

Lemma jalali_leap_years_witness :
  (is_jalali_leap 1403 = OK (leap_position 1403)
   /\ (1403 + 33 <= 9377 -> is_jalali_leap (1403 + 33) = is_jalali_leap 1403)
   /\ (is_jalali_leap 1403 = OK true -> 1403 + 1 <= 9377 ->
       is_jalali_leap (1403 + 1) = OK false))
  /\ is_jalali_leap 9378 = Raise ValueError
  /\ is_jalali_leap (-2147484715) = Raise OverflowError.
Proof.
  split; [| split].
  - apply (proj1 (jalali_leap_years 1403)). lia.
  - apply (proj1 (proj2 (jalali_leap_years 9378)));
      [lia | unfold year_start_fits_c_int; lia].
  - apply (proj2 (proj2 (jalali_leap_years (-2147484715)))).
    unfold year_start_fits_c_int. lia.
Defined.

(** ** The domain of [gregorian_to_jalali] *)

Lemma first_convertible_start :
  jalali_to_gregorian (VInts [-620; 1; 1]) = OK FIRST_CONVERTIBLE
  /\ PyDate.valid FIRST_CONVERTIBLE
  /\ PyDate.toordinal FIRST_CONVERTIBLE = jalali_year_start (-620) + EPOCH_1600 + 1.
Proof. repeat split; vm_compute; reflexivity. Qed.

Lemma resolve_jalali_year_early (t : date) :
  PyDate.valid t ->
  PyDate.lt t FIRST_CONVERTIBLE = true ->
  resolve_jalali_year t = Raise ValueError.
Proof.
  intros V L.
  destruct first_convertible_start as (E & VF & O).
  rewrite (date_lt_ordinal t _ V VF) in L. apply Z.ltb_lt in L.
  pose proof (date_position t V) as P.
  pose proof V as V'. apply date_new_inv in V' as (_ & Hy & _).
  assert (PyDate.year t = 1) as Y.
  { destruct (Z.eq_dec (PyDate.year t) 1) as [Y | N]; [exact Y | exfalso].
    pose proof (days_before_year_mono 2 (PyDate.year t) ltac:(lia)) as M.
    revert M L P. rewrite O.
    unfold jalali_year_start, PyDate._days_before_year at 1, EPOCH_1600.
    intros. dlia. }
  unfold resolve_jalali_year. rewrite Y. change (1 - 621) with (-620).
  rewrite E. cbn [rbind].
  rewrite (date_lt_ordinal t _ V VF).
  destruct (Z.ltb_spec (PyDate.toordinal t) (PyDate.toordinal FIRST_CONVERTIBLE));
    [| lia].
  change (-620 - 1) with (-621).
  rewrite jalali_year_start_raises by lia. reflexivity.
Qed.

Lemma resolve_jalali_year_total (t : date) :
  PyDate.valid t ->
  PyDate.lt t FIRST_CONVERTIBLE = false ->
  exists J s,
    resolve_jalali_year t = OK (J, s, PyDate.toordinal t - PyDate.toordinal s)
    /\ (J = PyDate.year t - 621 \/ J = PyDate.year t - 622)
    /\ -620 <= J
    /\ PyDate.toordinal s = jalali_year_start J + EPOCH_1600 + 1
    /\ 0 <= PyDate.toordinal t - PyDate.toordinal s < jalali_year_days J.
Proof.
  intros V L.
  pose proof V as V'. apply date_new_inv in V' as (_ & Hy & _).
  destruct (Z_le_gt_dec 2 (PyDate.year t)) as [H2 | H2].
  - destruct (resolve_jalali_year_spec t V ltac:(lia))
      as (J & s & R & HJ & _ & Os & _ & B).
    exists J, s. repeat split; try assumption; lia.
  - assert (PyDate.year t = 1) as Y by lia.
    destruct first_convertible_start as (E & VF & O).
    rewrite (date_lt_ordinal t _ V VF) in L. apply Z.ltb_ge in L.
    pose proof (date_position t V) as P.
    pose proof (nowruz_in_year (-619) ltac:(lia)) as N.
    change (-619 + 621) with 2 in N.
    exists (-620), FIRST_CONVERTIBLE.
    unfold resolve_jalali_year. rewrite Y. change (1 - 621) with (-620).
    rewrite E. cbn [rbind]. rewrite (date_lt_ordinal t _ V VF).
    destruct (Z.ltb_spec (PyDate.toordinal t) (PyDate.toordinal FIRST_CONVERTIBLE));
      [lia |].
    cbn [rbind]. unfold jalali_year_days. change (-620 + 1) with (-619).
    rewrite Y in P. change (1 + 1) with 2 in P.
    repeat split; try assumption; lia.
Qed.

Lemma gregorian_to_jalali_total (t : date) :
  PyDate.valid t ->
  PyDate.lt t FIRST_CONVERTIBLE = false ->
  exists J jm jd,
    gregorian_to_jalali (VDate t) = OK (mkJalaliDate J jm jd)
    /\ valid_jalali_fields J jm jd
    /\ jalali_year_start J + jalali_days_before_month jm + jd - 1
       = PyDate.toordinal t - 1 - EPOCH_1600.
Proof.
  intros V L.
  destruct (resolve_jalali_year_total t V L) as (J & s & R & HJ & J0 & Os & B).
  pose proof V as V'. apply date_new_inv in V' as (_ & Hy & _).
  pose proof (date_position t V) as P.
  unfold gregorian_to_jalali. cbn [coerce_gregorian rbind].
  rewrite V. cbn [rbind]. rewrite R. cbn [rbind].
  pose proof (jalali_year_days_bounds J) as YB.
  destruct (month_day_of_offset_spec
              (PyDate.toordinal t - PyDate.toordinal s) ltac:(lia))
    as (jm & jd & -> & Hm & Hd & H6 & H7 & Off).
  assert (valid_jalali_fields J jm jd) as VF
      by (unfold valid_jalali_fields; repeat split; lia).
  assert (jm <= 11 \/ -620 <= J <= 9377) as Rg.
  { destruct HJ as [-> | ->]; [| right; lia].
    left.
    pose proof (nowruz_position (PyDate.year t - 621) ltac:(lia)) as NP.
    cbv zeta in NP.
    replace (PyDate.year t - 621 + 621) with (PyDate.year t) in NP by lia.
    rewrite days_before_year_succ in P.
    pose proof (gregorian_year_length_bounds (PyDate.year t)) as GB.
    assert (jalali_days_before_month jm + jd - 1 <= 288) as D.
    { rewrite Off, Os.
      destruct (_is_gregorian_leap (PyDate.year t)) eqn:Lp;
        unfold gregorian_year_length in *; rewrite ?Lp in *; lia. }
    revert D. unfold jalali_days_before_month. split_leb; lia. }
  exists J, jm, jd. rewrite JalaliDate_init_ok by assumption.
  repeat split; try assumption; try lia; apply VF.
Qed.

(** [gregorian_to_jalali] returns for every valid Gregorian date from
    0001-03-21 on, the first day of Jalali year -620, and what it returns
    converts back to the date; for the earlier dates of year 1 it raises
    [ValueError]. *)
Theorem gregorian_to_jalali_domain (y m d : Z) (t : date) :
  PyDate.new y m d = OK t ->
  (PyDate.lt t FIRST_CONVERTIBLE = false ->
   exists j,
     gregorian_to_jalali (VDate t) = OK j
     /\ -620 <= jyear j <= 9378
     /\ jalali_to_gregorian (VJalali j) = OK t)
  /\ (PyDate.lt t FIRST_CONVERTIBLE = true ->
      gregorian_to_jalali (VDate t) = Raise ValueError).
Proof.
  intros E.
  pose proof E as E'. apply date_new_inv in E' as (-> & Hy & _).
  change (PyDate.valid (PyDate.mkdate y m d)) in E. split.
  - intros L.
    destruct (gregorian_to_jalali_total _ E L) as (J & jm & jd & G & VF & O).
    destruct (resolve_jalali_year_total _ E L) as (J' & s & R & HJ & J0 & _).
    exists (mkJalaliDate J jm jd). split; [exact G |].
    assert (J = J') as <-.
    { revert G. unfold gregorian_to_jalali. cbn [coerce_gregorian rbind].
      rewrite E. cbn [rbind]. rewrite R. cbn [rbind].
      destruct (month_day_of_offset _) as [a b]. intros G.
      apply JalaliDate_init_inv in G as (G & _). congruence. }
    cbn [jyear PyDate.year] in *. split; [lia |].
    rewrite jalali_to_gregorian_jalali. cbn [jyear jmonth jday].
    destruct VF as (Hm & _).
    rewrite jalali_to_gregorian_ints by lia. rewrite O.
    apply gregorian_of_day_no_ordinal, E.
  - intros L. unfold gregorian_to_jalali. cbn [coerce_gregorian rbind].
    rewrite E. cbn [rbind].
    rewrite (resolve_jalali_year_early _ E L). reflexivity.
Qed.

Lemma gregorian_to_jalali_domain_witness :
  (exists j,
      gregorian_to_jalali (VDate (PyDate.mkdate 9999 12 31)) = OK j
      /\ -620 <= jyear j <= 9378
      /\ jalali_to_gregorian (VJalali j) = OK (PyDate.mkdate 9999 12 31))
  /\ gregorian_to_jalali (VDate (PyDate.mkdate 1 3 20)) = Raise ValueError.
Proof.
  split.
  - apply (proj1 (gregorian_to_jalali_domain 9999 12 31 _ eq_refl)).
    reflexivity.
  - apply (proj2 (gregorian_to_jalali_domain 1 3 20 _ eq_refl)).
    reflexivity.
Defined.

(** A constructed Jalali date whose Gregorian image exists and is not
    before 0001-03-21 is what its image converts to; so it is for every
    constructed date of the Jalali years from -620 on. *)
Theorem jalali_roundtrip_domain (jy jm jd : Z) (j : JalaliDate) (g : date) :
  JalaliDate_init jy jm jd = OK j ->
  jalali_to_gregorian (VJalali j) = OK g ->
  (PyDate.lt g FIRST_CONVERTIBLE = false -> gregorian_to_jalali (VDate g) = OK j)
  /\ (-620 <= jy -> PyDate.lt g FIRST_CONVERTIBLE = false).
Proof.
  intros Ej Eg.
  apply JalaliDate_init_inv in Ej as (-> & VF & _).
  pose proof VF as (Hm & _).
  rewrite jalali_to_gregorian_jalali in Eg. cbn [jyear jmonth jday] in Eg.
  rewrite jalali_to_gregorian_ints in Eg by lia.
  destruct (gregorian_of_day_no_spec
              (jalali_year_start jy + jalali_days_before_month jm + jd - 1))
    as (y & m & d & E & Hgm & Hgd & P).
  rewrite Eg in E. symmetry in E.
  pose proof E as V. apply date_new_inv in E as (-> & _).
  change (PyDate.valid (PyDate.mkdate y m d)) in V.
  pose proof (valid_jalali_offset _ _ _ VF) as B.
  split.
  - intros L.
    destruct (gregorian_to_jalali_total _ V L)
      as (J' & jm' & jd' & E' & VF' & O').
    rewrite E'.
    unfold PyDate.toordinal in O';
      cbn [PyDate.year PyDate.month PyDate.day] in O'.
    pose proof (valid_jalali_offset _ _ _ VF') as B'.
    unfold jalali_year_days in B, B'.
    assert (J' = jy) as ->
        by (apply (jalali_year_unique J' jy
                     (jalali_year_start jy + jalali_days_before_month jm
                      + jd - 1));
            lia).
    destruct VF as (? & ? & _ & ? & ?), VF' as (? & ? & _ & ? & ?).
    assert (month_day_of_offset (jalali_days_before_month jm' + jd' - 1)
            = month_day_of_offset (jalali_days_before_month jm + jd - 1)) as M
        by (f_equal; lia).
    rewrite !month_day_of_offset_inv in M by assumption.
    injection M as -> ->. reflexivity.
  - intros Hjy.
    destruct first_convertible_start as (_ & VF0 & O0).
    rewrite (date_lt_ordinal _ _ V VF0). apply Z.ltb_ge. rewrite O0.
    pose proof (jalali_year_start_mono (-620) jy Hjy).
    unfold PyDate.toordinal; cbn [PyDate.year PyDate.month PyDate.day]. lia.
Qed.

Lemma jalali_roundtrip_domain_witness :
  (PyDate.lt (PyDate.mkdate 1 3 21) FIRST_CONVERTIBLE = false ->
   gregorian_to_jalali (VDate (PyDate.mkdate 1 3 21))
   = OK (mkJalaliDate (-620) 1 1))
  /\ (-620 <= -620 ->
      PyDate.lt (PyDate.mkdate 1 3 21) FIRST_CONVERTIBLE = false).
Proof.
  apply (jalali_roundtrip_domain (-620) 1 1); vm_compute; reflexivity.
Defined.

(** The edge the hypothesis above keeps out: the last day of month 11 of
    Jalali year -621 is constructed and converts to 0001-02-19 (no leap test
    is made below month 12), a date [gregorian_to_jalali] raises on. *)
Lemma jalali_before_first_convertible :
  JalaliDate_init (-621) 11 30 = OK (mkJalaliDate (-621) 11 30)
  /\ jalali_to_gregorian (VJalali (mkJalaliDate (-621) 11 30))
     = OK (PyDate.mkdate 1 2 19)
  /\ gregorian_to_jalali (VDate (PyDate.mkdate 1 2 19)) = Raise ValueError.
Proof. repeat split; vm_compute; reflexivity. Qed.

(** ** Order, distinctness and continuity *)

Lemma jalali_to_gregorian_ordinal (jy jm jd : Z) (g : date) :
  1 <= jm <= 13 ->
  jalali_to_gregorian (VInts [jy; jm; jd]) = OK g ->
  PyDate.valid g
  /\ PyDate.toordinal g
     = jalali_year_start jy + jalali_days_before_month jm + jd + EPOCH_1600.
Proof.
  intros Hm E. rewrite jalali_to_gregorian_ints in E by assumption.
  destruct (gregorian_of_day_no_spec
              (jalali_year_start jy + jalali_days_before_month jm + jd - 1))
    as (y & m & d & E' & _ & _ & P).
  rewrite E in E'. symmetry in E'.
  pose proof E' as V. apply date_new_inv in E' as (-> & _).
  split; [exact V |].
  unfold PyDate.toordinal; cbn [PyDate.year PyDate.month PyDate.day]. lia.
Qed.

Lemma jalali_lt_day_no (y1 m1 d1 y2 m2 d2 : Z) :
  valid_jalali_fields y1 m1 d1 -> valid_jalali_fields y2 m2 d2 ->
  jalali_lt (mkJalaliDate y1 m1 d1) (mkJalaliDate y2 m2 d2)
  = (jalali_year_start y1 + jalali_days_before_month m1 + d1
     <? jalali_year_start y2 + jalali_days_before_month m2 + d2).
Proof.
  intros V1 V2.
  pose proof (valid_jalali_offset _ _ _ V1) as B1.
  pose proof (valid_jalali_offset _ _ _ V2) as B2.
  unfold jalali_year_days in B1, B2.
  destruct V1 as (Hm1 & Hd1 & _ & H61 & H71), V2 as (Hm2 & Hd2 & _ & H62 & H72).
  unfold jalali_lt. cbn [jyear jmonth jday].
  destruct (Z.ltb_spec y1 y2) as [Ly | Ly]; cbn [orb].
  - pose proof (jalali_year_start_mono (y1 + 1) y2 ltac:(lia)).
    symmetry. apply Z.ltb_lt. lia.
  - destruct (Z.eqb_spec y1 y2) as [-> | Ny]; cbn [andb].
    + assert ((m1 <? m2) || ((m1 =? m2) && (d1 <? d2))
              = (jalali_days_before_month m1 + d1
                 <? jalali_days_before_month m2 + d2)) as ->.
      { unfold jalali_days_before_month.
        destruct (Z.ltb_spec m1 m2); cbn [orb].
        - symmetry. apply Z.ltb_lt. split_leb; lia.
        - destruct (Z.eqb_spec m1 m2) as [-> | Nm]; cbn [andb].
          + destruct (Z.ltb_spec d1 d2); symmetry;
              [apply Z.ltb_lt | apply Z.ltb_ge]; lia.
          + symmetry. apply Z.ltb_ge. split_leb; lia. }
      destruct (Z.ltb_spec (jalali_days_before_month m1 + d1)
                  (jalali_days_before_month m2 + d2));
        symmetry; [apply Z.ltb_lt | apply Z.ltb_ge]; lia.
    + pose proof (jalali_year_start_mono (y2 + 1) y1 ltac:(lia)).
      symmetry. apply Z.ltb_ge. lia.
Qed.

(** The conversion keeps the order of constructed Jalali dates, compared
    year, month, day, and sends distinct dates to distinct Gregorian
    dates. *)
Theorem jalali_to_gregorian_monotone
  (y1 m1 d1 y2 m2 d2 : Z) (a b : JalaliDate) (ga gb : date) :
  JalaliDate_init y1 m1 d1 = OK a ->
  JalaliDate_init y2 m2 d2 = OK b ->
  jalali_to_gregorian (VJalali a) = OK ga ->
  jalali_to_gregorian (VJalali b) = OK gb ->
  PyDate.lt ga gb = jalali_lt a b
  /\ (ga = gb -> a = b).
Proof.
  intros Ia Ib Ea Eb.
  apply JalaliDate_init_inv in Ia as (-> & V1 & _).
  apply JalaliDate_init_inv in Ib as (-> & V2 & _).
  rewrite jalali_to_gregorian_jalali in Ea, Eb. cbn [jyear jmonth jday] in *.
  pose proof V1 as (Hm1 & _). pose proof V2 as (Hm2 & _).
  destruct (jalali_to_gregorian_ordinal y1 m1 d1 ga ltac:(lia) Ea) as (Va & Oa).
  destruct (jalali_to_gregorian_ordinal y2 m2 d2 gb ltac:(lia) Eb) as (Vb & Ob).
  split.
  - rewrite (date_lt_ordinal _ _ Va Vb), Oa, Ob, jalali_lt_day_no by assumption.
    destruct (Z.ltb_spec (jalali_year_start y1 + jalali_days_before_month m1 + d1)
                (jalali_year_start y2 + jalali_days_before_month m2 + d2));
      [apply Z.ltb_lt | apply Z.ltb_ge]; lia.
  - intros <-.
    pose proof (valid_jalali_offset _ _ _ V1) as B1.
    pose proof (valid_jalali_offset _ _ _ V2) as B2.
    unfold jalali_year_days in B1, B2.
    assert (y1 = y2) as ->
        by (apply (jalali_year_unique y1 y2
                     (jalali_year_start y1 + jalali_days_before_month m1
                      + d1 - 1));
            lia).
    destruct V1 as (? & ? & _ & ? & ?), V2 as (? & ? & _ & ? & ?).
    assert (month_day_of_offset (jalali_days_before_month m1 + d1 - 1)
            = month_day_of_offset (jalali_days_before_month m2 + d2 - 1)) as M
        by (f_equal; lia).
    rewrite !month_day_of_offset_inv in M by assumption.
    injection M as -> ->. reflexivity.
Qed.

Lemma jalali_to_gregorian_monotone_witness :
  PyDate.lt (PyDate.mkdate 2021 3 20) (PyDate.mkdate 2021 3 21)
  = jalali_lt (mkJalaliDate 1399 12 30) (mkJalaliDate 1400 1 1)
  /\ (PyDate.mkdate 2021 3 20 = PyDate.mkdate 2021 3 21 ->
      mkJalaliDate 1399 12 30 = mkJalaliDate 1400 1 1).
Proof.
  apply (jalali_to_gregorian_monotone 1399 12 30 1400 1 1);
    vm_compute; reflexivity.
Defined.

(** The Jalali calendar is laid on the Gregorian days without gap or
    overlap: days of one month are as far apart as their numbers, the first
    day of a month follows the last day of the month before, and the first
    day of a year follows the last day of month 12, whose length is what
    [_jalali_month_length] returns. *)
Theorem calendar_continuity (y m : Z) :
  (forall (d d' : Z) (a b : date),
      1 <= m <= 12 ->
      jalali_to_gregorian (VInts [y; m; d]) = OK a ->
      jalali_to_gregorian (VInts [y; m; d']) = OK b ->
      PyDate.sub_days b a = d' - d)
  /\ (forall (L : Z) (a b : date),
         1 <= m <= 11 ->
         _jalali_month_length y m = OK L ->
         jalali_to_gregorian (VInts [y; m; L]) = OK a ->
         jalali_to_gregorian (VInts [y; m + 1; 1]) = OK b ->
         PyDate.sub_days b a = 1)
  /\ (forall (L : Z) (a b : date),
         _jalali_month_length y 12 = OK L ->
         jalali_to_gregorian (VInts [y; 12; L]) = OK a ->
         jalali_to_gregorian (VInts [y + 1; 1; 1]) = OK b ->
         PyDate.sub_days b a = 1).
Proof.
  unfold PyDate.sub_days. split; [| split].
  - intros d d' a b Hm Ea Eb.
    destruct (jalali_to_gregorian_ordinal y m d a ltac:(lia) Ea) as (_ & ->).
    destruct (jalali_to_gregorian_ordinal y m d' b ltac:(lia) Eb) as (_ & ->).
    lia.
  - intros L a b Hm EL Ea Eb.
    rewrite jalali_month_length_spec in EL by lia. injection EL as <-.
    destruct (jalali_to_gregorian_ordinal y m _ a ltac:(lia) Ea) as (_ & ->).
    destruct (jalali_to_gregorian_ordinal y (m + 1) 1 b ltac:(lia) Eb)
      as (_ & ->).
    unfold jalali_days_before_month. split_leb; lia.
  - intros L a b EL Ea Eb.
    assert (-620 <= y <= 9377) as Hy.
    { destruct (Z_le_gt_dec (-620) y) as [L1 | L1];
        [destruct (Z_le_gt_dec y 9377) as [L2 | L2] |]; [lia | |];
        exfalso; revert EL; unfold _jalali_month_length;
        change (12 <=? 6) with false; change (12 <=? 11) with false; cbv iota;
        destruct (is_jalali_leap_out y ltac:(lia)) as (e & ->); discriminate. }
    rewrite jalali_month_length_spec in EL by lia.
    change (12 <=? 6) with false in EL. change (12 <=? 11) with false in EL.
    cbv iota in EL. injection EL as <-.
    destruct (jalali_to_gregorian_ordinal y 12 _ a ltac:(lia) Ea) as (_ & ->).
    destruct (jalali_to_gregorian_ordinal (y + 1) 1 1 b ltac:(lia) Eb)
      as (_ & ->).
    change (jalali_days_before_month 12) with 336.
    change (jalali_days_before_month 1) with 0.
    unfold jalali_year_days. lia.
Qed.

Lemma calendar_continuity_witness :
  PyDate.sub_days (PyDate.mkdate 2021 3 20) (PyDate.mkdate 2021 3 10) = 30 - 20
  /\ PyDate.sub_days (PyDate.mkdate 2020 9 22) (PyDate.mkdate 2020 9 21) = 1
  /\ PyDate.sub_days (PyDate.mkdate 2021 3 21) (PyDate.mkdate 2021 3 20) = 1.
Proof.
  split; [| split].
  - apply (proj1 (calendar_continuity 1399 12) 20 30);
      [lia | vm_compute; reflexivity | vm_compute; reflexivity].
  - apply (proj1 (proj2 (calendar_continuity 1399 6)) 31);
      [lia | reflexivity | vm_compute; reflexivity | vm_compute; reflexivity].
  - apply (proj2 (proj2 (calendar_continuity 1399 12)) 30);
      vm_compute; reflexivity.
Defined.

(** ** Sequences that are not valid Jalali dates *)

(** [jalali_to_gregorian] does not check a sequence of three integers: a
    month below 1 is converted as month 1, and days past the end of a month
    of the table run on into the next month, after month 12 as well. *)
Theorem jalali_to_gregorian_unvalidated (y m d : Z) :
  (m <= 1 ->
   jalali_to_gregorian (VInts [y; m; d]) = jalali_to_gregorian (VInts [y; 1; d]))
  /\ (forall L : Z,
         1 <= m <= 12 ->
         nth_error _JALALI_MONTH_LENGTHS (Z.to_nat (m - 1)) = Some L ->
         jalali_to_gregorian (VInts [y; m; L + d])
         = jalali_to_gregorian (VInts [y; m + 1; d])).
Proof.
  split.
  - intros Hm. unfold jalali_to_gregorian, g_day_no_of_jalali.
    cbn [coerce_jalali unpack3 rbind].
    replace (Z.to_nat (m - 1)) with 0%nat by lia.
    change (Z.to_nat (1 - 1)) with 0%nat. reflexivity.
  - intros L Hm EL. rewrite !jalali_to_gregorian_ints by lia. f_equal.
    revert EL. unfold jalali_days_before_month.
    each_month m; vm_compute (nth_error _ _); intros EL;
      injection EL as <-; fold_index; split_leb; lia.
Qed.

Lemma jalali_to_gregorian_unvalidated_witness :
  jalali_to_gregorian (VInts [1403; -5; 1])
  = jalali_to_gregorian (VInts [1403; 1; 1])
  /\ jalali_to_gregorian (VInts [1403; 12; 29 + 2])
     = jalali_to_gregorian (VInts [1403; 12 + 1; 2]).
Proof.
  split.
  - apply (proj1 (jalali_to_gregorian_unvalidated 1403 (-5) 1)). lia.
  - apply (proj2 (jalali_to_gregorian_unvalidated 1403 12 2) 29);
      [lia | reflexivity].
Defined.

(** ** What the conversions raise *)

(** What the conversion of a day number raises tells where its year is. *)
Lemma gregorian_of_day_no_raises (g : Z) :
  (gregorian_of_day_no g = Raise OverflowError
   <-> PyDate.fits_c_int (year_of_day g) = false)
  /\ (gregorian_of_day_no g = Raise ValueError
      <-> PyDate.fits_c_int (year_of_day g) = true
          /\ ~ 1 <= year_of_day g <= 9999)
  /\ (forall e : exn,
         gregorian_of_day_no g = Raise e
         -> e = ValueError \/ e = OverflowError).
Proof.
  destruct (gregorian_of_day_no_cases g) as (C1 & C2 & C3).
  destruct (PyDate.fits_c_int (year_of_day g)) eqn:F.
  - apply fits_c_int_iff in F.
    destruct (Z_le_gt_dec 1 (year_of_day g)) as [L1 | L1];
      [destruct (Z_le_gt_dec (year_of_day g) 9999) as [L2 | L2] |].
    + destruct (C3 ltac:(lia)) as (a & -> & _).
      repeat split; try discriminate; try tauto; intros; lia.
    + rewrite (C2 F ltac:(lia)).
      repeat split; try discriminate; try tauto; try lia.
      intros e E. injection E as <-. auto.
    + rewrite (C2 F ltac:(lia)).
      repeat split; try discriminate; try tauto; try lia.
      intros e E. injection E as <-. auto.
  - assert (~ -2147483648 <= year_of_day g <= 2147483647) as N.
    { intros H. apply fits_c_int_small in H. congruence. }
    rewrite (C1 N).
    repeat split; try discriminate; try tauto.
    + intros (H & _). discriminate H.
    + intros e E. injection E as <-. auto.
Qed.

(** A sequence with a month up to 13 has a day number, and is converted as
    that day number is. *)
Lemma jalali_to_gregorian_day_no (y m d : Z) :
  m <= 13 ->
  exists g,
    g_day_no_of_jalali y m d = OK g
    /\ jalali_to_gregorian (VInts [y; m; d]) = gregorian_of_day_no g.
Proof.
  intros Hm. unfold jalali_to_gregorian. cbn [coerce_jalali unpack3 rbind].
  destruct (Z_le_gt_dec m 1) as [H1 | H1].
  - unfold g_day_no_of_jalali.
    replace (Z.to_nat (m - 1)) with 0%nat by lia. cbn [add_jalali_months rbind].
    eexists. split; reflexivity.
  - rewrite g_day_no_of_jalali_spec by lia. cbn [rbind].
    eexists. split; reflexivity.
Qed.

Lemma jalali_to_gregorian_ints_raises (y m d : Z) (e : exn) :
  jalali_to_gregorian (VInts [y; m; d]) = Raise e ->
  ((e = ValueError \/ e = OverflowError) /\ m <= 13)
  \/ (e = IndexError /\ 14 <= m).
Proof.
  destruct (Z_le_gt_dec 14 m) as [H | H].
  - unfold jalali_to_gregorian, g_day_no_of_jalali.
    cbn [coerce_jalali unpack3 rbind].
    rewrite add_jalali_months_past_table by lia. cbn [rbind].
    intros E. injection E as <-. right. split; [reflexivity | lia].
  - intros E. left. split; [| lia].
    destruct (jalali_to_gregorian_day_no y m d ltac:(lia)) as (g & _ & G).
    rewrite G in E.
    apply (proj2 (proj2 (gregorian_of_day_no_raises g))), E.
Qed.

(** [jalali_to_gregorian] raises [TypeError] for exactly the values that are
    neither a [JalaliDate], a string nor a sequence of three; [IndexError]
    for every sequence whose month is 14 or more, whatever the year and
    day; and for a sequence with a smaller month nothing but what the
    host's [date] raises on the Gregorian year of the day number:
    [OverflowError] exactly when that year does not fit a C [int],
    [ValueError] exactly when it fits and is outside 1..9999.  It never
    raises anything else. *)
Theorem jalali_to_gregorian_errors :
  (forall v : value,
      unsupported_by_coerce_jalali v
      <-> jalali_to_gregorian v = Raise TypeError)
  /\ (forall y m d : Z,
         14 <= m -> jalali_to_gregorian (VInts [y; m; d]) = Raise IndexError)
  /\ (forall y m d : Z,
         m <= 13 ->
         exists g : Z,
           g_day_no_of_jalali y m d = OK g
           /\ (jalali_to_gregorian (VInts [y; m; d]) = Raise OverflowError
               <-> PyDate.fits_c_int (year_of_day g) = false)
           /\ (jalali_to_gregorian (VInts [y; m; d]) = Raise ValueError
               <-> PyDate.fits_c_int (year_of_day g) = true
                   /\ ~ 1 <= year_of_day g <= 9999)
           /\ (forall e : exn,
                  jalali_to_gregorian (VInts [y; m; d]) = Raise e ->
                  e = ValueError \/ e = OverflowError))
  /\ (forall (v : value) (e : exn),
         jalali_to_gregorian v = Raise e ->
         e = TypeError \/ e = ValueError \/ e = IndexError
         \/ e = OverflowError).
Proof.
  assert (forall (r : result (Z * Z * Z)) (e : exn),
             (let! (jy, jm, jd) := r in
              let! g := g_day_no_of_jalali jy jm jd in
              gregorian_of_day_no g) = Raise e ->
             r = Raise e
             \/ exists y m d, r = OK (y, m, d)
                              /\ jalali_to_gregorian (VInts [y; m; d]) = Raise e)
    as Split.
  { intros [[[y m] d] | e'] e E; [right | left; cbn in E; congruence].
    exists y, m, d. split; [reflexivity | exact E]. }
  split; [| split; [| split]].
  - intros v. split.
    + destruct v as [t | t s | j | s | l |]; cbn; try contradiction;
        try reflexivity.
      destruct l as [| a [| b [| c [| x l]]]]; cbn; try reflexivity.
      intros H. contradiction.
    + intros E. unfold jalali_to_gregorian in E.
      apply Split in E as [E | (y & m & d & E & R)].
      * destruct v as [t | t s | j | s | l |]; cbn in *; try exact I;
          try discriminate E.
        -- apply coerce_string_raises in E. discriminate E.
        -- destruct l as [| a [| b [| c [| x l]]]]; cbn in *;
             try discriminate E; lia.
      * apply jalali_to_gregorian_ints_raises in R as [([R | R] & _) | (R & _)];
          discriminate R.
  - intros y m d H.
    unfold jalali_to_gregorian, g_day_no_of_jalali.
    cbn [coerce_jalali unpack3 rbind].
    rewrite add_jalali_months_past_table by lia. reflexivity.
  - intros y m d H.
    destruct (jalali_to_gregorian_day_no y m d H) as (g & G & ->).
    exists g. split; [exact G |]. apply gregorian_of_day_no_raises.
  - intros v e E. unfold jalali_to_gregorian in E.
    apply Split in E as [E | (y & m & d & _ & R)].
    + destruct v as [t | t s | j | s | l |]; cbn in E;
        try (injection E as <-; auto); try discriminate E.
      * apply coerce_string_raises in E. auto.
      * destruct l as [| a [| b [| c [| x l]]]]; cbn in E;
          try (injection E as <-; auto); discriminate E.
    + apply jalali_to_gregorian_ints_raises in R as [([R | R] & _) | (R & _)];
        auto.
Qed.

Lemma jalali_to_gregorian_errors_witness :
  jalali_to_gregorian (VInts [1403; 1]) = Raise TypeError
  /\ jalali_to_gregorian (VInts [1403; 14; 1]) = Raise IndexError
  /\ jalali_to_gregorian (VInts [9378; 13; 1]) = Raise ValueError
  /\ jalali_to_gregorian (VInts [1403; 1; 1000000000000]) = Raise OverflowError.
Proof.
  split; [| split; [| split]].
  - apply (proj1 (proj1 jalali_to_gregorian_errors (VInts [1403; 1]))).
    cbn. lia.
  - apply (proj1 (proj2 jalali_to_gregorian_errors)). lia.
  - destruct (proj1 (proj2 (proj2 jalali_to_gregorian_errors)) 9378 13 1
                ltac:(lia)) as (g & G & _ & H & _).
    vm_compute in G. injection G as <-. apply H.
    split; [reflexivity |].
    intros [_ H']. vm_compute in H'. apply H'. reflexivity.
  - destruct (proj1 (proj2 (proj2 jalali_to_gregorian_errors))
                1403 1 1000000000000 ltac:(lia)) as (g & G & H & _).
    vm_compute in G. injection G as <-. apply H. reflexivity.
Defined.

(** A valid date is converted or, before the first day of Jalali year
    -620, refused with [ValueError]. *)
Lemma gregorian_to_jalali_date_cases (t : date) :
  PyDate.valid t ->
  (exists j, gregorian_to_jalali (VDate t) = OK j)
  \/ gregorian_to_jalali (VDate t) = Raise ValueError.
Proof.
  intros V. destruct (PyDate.lt t FIRST_CONVERTIBLE) eqn:L.
  - right. unfold gregorian_to_jalali. cbn [coerce_gregorian rbind].
    rewrite V. cbn [rbind].
    rewrite (resolve_jalali_year_early _ V L). reflexivity.
  - left. destruct (gregorian_to_jalali_total t V L) as (J & jm & jd & E & _).
    eexists. exact E.
Qed.

Lemma gregorian_to_jalali_ints_date (y m d : Z) (t : date) :
  PyDate.new y m d = OK t ->
  gregorian_to_jalali (VInts [y; m; d]) = gregorian_to_jalali (VDate t).
Proof.
  intros E. pose proof E as E'. apply date_new_inv in E' as (-> & _).
  reflexivity.
Qed.

(** What [gregorian_to_jalali] raises on three integers is what [date]
    raises on them or, for a date too early, [ValueError]. *)
Lemma gregorian_to_jalali_ints_raises (y m d : Z) (e : exn) :
  gregorian_to_jalali (VInts [y; m; d]) = Raise e ->
  (e = OverflowError /\ PyDate.new y m d = Raise OverflowError)
  \/ (e = ValueError /\ PyDate.new y m d <> Raise OverflowError).
Proof.
  destruct (PyDate.new y m d) as [t | e1] eqn:N.
  - rewrite (gregorian_to_jalali_ints_date y m d t N).
    destruct (gregorian_to_jalali_date_cases t) as [(j & ->) | ->].
    + pose proof N as N'. apply date_new_inv in N' as (-> & _). exact N.
    + discriminate.
    + intros E. injection E as <-. right. split; [reflexivity | discriminate].
  - unfold gregorian_to_jalali. cbn [coerce_gregorian unpack3 rbind].
    rewrite N. cbn [rbind]. intros E. injection E as <-.
    apply date_new_raises in N as [(-> & _) | (-> & _)];
      [left | right]; split; try reflexivity; discriminate.
Qed.

(** [gregorian_to_jalali] raises [TypeError] for exactly the values that are
    neither a date, a datetime, a string nor a sequence of three, and for
    every other failure what the host's [date] raises: [OverflowError]
    exactly when one of the three integers does not fit a C [int], and
    [ValueError] otherwise, a triple that is no Gregorian date among them;
    it never raises anything else. *)
Theorem gregorian_to_jalali_errors :
  (forall v : value,
      unsupported_by_coerce_gregorian v
      <-> gregorian_to_jalali v = Raise TypeError)
  /\ (forall (v : value) (e : exn),
         gregorian_to_jalali v = Raise e ->
         e = TypeError \/ e = ValueError \/ e = OverflowError)
  /\ (forall y m d : Z,
         gregorian_to_jalali (VInts [y; m; d]) = Raise OverflowError
         <-> PyDate.fits_c_int y && PyDate.fits_c_int m && PyDate.fits_c_int d
             = false)
  /\ (forall (y m d : Z) (e : exn),
         PyDate.new y m d = Raise e ->
         gregorian_to_jalali (VInts [y; m; d]) = Raise e).
Proof.
  assert (forall (v : value) (e : exn),
             gregorian_to_jalali v = Raise e ->
             coerce_gregorian v = Raise e
             \/ exists y m d, coerce_gregorian v = OK (y, m, d)
                              /\ gregorian_to_jalali (VInts [y; m; d]) = Raise e)
    as Split.
  { intros v e. unfold gregorian_to_jalali.
    destruct (coerce_gregorian v) as [[[y m] d] | e1]; cbn [rbind].
    - intros E. right. exists y, m, d. split; [reflexivity | exact E].
    - intros E. left. congruence. }
  assert (forall (y m d : Z) (e : exn),
             PyDate.new y m d = Raise e ->
             gregorian_to_jalali (VInts [y; m; d]) = Raise e) as New.
  { intros y m d e E. unfold gregorian_to_jalali.
    cbn [coerce_gregorian unpack3 rbind]. rewrite E. reflexivity. }
  split; [| split; [| split]].
  - intros v. split.
    + destruct v as [t | t s | j | s | l |]; cbn; try contradiction;
        try reflexivity.
      destruct l as [| a [| b [| c [| x l]]]]; cbn; try reflexivity.
      intros H. contradiction.
    + intros E. apply Split in E as [E | (y & m & d & _ & E)].
      * destruct v as [t | t s | j | s | l |]; cbn in *; try exact I;
          try discriminate E.
        -- apply coerce_string_raises in E. discriminate E.
        -- destruct l as [| a [| b [| c [| x l]]]]; cbn in *;
             try discriminate E; lia.
      * apply gregorian_to_jalali_ints_raises in E as [(E & _) | (E & _)];
          discriminate E.
  - intros v e E. apply Split in E as [E | (y & m & d & _ & E)].
    + destruct v as [t | t s | j | s | l |]; cbn in E;
        try (injection E as <-; auto); try discriminate E.
      * apply coerce_string_raises in E. auto.
      * destruct l as [| a [| b [| c [| x l]]]]; cbn in E;
          try (injection E as <-; auto); discriminate E.
    + apply gregorian_to_jalali_ints_raises in E as [(E & _) | (E & _)]; auto.
  - intros y m d. split.
    + intros E.
      apply gregorian_to_jalali_ints_raises in E as [(_ & E) | (E & _)];
        [| discriminate E].
      revert E. unfold PyDate.new.
      destruct (PyDate.fits_c_int y && PyDate.fits_c_int m
                && PyDate.fits_c_int d); [| reflexivity].
      cbn [negb].
      repeat match goal with
             | |- context [if ?c then _ else _] => destruct c
             end; discriminate.
    + intros F. apply New. unfold PyDate.new. rewrite F. reflexivity.
  - exact New.
Qed.

Lemma gregorian_to_jalali_errors_witness :
  gregorian_to_jalali VNone = Raise TypeError
  /\ gregorian_to_jalali (VInts [2023; 2; 29]) = Raise ValueError
  /\ gregorian_to_jalali (VInts [2024; 3; 2147483648]) = Raise OverflowError.
Proof.
  split; [| split].
  - apply (proj1 (proj1 gregorian_to_jalali_errors VNone)). exact I.
  - apply (proj2 (proj2 (proj2 gregorian_to_jalali_errors))
             2023 2 29 ValueError).
    reflexivity.
  - apply (proj2 (proj2 (proj2 gregorian_to_jalali_errors))
             2024 3 2147483648 OverflowError).
    reflexivity.
Defined.

(** ** One date, several shapes *)

(** A valid Gregorian date converts to the same Jalali date whether it is
    handed over as a date, a datetime, the sequence of its fields, or its
    text with dashes or slashes, filled with zeros up to [MAX_STR_DIGITS]
    digits a field; filled beyond that, the text raises [ValueError]. *)
Theorem gregorian_to_jalali_shapes
  (y m d seconds : Z) (t : date) (wy wm wd : nat) :
  PyDate.new y m d = OK t ->
  gregorian_to_jalali (VDatetime t seconds) = gregorian_to_jalali (VDate t)
  /\ gregorian_to_jalali (VInts [y; m; d]) = gregorian_to_jalali (VDate t)
  /\ exists dashed slashed : string,
       format_fields wy wm wd y m d "-" = OK dashed
       /\ format_fields wy wm wd y m d "/" = OK slashed
       /\ (Z.of_nat wy <= MAX_STR_DIGITS -> Z.of_nat wm <= MAX_STR_DIGITS ->
           Z.of_nat wd <= MAX_STR_DIGITS ->
           gregorian_to_jalali (VStr dashed) = gregorian_to_jalali (VDate t)
           /\ gregorian_to_jalali (VStr slashed)
              = gregorian_to_jalali (VDate t))
       /\ (MAX_STR_DIGITS < Z.of_nat wy \/ MAX_STR_DIGITS < Z.of_nat wm
           \/ MAX_STR_DIGITS < Z.of_nat wd ->
           gregorian_to_jalali (VStr dashed) = Raise ValueError
           /\ gregorian_to_jalali (VStr slashed) = Raise ValueError).
Proof.
  intros E. pose proof E as E'.
  apply date_new_inv in E' as (-> & Hy & Hm & Hd).
  pose proof (days_in_month_bounds y m) as B.
  pose proof (small_within_limit y ltac:(lia)) as Ly.
  pose proof (small_within_limit m ltac:(lia)) as Lm.
  pose proof (small_within_limit d ltac:(lia)) as Ld.
  split; [reflexivity |]. split; [reflexivity |].
  exists (rendering wy wm wd y m d "-"), (rendering wy wm wd y m d "/").
  rewrite !format_fields_ok by lia.
  split; [reflexivity |]. split; [reflexivity |].
  unfold gregorian_to_jalali. cbn [coerce_gregorian].
  rewrite coerce_string_slash_dash. split.
  - intros Wy Wm Wd. rewrite coerce_string_rendering by assumption.
    split; reflexivity.
  - intros W. rewrite coerce_string_too_wide by (assumption || lia).
    split; reflexivity.
Qed.

Lemma gregorian_to_jalali_shapes_witness :
  gregorian_to_jalali (VDatetime (PyDate.mkdate 2024 3 20) 0)
  = gregorian_to_jalali (VDate (PyDate.mkdate 2024 3 20))
  /\ gregorian_to_jalali (VInts [2024; 3; 20])
     = gregorian_to_jalali (VDate (PyDate.mkdate 2024 3 20))
  /\ exists dashed slashed : string,
       format_fields 4 2 2 2024 3 20 "-" = OK dashed
       /\ format_fields 4 2 2 2024 3 20 "/" = OK slashed
       /\ (Z.of_nat 4 <= MAX_STR_DIGITS -> Z.of_nat 2 <= MAX_STR_DIGITS ->
           Z.of_nat 2 <= MAX_STR_DIGITS ->
           gregorian_to_jalali (VStr dashed)
           = gregorian_to_jalali (VDate (PyDate.mkdate 2024 3 20))
           /\ gregorian_to_jalali (VStr slashed)
              = gregorian_to_jalali (VDate (PyDate.mkdate 2024 3 20)))
       /\ (MAX_STR_DIGITS < Z.of_nat 4 \/ MAX_STR_DIGITS < Z.of_nat 2
           \/ MAX_STR_DIGITS < Z.of_nat 2 ->
           gregorian_to_jalali (VStr dashed) = Raise ValueError
           /\ gregorian_to_jalali (VStr slashed) = Raise ValueError).
Proof.
  exact (gregorian_to_jalali_shapes 2024 3 20 0 _ 4 2 2 eq_refl).
Defined.

(** The text [isoformat] writes for a Jalali date, with a dash or a slash,
    converts as the date itself does when the year is not negative and has
    at most [MAX_STR_DIGITS] digits; for a negative year the text has one
    token too many and the conversion raises [ValueError]; and for a year
    of more digits [isoformat] itself raises [ValueError]. *)
Theorem isoformat_converts_as_the_date (j : JalaliDate) :
  0 <= jmonth j < 10 ^ MAX_STR_DIGITS -> 0 <= jday j < 10 ^ MAX_STR_DIGITS ->
  (0 <= jyear j < 10 ^ MAX_STR_DIGITS ->
   exists dashed slashed : string,
     isoformat j "-" = OK dashed
     /\ isoformat j "/" = OK slashed
     /\ jalali_to_gregorian (VStr dashed) = to_gregorian j
     /\ jalali_to_gregorian (VStr slashed) = to_gregorian j
     /\ coerce_jalali (VStr dashed) = coerce_jalali (VJalali j))
  /\ (- 10 ^ MAX_STR_DIGITS < jyear j < 0 ->
      exists dashed slashed : string,
        isoformat j "-" = OK dashed
        /\ isoformat j "/" = OK slashed
        /\ jalali_to_gregorian (VStr dashed) = Raise ValueError
        /\ jalali_to_gregorian (VStr slashed) = Raise ValueError)
  /\ (10 ^ MAX_STR_DIGITS <= Z.abs (jyear j) ->
      forall sep : string, isoformat j sep = Raise ValueError).
Proof.
  intros Hm Hd. unfold isoformat, isoformat_fields, to_gregorian.
  split; [| split].
  - intros Hy.
    exists (rendering 4 2 2 (jyear j) (jmonth j) (jday j) "-"),
      (rendering 4 2 2 (jyear j) (jmonth j) (jday j) "/").
    rewrite !format_fields_ok by lia.
    unfold jalali_to_gregorian. cbn [coerce_jalali unpack3].
    rewrite coerce_string_slash_dash.
    rewrite coerce_string_rendering
      by (assumption || (unfold MAX_STR_DIGITS; lia)).
    repeat split; reflexivity.
  - intros Hy.
    exists (rendering 4 2 2 (jyear j) (jmonth j) (jday j) "-"),
      (rendering 4 2 2 (jyear j) (jmonth j) (jday j) "/").
    rewrite !format_fields_ok by lia.
    unfold jalali_to_gregorian. cbn [coerce_jalali unpack3].
    rewrite coerce_string_slash_dash.
    rewrite coerce_string_negative_year by lia.
    repeat split; reflexivity.
  - intros Hy sep. unfold format_fields.
    rewrite format_0d_too_long by assumption. reflexivity.
Qed.

Lemma isoformat_converts_as_the_date_witness :
  (exists dashed slashed : string,
      isoformat (mkJalaliDate 1403 1 1) "-" = OK dashed
      /\ isoformat (mkJalaliDate 1403 1 1) "/" = OK slashed
      /\ jalali_to_gregorian (VStr dashed)
         = to_gregorian (mkJalaliDate 1403 1 1)
      /\ jalali_to_gregorian (VStr slashed)
         = to_gregorian (mkJalaliDate 1403 1 1)
      /\ coerce_jalali (VStr dashed)
         = coerce_jalali (VJalali (mkJalaliDate 1403 1 1)))
  /\ (exists dashed slashed : string,
         isoformat (mkJalaliDate (-620) 1 1) "-" = OK dashed
         /\ isoformat (mkJalaliDate (-620) 1 1) "/" = OK slashed
         /\ jalali_to_gregorian (VStr dashed) = Raise ValueError
         /\ jalali_to_gregorian (VStr slashed) = Raise ValueError)
  /\ isoformat (mkJalaliDate (10 ^ MAX_STR_DIGITS) 1 1) "-" = Raise ValueError.
Proof.
  assert (forall n, 0 <= n < 10000 -> 0 <= n < 10 ^ MAX_STR_DIGITS) as S
      by apply small_within_limit.
  split; [| split].
  - apply (proj1 (isoformat_converts_as_the_date (mkJalaliDate 1403 1 1)
                    ltac:(apply S; cbn; lia) ltac:(apply S; cbn; lia))).
    apply S. cbn. lia.
  - apply (proj1 (proj2 (isoformat_converts_as_the_date
                           (mkJalaliDate (-620) 1 1)
                           ltac:(apply S; cbn; lia) ltac:(apply S; cbn; lia)))).
    cbn [jyear]. pose proof (S 620 ltac:(lia)). lia.
  - apply (proj2 (proj2 (isoformat_converts_as_the_date
                           (mkJalaliDate (10 ^ MAX_STR_DIGITS) 1 1)
                           ltac:(apply S; cbn; lia) ltac:(apply S; cbn; lia)))).
    cbn [jyear]. rewrite Z.abs_eq by (apply Z.pow_nonneg; lia).
    apply Z.le_refl.
Defined.

(** ** The width of [isoformat] *)

Lemma length_zfill_exact (width : nat) (n : Z) :
  0 <= n < 10 ^ Z.of_nat width -> (1 <= width)%nat ->
  String.length (zfill width n) = width.
Proof.
  intros Hn Hw. unfold zfill. destruct (Z.ltb_spec n 0); [lia |].
  destruct width as [| k]; [lia |].
  pose proof (length_decimal n k Hn). rewrite length_zeros. lia.
Qed.

(** For a year from 0 to 9999 and a month and day below 100, so for every
    constructed date of those years, [isoformat] returns, and writes four,
    two and two digits around the two separators: ten characters with the
    default separator. *)
Theorem isoformat_width (j : JalaliDate) (sep : string) :
  0 <= jyear j <= 9999 -> 0 <= jmonth j <= 99 -> 0 <= jday j <= 99 ->
  exists text ys ms ds : string,
    isoformat j sep = OK text
    /\ String.length text = (8 + 2 * String.length sep)%nat
    /\ format_0d 4 (jyear j) = OK ys /\ all_digits ys = true
    /\ format_0d 2 (jmonth j) = OK ms /\ all_digits ms = true
    /\ format_0d 2 (jday j) = OK ds /\ all_digits ds = true
    /\ text = (ys ++ sep ++ ms ++ sep ++ ds)%string.
Proof.
  intros Hy Hm Hd.
  pose proof (small_within_limit (jyear j) ltac:(lia)) as Ly.
  pose proof (small_within_limit (jmonth j) ltac:(lia)) as Lm.
  pose proof (small_within_limit (jday j) ltac:(lia)) as Ld.
  exists (rendering 4 2 2 (jyear j) (jmonth j) (jday j) sep),
    (zfill 4 (jyear j)), (zfill 2 (jmonth j)), (zfill 2 (jday j)).
  unfold isoformat, isoformat_fields.
  rewrite format_fields_ok, !format_0d_ok by lia.
  rewrite !all_digits_zfill by lia.
  repeat split. unfold rendering.
  rewrite !length_append.
  rewrite (length_zfill_exact 4), !(length_zfill_exact 2)
    by (try (change (10 ^ Z.of_nat 4) with 10000);
        try (change (10 ^ Z.of_nat 2) with 100); lia).
  lia.
Qed.

Lemma isoformat_width_witness :
  exists text ys ms ds : string,
    isoformat (mkJalaliDate 1403 1 1) "-" = OK text
    /\ String.length text = (8 + 2 * String.length "-")%nat
    /\ format_0d 4 1403 = OK ys /\ all_digits ys = true
    /\ format_0d 2 1 = OK ms /\ all_digits ms = true
    /\ format_0d 2 1 = OK ds /\ all_digits ds = true
    /\ text = (ys ++ "-" ++ ms ++ "-" ++ ds)%string.
Proof.
  apply (isoformat_width (mkJalaliDate 1403 1 1) "-"); cbn; lia.
Defined.

(** * Further properties of the preference resolver *)

Section PreferenceProperties.
Import Preferences.

Lemma calendar_name_truthy (s : string) : calendar_name s -> truthy s = true.
Proof. intros [-> | ->]; reflexivity. Qed.

Lemma normalize_calendar_name (c : option string) (n : string) :
  _normalize_calendar c = Some n -> calendar_name n.
Proof.
  destruct c as [s |]; [| discriminate]. cbn [_normalize_calendar].
  destruct (in_valid (lower (strip s))) eqn:E; [| discriminate].
  intros H. injection H as <-. apply in_valid_iff, E.
Qed.

(** ** Resolution on the stores the setters leave *)

(** On a store whose slots hold calendar names, resolution is the lookup
    user slot, system slot, default, and what it returns is a calendar
    name; [is_jalali_enabled] tells whether that name is ["jalali"], and the
    resolution for no user is what [get_system_calendar] returns. *)
Theorem resolution_on_valid_store (st : store) (user : option string) :
  store_wf st ->
  resolve_calendar user st = (OK (resolved st user), st)
  /\ calendar_name (value (resolved st user))
  /\ is_jalali_enabled user st
     = (OK (String.eqb (value (resolved st user)) "jalali"), st)
  /\ get_system_calendar false st = (OK (value (resolved st None)), st).
Proof.
  intros (Ws & Wu).
  assert (resolve_calendar user st = (OK (resolved st user), st)) as R.
  { unfold resolved.
    destruct user as [name |]; cbn [mbind option_bind].
    - destruct (user_slots st !! name) as [v |] eqn:Eu.
      + apply resolve_user; [exact Eu | apply calendar_name_truthy, (Wu name), Eu].
      + destruct (system_slot st) as [v |] eqn:Es.
        * apply resolve_system;
            [exact Es | apply calendar_name_truthy, Ws; (exact Es || reflexivity) | exact Eu].
        * apply resolve_default; [exact Es | exact Eu].
    - destruct (system_slot st) as [v |] eqn:Es.
      + apply resolve_system;
          [exact Es | apply calendar_name_truthy, Ws; (exact Es || reflexivity) | exact I].
      + apply resolve_default; [exact Es | exact I]. }
  split; [exact R |]. split; [| split].
  - unfold resolved.
    destruct user as [name |]; cbn [mbind option_bind];
      [destruct (user_slots st !! name) as [v |] eqn:Eu;
       [apply (Wu name), Eu |] |];
      (destruct (system_slot st) as [v |] eqn:Es;
       [apply Ws; (exact Es || reflexivity) | left; reflexivity]).
  - unfold is_jalali_enabled, bind. rewrite R. reflexivity.
  - unfold get_system_calendar, _read_system_value, bind, read, ret, resolved.
    cbn [mbind option_bind]. cbv beta.
    destruct (system_slot st) as [v |] eqn:Es; cbn [or_else value];
      [rewrite (calendar_name_truthy v) by (apply Ws; (exact Es || reflexivity)) |];
      reflexivity.
Qed.

Lemma resolution_on_valid_store_witness :
  resolve_calendar (Some "demo@example.com")
    (mkstore (Some "gregorian") (<["demo@example.com" := "jalali"]> ∅))
  = (OK (resolved
           (mkstore (Some "gregorian") (<["demo@example.com" := "jalali"]> ∅))
           (Some "demo@example.com")),
     mkstore (Some "gregorian") (<["demo@example.com" := "jalali"]> ∅)).
Proof.
  apply (resolution_on_valid_store
           (mkstore (Some "gregorian") (<["demo@example.com" := "jalali"]> ∅))
           (Some "demo@example.com")).
  split; cbn [system_slot user_slots].
  - intros v E. injection E as <-. right. reflexivity.
  - intros u v E. apply lookup_insert_Some in E as [[_ <-] | [_ E]].
    + left. reflexivity.
    + rewrite lookup_empty in E. discriminate E.
Defined.

(** The initial store holds calendar names only, and so does the store
    after any call of a setter or of [set_calendar_preference], whatever
    the arguments and whether the call returns or raises. *)
Theorem store_stays_valid :
  store_wf _FALLBACK_STORE
  /\ (forall (st : store) (scope c user : option string),
         store_wf st ->
         store_wf (snd (set_system_calendar c st))
         /\ store_wf (snd (set_user_calendar c user st))
         /\ store_wf (snd (set_calendar_preference scope c user st))).
Proof.
  split.
  - split; cbn; [discriminate |]. intros u v E.
    rewrite lookup_empty in E. discriminate E.
  - intros st scope c user W.
    assert (store_wf (snd (set_system_calendar c st))) as Wsys.
    { destruct (valid_calendar_name_dec c) as [V | V].
      - destruct (set_system_calendar_valid c st V) as (n & sel & Hn & _ & ->).
        cbn [snd]. destruct W as (_ & Wu). split; cbn [system_slot user_slots].
        + intros v E. injection E as <-. exact Hn.
        + exact Wu.
      - rewrite set_system_calendar_invalid by assumption. exact W. }
    assert (store_wf (snd (set_user_calendar c user st))) as Wusr.
    { destruct (valid_calendar_name_dec c) as [V | V].
      - destruct user as [name |].
        + destruct (set_user_calendar_valid c name st V) as (n & Hn & _ & ->).
          cbn [snd]. destruct W as (Ws & Wu).
          split; cbn [system_slot user_slots]; [exact Ws |].
          intros u v E. apply lookup_insert_Some in E as [[_ <-] | [_ E]];
            [exact Hn | apply (Wu u), E].
        + rewrite set_user_calendar_no_user by assumption. exact W.
      - rewrite set_user_calendar_invalid by assumption. exact W. }
    split; [exact Wsys |]. split; [exact Wusr |].
    unfold set_calendar_preference.
    destruct (String.eqb _ "system").
    + unfold bind.
      destruct (set_system_calendar c st) as [[sel | e] st']; [| exact Wsys].
      destruct (get_preference_context_reads None st') as (ctx & ->).
      exact Wsys.
    + destruct (String.eqb _ "user"); [| exact W].
      unfold bind.
      destruct (set_user_calendar c user st) as [[sel | e] st']; [| exact Wusr].
      destruct (get_preference_context_reads user st') as (ctx & ->).
      exact Wusr.
Qed.

Lemma store_stays_valid_witness :
  store_wf (snd (set_system_calendar (Some "lunar") _FALLBACK_STORE))
  /\ store_wf (snd (set_user_calendar (Some "lunar") None _FALLBACK_STORE))
  /\ store_wf (snd (set_calendar_preference None (Some "lunar") None
                      _FALLBACK_STORE)).
Proof.
  apply (proj2 store_stays_valid _FALLBACK_STORE None (Some "lunar") None).
  apply (proj1 store_stays_valid).
Defined.

(** ** Writing and reading back *)

(** After [set_system_calendar] returns, the system calendar reads back as
    the trimmed, lowercased argument, raw or not; no user slot has changed;
    the call has returned that name with the source ["system"]. *)
Theorem system_calendar_reads_back (c : option string) (st : store) :
  valid_calendar_name c ->
  exists n,
    _normalize_calendar c = Some n
    /\ fst (set_system_calendar c st) = OK (mkCalendarSelection n "system")
    /\ let st' := snd (set_system_calendar c st) in
       get_system_calendar true st' = (OK n, st')
       /\ get_system_calendar false st' = (OK n, st')
       /\ (forall user, fst (get_user_calendar user st')
                        = fst (get_user_calendar user st))
       /\ user_slots st' = user_slots st.
Proof.
  intros V.
  destruct (set_system_calendar_valid c st V) as (n & sel & Hn & En & E).
  pose proof (calendar_name_truthy n Hn) as T.
  exists n. split; [exact En |].
  assert (sel = mkCalendarSelection n "system") as ->.
  { pose proof (resolve_system None (mkstore (Some n) (user_slots st)) n
                  eq_refl T I) as R.
    revert E. unfold set_system_calendar, bind, _require_calendar.
    rewrite En, T. cbn [ret _write_system_value]. rewrite R. congruence. }
  rewrite E. cbn [fst snd]. split; [reflexivity |].
  unfold get_system_calendar, _read_system_value, bind, read, ret.
  cbn [system_slot or_else]. rewrite T.
  repeat split. intros [name |]; reflexivity.
Qed.

Lemma system_calendar_reads_back_witness :
  exists n,
    _normalize_calendar (Some " Gregorian ") = Some n
    /\ fst (set_system_calendar (Some " Gregorian ") _FALLBACK_STORE)
       = OK (mkCalendarSelection n "system")
    /\ let st' := snd (set_system_calendar (Some " Gregorian ") _FALLBACK_STORE) in
       get_system_calendar true st' = (OK n, st')
       /\ get_system_calendar false st' = (OK n, st')
       /\ (forall user, fst (get_user_calendar user st')
                        = fst (get_user_calendar user _FALLBACK_STORE))
       /\ user_slots st' = user_slots _FALLBACK_STORE.
Proof.
  apply (system_calendar_reads_back (Some " Gregorian ") _FALLBACK_STORE).
  exists " Gregorian "%string. split; [reflexivity | right; reflexivity].
Defined.

(** After [set_user_calendar] returns for a user, that user's calendar reads
    back as the trimmed, lowercased argument; the slots of the other users
    and the system slot have not changed; the call has returned that name
    with the source ["user"]. *)
Theorem user_calendar_reads_back (c : option string) (name : string)
  (st : store) :
  valid_calendar_name c ->
  exists n,
    _normalize_calendar c = Some n
    /\ fst (set_user_calendar c (Some name) st)
       = OK (mkCalendarSelection n "user")
    /\ let st' := snd (set_user_calendar c (Some name) st) in
       get_user_calendar (Some name) st' = (OK (Some n), st')
       /\ (forall other : string,
              other <> name ->
              fst (get_user_calendar (Some other) st')
              = fst (get_user_calendar (Some other) st))
       /\ fst (get_user_calendar None st') = OK None
       /\ system_slot st' = system_slot st.
Proof.
  intros V.
  destruct (set_user_calendar_valid c name st V) as (n & Hn & En & E).
  exists n. split; [exact En |]. rewrite E. cbn [fst snd].
  split; [reflexivity |].
  unfold get_user_calendar, _read_user_value, read, ret.
  cbn [user_slots system_slot fst].
  rewrite lookup_insert_eq. repeat split.
  intros other Ho. rewrite lookup_insert_ne by congruence. reflexivity.
Qed.

Lemma user_calendar_reads_back_witness :
  exists n,
    _normalize_calendar (Some "JALALI") = Some n
    /\ fst (set_user_calendar (Some "JALALI") (Some "demo@example.com")
              _FALLBACK_STORE)
       = OK (mkCalendarSelection n "user")
    /\ let st' := snd (set_user_calendar (Some "JALALI")
                         (Some "demo@example.com") _FALLBACK_STORE) in
       get_user_calendar (Some "demo@example.com") st' = (OK (Some n), st')
       /\ (forall other : string,
              other <> "demo@example.com" ->
              fst (get_user_calendar (Some other) st')
              = fst (get_user_calendar (Some other) _FALLBACK_STORE))
       /\ fst (get_user_calendar None st') = OK None
       /\ system_slot st' = system_slot _FALLBACK_STORE.
Proof.
  apply (user_calendar_reads_back (Some "JALALI") "demo@example.com"
           _FALLBACK_STORE).
  exists "JALALI"%string. split; [reflexivity | left; reflexivity].
Defined.

(** The last write wins and writes to different slots do not interfere:
    two calls of a setter on one slot leave the store of the second call
    alone, and calls on different slots leave the same store in either
    order. *)
Theorem setters_compose (c1 c2 : option string) (u1 u2 : string)
  (st : store) :
  valid_calendar_name c1 -> valid_calendar_name c2 ->
  snd (set_system_calendar c2 (snd (set_system_calendar c1 st)))
  = snd (set_system_calendar c2 st)
  /\ snd (set_user_calendar c2 (Some u1)
           (snd (set_user_calendar c1 (Some u1) st)))
     = snd (set_user_calendar c2 (Some u1) st)
  /\ (u1 <> u2 ->
      snd (set_user_calendar c2 (Some u2)
             (snd (set_user_calendar c1 (Some u1) st)))
      = snd (set_user_calendar c1 (Some u1)
               (snd (set_user_calendar c2 (Some u2) st))))
  /\ snd (set_user_calendar c2 (Some u1) (snd (set_system_calendar c1 st)))
     = snd (set_system_calendar c1 (snd (set_user_calendar c2 (Some u1) st))).
Proof.
  intros V1 V2.
  assert (forall s, exists n sel,
               set_system_calendar c1 s
               = (OK sel, mkstore (Some n) (user_slots s))
               /\ forall s', exists sel',
                   set_system_calendar c1 s'
                   = (OK sel', mkstore (Some n) (user_slots s'))) as S1.
  { intros s. destruct (set_system_calendar_valid c1 s V1)
      as (n & sel & _ & En & E).
    exists n, sel. split; [exact E |]. intros s'.
    destruct (set_system_calendar_valid c1 s' V1) as (n' & sel' & _ & En' & E').
    exists sel'. rewrite E'. congruence. }
  assert (forall s, exists n sel,
               set_system_calendar c2 s
               = (OK sel, mkstore (Some n) (user_slots s))
               /\ forall s', exists sel',
                   set_system_calendar c2 s'
                   = (OK sel', mkstore (Some n) (user_slots s'))) as S2.
  { intros s. destruct (set_system_calendar_valid c2 s V2)
      as (n & sel & _ & En & E).
    exists n, sel. split; [exact E |]. intros s'.
    destruct (set_system_calendar_valid c2 s' V2) as (n' & sel' & _ & En' & E').
    exists sel'. rewrite E'. congruence. }
  assert (forall (c : option string), valid_calendar_name c ->
            exists n, forall u s,
                snd (set_user_calendar c (Some u) s)
                = mkstore (system_slot s) (<[u := n]> (user_slots s))) as U.
  { intros c V. destruct (normalize_valid c V) as (n & En & _).
    exists n. intros u s.
    destruct (set_user_calendar_valid c u s V) as (n' & _ & En' & ->).
    cbn [snd]. congruence. }
  destruct (U c1 V1) as (n1 & U1). destruct (U c2 V2) as (n2 & U2).
  destruct (S1 st) as (m1 & sel1 & E1 & A1).
  destruct (S2 st) as (m2 & sel2 & E2 & A2).
  repeat split.
  - rewrite E1. cbn [snd]. destruct (A2 (mkstore (Some m1) (user_slots st)))
      as (sel' & ->).
    rewrite E2. reflexivity.
  - rewrite !U1, !U2. cbn [system_slot user_slots].
    rewrite insert_insert_eq. reflexivity.
  - intros Hu. rewrite !U1, !U2. cbn [system_slot user_slots].
    rewrite insert_insert_ne by congruence. reflexivity.
  - rewrite E1, U2. cbn [snd system_slot user_slots].
    destruct (A1 (snd (set_user_calendar c2 (Some u1) st))) as (sel' & ->).
    cbn [snd]. rewrite U2. reflexivity.
Qed.

Lemma setters_compose_witness :
  snd (set_system_calendar (Some "jalali")
         (snd (set_system_calendar (Some "gregorian") _FALLBACK_STORE)))
  = snd (set_system_calendar (Some "jalali") _FALLBACK_STORE).
Proof.
  apply (setters_compose (Some "gregorian") (Some "jalali") "a" "b"
           _FALLBACK_STORE).
  - exists "gregorian". split; [reflexivity | right; reflexivity].
  - exists "jalali". split; [reflexivity | left; reflexivity].
Defined.

(** ** The preference context *)

Lemma resolve_calendar_value (user : option string) (st : store) :
  exists sel, resolve_calendar user st = (OK sel, st)
              /\ is_jalali_enabled user st
                 = (OK (String.eqb (value sel) "jalali"), st).
Proof.
  destruct (resolve_calendar_reads user st) as (sel & R).
  exists sel. split; [exact R |].
  unfold is_jalali_enabled, bind. rewrite R. reflexivity.
Qed.

(** [get_preference_context] never raises and leaves the store alone. Its
    dictionary holds the resolved calendar, its source and the flag
    [is_jalali_enabled] returns; the system calendar and the user's
    calendar are keys of it exactly when the slot is set; it has no other
    key. *)
Theorem preference_context_contents (user : option string) (st : store) :
  exists (sel : CalendarSelection) (enabled : bool)
         (context : gmap string ctxval),
    resolve_calendar user st = (OK sel, st)
    /\ is_jalali_enabled user st = (OK enabled, st)
    /\ get_preference_context user st = (OK context, st)
    /\ get_calendar_preference user st = (OK context, st)
    /\ context !! "active_calendar" = Some (CStr (value sel))
    /\ context !! "source" = Some (CStr (source sel))
    /\ context !! "is_jalali_enabled" = Some (CBool enabled)
    /\ context !! "system_calendar"
       = (let raw := or_else (system_slot st) "" in
          if truthy raw then Some (CStr raw) else None)
    /\ context !! "user_calendar"
       = (let raw := or_else (user ≫= (fun name => user_slots st !! name)) "" in
          if truthy raw then Some (CStr raw) else None)
    /\ (forall key : string,
           key <> "active_calendar" -> key <> "source" ->
           key <> "is_jalali_enabled" -> key <> "system_calendar" ->
           key <> "user_calendar" -> context !! key = None).
Proof.
  destruct (resolve_calendar_value user st) as (sel & R & En).
  exists sel, (String.eqb (value sel) "jalali").
  unfold get_calendar_preference, get_preference_context, bind.
  rewrite R.
  unfold get_system_calendar, get_user_calendar, _read_system_value,
    _read_user_value, bind, read, ret.
  destruct user as [name |]; cbn [mbind option_bind]; cbv beta iota zeta;
    (eexists; split; [reflexivity |]; split; [exact En |];
     split; [reflexivity |]; split; [reflexivity |]);
    repeat match goal with
           | |- context [truthy ?x] => destruct (truthy x)
           end;
    repeat split;
    try (intros key H1 H2 H3 H4 H5);
    repeat (rewrite lookup_insert_ne by congruence);
    try (rewrite lookup_insert_eq); try reflexivity;
    try apply lookup_empty.
Qed.

Lemma preference_context_contents_witness :
  exists (sel : CalendarSelection) (enabled : bool)
         (context : gmap string ctxval),
    resolve_calendar None _FALLBACK_STORE = (OK sel, _FALLBACK_STORE)
    /\ is_jalali_enabled None _FALLBACK_STORE = (OK enabled, _FALLBACK_STORE)
    /\ get_preference_context None _FALLBACK_STORE
       = (OK context, _FALLBACK_STORE)
    /\ get_calendar_preference None _FALLBACK_STORE
       = (OK context, _FALLBACK_STORE)
    /\ context !! "active_calendar" = Some (CStr (value sel))
    /\ context !! "source" = Some (CStr (source sel))
    /\ context !! "is_jalali_enabled" = Some (CBool enabled)
    /\ context !! "system_calendar"
       = (let raw := or_else (system_slot _FALLBACK_STORE) "" in
          if truthy raw then Some (CStr raw) else None)
    /\ context !! "user_calendar"
       = (let raw :=
            or_else (None ≫= (fun name => user_slots _FALLBACK_STORE !! name))
              "" in
          if truthy raw then Some (CStr raw) else None)
    /\ (forall key : string,
           key <> "active_calendar" -> key <> "source" ->
           key <> "is_jalali_enabled" -> key <> "system_calendar" ->
           key <> "user_calendar" -> context !! key = None).
Proof. exact (preference_context_contents None _FALLBACK_STORE). Defined.

Lemma preference_context_has_source (user : option string) (st : store)
  (context : gmap string ctxval) :
  get_preference_context user st = (OK context, st) ->
  exists sel,
    resolve_calendar user st = (OK sel, st)
    /\ context !! "active_calendar" = Some (CStr (value sel))
    /\ context !! "source" = Some (CStr (source sel))
    /\ context !! "is_jalali_enabled"
       = Some (CBool (String.eqb (value sel) "jalali"))
    /\ context !! "system_calendar"
       = (let raw := or_else (system_slot st) "" in
          if truthy raw then Some (CStr raw) else None)
    /\ context !! "user_calendar"
       = (let raw := or_else (user ≫= (fun name => user_slots st !! name)) "" in
          if truthy raw then Some (CStr raw) else None).
Proof.
  intros E.
  destruct (preference_context_contents user st)
    as (sel & en & ctx & R & En & G & _ & A & S & J & Y & U & _).
  destruct (resolve_calendar_value user st) as (sel' & R' & En').
  assert (sel' = sel) as -> by congruence.
  assert (en = String.eqb (value sel) "jalali") as -> by congruence.
  assert (ctx = context) as -> by congruence.
  exists sel. repeat split; assumption.
Qed.

(** ** [set_calendar_preference] *)

Lemma set_calendar_preference_cases
  (scope c user : option string) (st : store) :
  set_calendar_preference scope c user st
  = if String.eqb (lower (strip (or_else scope "user"))) "system" then
      match set_system_calendar c st with
      | (OK _, st') => get_preference_context None st'
      | (Raise e, st') => (Raise e, st')
      end
    else if String.eqb (lower (strip (or_else scope "user"))) "user" then
      match set_user_calendar c user st with
      | (OK _, st') => get_preference_context user st'
      | (Raise e, st') => (Raise e, st')
      end
    else (Raise ValueError, st).
Proof.
  unfold set_calendar_preference. cbv zeta.
  destruct (String.eqb _ "system"); [reflexivity |].
  destruct (String.eqb _ "user"); reflexivity.
Qed.

(** With a scope that reads ["system"] once trimmed and lowercased, and a
    valid calendar, [set_calendar_preference] writes the system slot only
    and returns the context of a call without user: the new calendar with
    the source ["system"] and no user calendar, whatever user was passed
    and whatever that user has stored. *)
Theorem set_calendar_preference_system_scope
  (scope c user : option string) (st : store) :
  lower (strip (or_else scope "user")) = "system" ->
  valid_calendar_name c ->
  exists (n : string) (context : gmap string ctxval),
    _normalize_calendar c = Some n
    /\ set_calendar_preference scope c user st
       = (OK context, mkstore (Some n) (user_slots st))
    /\ context !! "active_calendar" = Some (CStr n)
    /\ context !! "source" = Some (CStr "system")
    /\ context !! "system_calendar" = Some (CStr n)
    /\ context !! "user_calendar" = None.
Proof.
  intros Hs V.
  destruct (set_system_calendar_valid c st V) as (n & sel & Hn & En & E).
  pose proof (calendar_name_truthy n Hn) as T.
  destruct (get_preference_context_reads None
              (mkstore (Some n) (user_slots st))) as (ctx & G).
  destruct (preference_context_has_source None _ ctx G)
    as (sel' & R & A & S & _ & Y & U).
  rewrite (resolve_system None (mkstore (Some n) (user_slots st)) n
             eq_refl T I) in R.
  injection R as <-.
  exists n, ctx. split; [exact En |].
  rewrite set_calendar_preference_cases, Hs.
  change ("system" =? "system")%string with true. cbv iota.
  rewrite E, G. cbn [system_slot or_else mbind option_bind] in Y, U.
  rewrite T in Y. cbv zeta in Y, U. rewrite T in Y.
  repeat split; [exact A | exact S | exact Y | exact U].
Qed.

Lemma set_calendar_preference_system_scope_witness :
  exists (n : string) (context : gmap string ctxval),
    _normalize_calendar (Some "gregorian") = Some n
    /\ set_calendar_preference (Some " System ") (Some "gregorian")
         (Some "demo@example.com")
         (mkstore None (<["demo@example.com" := "jalali"]> ∅))
       = (OK context,
          mkstore (Some n)
            (user_slots (mkstore None (<["demo@example.com" := "jalali"]> ∅))))
    /\ context !! "active_calendar" = Some (CStr n)
    /\ context !! "source" = Some (CStr "system")
    /\ context !! "system_calendar" = Some (CStr n)
    /\ context !! "user_calendar" = None.
Proof.
  apply (set_calendar_preference_system_scope (Some " System ")
           (Some "gregorian") (Some "demo@example.com")
           (mkstore None (<["demo@example.com" := "jalali"]> ∅))).
  - reflexivity.
  - exists "gregorian". split; [reflexivity | right; reflexivity].
Defined.

(** With a scope that reads ["user"], a missing or empty one among them, a
    valid calendar and a user, [set_calendar_preference] writes that user's
    slot only and returns the user's context: the new calendar, as active
    and as user calendar, with the source ["user"]. *)
Theorem set_calendar_preference_user_scope
  (scope c : option string) (name : string) (st : store) :
  lower (strip (or_else scope "user")) = "user" ->
  valid_calendar_name c ->
  exists (n : string) (context : gmap string ctxval),
    _normalize_calendar c = Some n
    /\ set_calendar_preference scope c (Some name) st
       = (OK context,
          mkstore (system_slot st) (<[name := n]> (user_slots st)))
    /\ context !! "active_calendar" = Some (CStr n)
    /\ context !! "source" = Some (CStr "user")
    /\ context !! "user_calendar" = Some (CStr n).
Proof.
  intros Hs V.
  destruct (set_user_calendar_valid c name st V) as (n & Hn & En & E).
  pose proof (calendar_name_truthy n Hn) as T.
  set (st' := mkstore (system_slot st) (<[name := n]> (user_slots st))) in *.
  destruct (get_preference_context_reads (Some name) st') as (ctx & G).
  destruct (preference_context_has_source (Some name) _ ctx G)
    as (sel' & R & A & S & _ & _ & U).
  assert (user_slots st' !! name = Some n) as L
      by (unfold st'; cbn [user_slots]; apply lookup_insert_eq).
  rewrite (resolve_user name st' n L T) in R. injection R as <-.
  exists n, ctx. split; [exact En |].
  rewrite set_calendar_preference_cases, Hs.
  change ("user" =? "system")%string with false.
  change ("user" =? "user")%string with true. cbv iota.
  rewrite E, G. cbn [mbind option_bind] in U. rewrite L in U.
  cbn [or_else] in U. rewrite T in U. cbv zeta in U. rewrite T in U.
  repeat split; [exact A | exact S | exact U].
Qed.

Lemma set_calendar_preference_user_scope_witness :
  exists (n : string) (context : gmap string ctxval),
    _normalize_calendar (Some "Jalali") = Some n
    /\ set_calendar_preference None (Some "Jalali") (Some "demo@example.com")
         _FALLBACK_STORE
       = (OK context,
          mkstore (system_slot _FALLBACK_STORE)
            (<["demo@example.com" := n]> (user_slots _FALLBACK_STORE)))
    /\ context !! "active_calendar" = Some (CStr n)
    /\ context !! "source" = Some (CStr "user")
    /\ context !! "user_calendar" = Some (CStr n).
Proof.
  apply (set_calendar_preference_user_scope None (Some "Jalali")
           "demo@example.com" _FALLBACK_STORE).
  - reflexivity.
  - exists "Jalali"%string. split; [reflexivity | left; reflexivity].
Defined.

(** Whenever [set_calendar_preference] raises, the store is unchanged; it
    raises [ValueError], or [RuntimeError] when no user was passed, and
    nothing else. *)
Theorem set_calendar_preference_raises
  (scope c user : option string) (st : store) (e : exn) :
  fst (set_calendar_preference scope c user st) = Raise e ->
  snd (set_calendar_preference scope c user st) = st
  /\ (e = ValueError \/ (e = RuntimeError /\ user = None)).
Proof.
  rewrite set_calendar_preference_cases.
  destruct (String.eqb _ "system").
  - destruct (valid_calendar_name_dec c) as [V | V].
    + destruct (set_system_calendar_valid c st V) as (n & sel & _ & _ & ->).
      destruct (get_preference_context_reads None
                  (mkstore (Some n) (user_slots st))) as (ctx & ->).
      discriminate.
    + rewrite set_system_calendar_invalid by assumption. cbn [fst snd].
      intros E. injection E as <-. auto.
  - destruct (String.eqb _ "user").
    + destruct (valid_calendar_name_dec c) as [V | V].
      * destruct user as [name |].
        -- destruct (set_user_calendar_valid c name st V) as (n & _ & _ & ->).
           destruct (get_preference_context_reads (Some name)
                       (mkstore (system_slot st)
                          (<[name := n]> (user_slots st)))) as (ctx & ->).
           discriminate.
        -- rewrite set_user_calendar_no_user by assumption. cbn [fst snd].
           intros E. injection E as <-. auto.
      * rewrite set_user_calendar_invalid by assumption. cbn [fst snd].
        intros E. injection E as <-. auto.
    + cbn [fst snd]. intros E. injection E as <-. auto.
Qed.

Lemma set_calendar_preference_raises_witness :
  snd (set_calendar_preference (Some "user") (Some "jalali") None
         _FALLBACK_STORE) = _FALLBACK_STORE
  /\ (RuntimeError = ValueError
      \/ (RuntimeError = RuntimeError /\ @None string = None)).
Proof.
  apply (set_calendar_preference_raises (Some "user") (Some "jalali") None
           _FALLBACK_STORE RuntimeError).
  reflexivity.
Defined.

End PreferenceProperties.

(** * The session hook *)

Section BootProperties.
Import Preferences Boot.
Context {V : Type}.

Lemma boot_session_cases (info : bootinfo V) (st : store) :
  exists context,
    get_preference_context None st = (OK context, st)
    /\ boot_session info st = (inject_context context info, st).
Proof.
  destruct (get_preference_context_reads None st) as (ctx & G).
  exists ctx. split; [exact G |].
  unfold boot_session, bind. rewrite G. reflexivity.
Qed.


End BootProperties.

